(** * HolidaiButler content repair pipeline: regeneration, safeguards, promotion

    A shallow embedding of the three scripts that carry the staged
    promotion workflow:

    - [fase_r4_regeneration.py]  (module [Regeneration]): generation and
      verification of one POI, the verdict-to-status table, response
      parsing, the checkpointed batch runner;
    - [fase_r5_safeguards.py]    (module [Safeguards]): the rule-based
      gate [validate_content] and its batch form [validate_batch];
    - [fase_r5_promote_staging.py] (module [Promote]): batch approval,
      promotion of approved staging rows into the POI table, rollback,
      and the command line that chains them;
    - the HTTP loop of [call_mistral] (module [Transport]): requests,
      retries and pauses.

    Conventions of the embedding.

    - Python [str] is [string] (a sequence of ASCII characters); a
      nullable SQL column or a value that may be [None] is an [option].
    - Python [int] is [Z]; a [float] is the rational it is written as
      ([Q]); the rounding of binary64 is not represented.  Comparisons
      on [Q] go through [Qle_bool]/[Qeq_bool], never through Leibniz
      equality.
    - A JSON object read with [.get(key, default)] is a record of
      optional fields, each at the type the pipeline writes it with.
      A key that holds a value of another type (a null or a string
      where a number is expected, a null where a list is expected, a
      NaN) is outside the embedding: on such a value the code raises,
      or, for a NaN rate, finds every comparison false.
    - [json.loads] belongs to the Python library, not to the repository:
      functions that call it take the decoder as a parameter, [None]
      standing for [JSONDecodeError].
    - The text service ([call_mistral]) is an oracle: the world carries
      a function that gives the answer to the n-th request, and records
      every request made.  Log lines are not represented; pauses are,
      in module [Transport] only. *)

From Stdlib Require Import ZArith QArith String Ascii List Bool Lia.
From stdpp Require Import base option list strings gmap pretty.

Local Open Scope string_scope.
Local Open Scope Z_scope.
Local Open Scope list_scope.

(** ** Python helpers shared by the three scripts *)

Module Py.

(** [c.isspace()] on ASCII: TAB..CR, FS..US and the blank. *)
Definition is_space (c : ascii) : bool :=
  let n := nat_of_ascii c in
  ((9 <=? n)%nat && (n <=? 13)%nat) || ((28 <=? n)%nat && (n <=? 32)%nat).

(** [len(text.split())]: the number of maximal runs of non-blank
    characters.  [in_word] tells whether the previous character belonged
    to a run. *)
Fixpoint count_runs (in_word : bool) (s : string) : nat :=
  match s with
  | EmptyString => 0
  | String c rest =>
      if is_space c then count_runs false rest
      else ((if in_word then 0 else 1) + count_runs true rest)%nat
  end.

Definition split_len (text : string) : Z := Z.of_nat (count_runs false text).

(** [needle in haystack] on strings. *)
Definition contains (needle haystack : string) : bool :=
  match String.index 0 needle haystack with
  | Some _ => true
  | None => false
  end.

(** [s.startswith(p)]. *)
Definition startswith (s p : string) : bool := String.prefix p s.

(** [s[:n]]. *)
Definition take_str (n : nat) (s : string) : string := String.substring 0 n s.

Definition lower_ascii (c : ascii) : ascii :=
  let n := nat_of_ascii c in
  if ((65 <=? n)%nat && (n <=? 90)%nat) then ascii_of_nat (n + 32) else c.

(** [s.lower()] on ASCII. *)
Fixpoint lower (s : string) : string :=
  match s with
  | EmptyString => EmptyString
  | String c rest => String (lower_ascii c) (lower rest)
  end.

(** [sep.join(parts)]. *)
Fixpoint join (sep : string) (parts : list string) : string :=
  match parts with
  | [] => ""
  | [p] => p
  | p :: rest => p +:+ sep +:+ join sep rest
  end.

(** Truth value of a string that may be [None]: false for [None] and
    for the empty string. *)
Definition truthy_str (s : option string) : bool :=
  match s with
  | Some s => negb (String.eqb s "")
  | None => false
  end.

(** Truth value of an integer that may be [None]. *)
Definition truthy_int (n : option Z) : bool :=
  match n with
  | Some n => negb (n =? 0)
  | None => false
  end.

Definition Qgt_bool (a b : Q) : bool := negb (Qle_bool a b).

(** Rounding to the nearest integer, ties to even: what the format
    [.0f] does to its argument. *)
Definition round_half_even (q : Q) : Z :=
  let n := Qnum q in
  let d := Z.pos (Qden q) in
  let fl := n / d in
  let twice := 2 * (n - fl * d) in
  if twice <? d then fl
  else if d <? twice then fl + 1
  else if Z.even fl then fl else fl + 1.

(** [f"{q:.0%}"] (the minus sign Python keeps on a negative value that
    rounds to zero is not reproduced). *)
Definition fmt_percent0 (q : Q) : string :=
  pretty (round_half_even (q * 100)) +:+ "%".

(** [int(x)] of a non-negative product [n * num / den]: truncation. *)
Definition int_scaled (n num den : Z) : Z := Z.quot (n * num) den.

(** The double quote, and a text between double quotes. *)
Definition dq : string := String "034"%char EmptyString.
Definition quoted (s : string) : string := dq +:+ s +:+ dq.

(** Position of the last occurrence of a character. *)
Fixpoint rindex_char (c : ascii) (s : string) : option nat :=
  match s with
  | EmptyString => None
  | String a rest =>
      match rindex_char c rest with
      | Some i => Some (S i)
      | None => if Ascii.eqb a c then Some 0%nat else None
      end
  end.

(** [re.search(r'\{[\s\S]*\}', s)]: from the first opening brace to
    the last closing brace after it. *)
Definition outer_braces (s : string) : option string :=
  match String.index 0 "{" s, rindex_char "}"%char s with
  | Some i, Some j =>
      if (i <? j)%nat then Some (String.substring i (j - i + 1) s) else None
  | _, _ => None
  end.

Fixpoint skip_spaces (s : string) : string :=
  match s with
  | String c rest => if is_space c then skip_spaces rest else s
  | EmptyString => s
  end.

Fixpoint drop_str (n : nat) (s : string) : string :=
  match n, s with
  | S n', String _ rest => drop_str n' rest
  | _, _ => s
  end.

Definition strip_prefix (p s : string) : option string :=
  if String.prefix p s then Some (drop_str (String.length p) s) else None.

(** A match of [key\s*:\s*] at the head of [s]: what follows it. *)
Definition after_key (key s : string) : option string :=
  match strip_prefix key s with
  | Some rest =>
      match strip_prefix ":" (skip_spaces rest) with
      | Some rest' => Some (skip_spaces rest')
      | None => None
      end
  | None => None
  end.

(** [re.search]: the match at the leftmost position where the pattern
    [m] matches. *)
Fixpoint search {A} (m : string -> option A) (s : string) : option A :=
  match m s with
  | Some a => Some a
  | None =>
      match s with
      | EmptyString => None
      | String _ rest => search m rest
      end
  end.

Definition is_digit (c : ascii) : bool :=
  let n := nat_of_ascii c in (48 <=? n)%nat && (n <=? 57)%nat.

(** The longest head of [s] whose characters satisfy [p]. *)
Fixpoint take_while (p : ascii -> bool) (s : string) : string :=
  match s with
  | String c rest => if p c then String c (take_while p rest) else EmptyString
  | EmptyString => EmptyString
  end.

(** [int(text)] on a run of decimal digits. *)
Fixpoint digits_value (acc : Z) (s : string) : Z :=
  match s with
  | String c rest => digits_value (10 * acc + Z.of_nat (nat_of_ascii c - 48)) rest
  | EmptyString => acc
  end.

Definition int_of_digits (s : string) : Z := digits_value 0 s.

(** [float(text)] on a run of digits and dots: [None] is [ValueError]
    (more than one dot, or no digit at all). *)
Definition float_of_text (s : string) : option Q :=
  let whole := take_while is_digit s in
  let rest := drop_str (String.length whole) s in
  match rest with
  | EmptyString =>
      if String.eqb whole "" then None else Some (inject_Z (int_of_digits whole))
  | String _ frac =>
      (* [rest] starts with the first dot *)
      let fdigits := take_while is_digit frac in
      if negb (String.length fdigits =? String.length frac)%nat then None
      else if String.eqb whole "" && String.eqb fdigits "" then None
      else Some (Qplus (inject_Z (int_of_digits whole))
                   (Qmake (int_of_digits fdigits)
                      (Pos.pow 10 (Pos.of_nat (String.length fdigits)))))
  end.

End Py.

(** ** [fase_r3_prompt_templates.py]: what the other scripts import *)

Module PromptTemplates.

Record word_range := { wmin : Z; wmax : Z }.

(** [WORD_TARGETS]: word-count range per quality tier. *)
Definition WORD_TARGETS : gmap string word_range :=
  list_to_map
    [("rich",     {| wmin := 110; wmax := 140 |});
     ("moderate", {| wmin := 85;  wmax := 115 |});
     ("minimal",  {| wmin := 55;  wmax := 85 |});
     ("none",     {| wmin := 30;  wmax := 60 |})].

(** A fact sheet, through the keys [fase_r4_regeneration.py] reads; the
    evidence it carries reaches the text service inside the prompts
    only. *)
Record fact_sheet := {
  fs_poi_id : Z;
  fs_name : option string;
  fs_data_quality : option string;
  fs_destination : option string;
  fs_destination_id : option Z;
  fs_category : option string;
  fs_google_placeid : option string;
}.

(** The pair (system prompt, user prompt) a builder returns.  The
    wording of a prompt is a function of the builder's arguments, so a
    prompt is represented by the call that builds it. *)
Inductive prompt :=
  | build_generation_prompt (fs : fact_sheet)
  | build_verification_prompt (fs : fact_sheet) (generated_text : string).

(** One element of the [unsupported_claims] list of the verification
    output format: a JSON object with an optional [severity], or
    anything that is not an object. *)
Inductive unsupported_claim :=
  | ClaimObj (claim : string) (severity : option string) (reason : string)
  | ClaimOther (raw : string).

End PromptTemplates.

(** ** [fase_r5_safeguards.py] *)

Module Safeguards.

Import PromptTemplates.

(** [WORD_TARGETS]: word-count range per quality tier. *)
Definition WORD_TARGETS : gmap string word_range :=
  list_to_map
    [("rich",     {| wmin := 110; wmax := 140 |});
     ("moderate", {| wmin := 85;  wmax := 115 |});
     ("minimal",  {| wmin := 55;  wmax := 85 |});
     ("none",     {| wmin := 30;  wmax := 60 |})].

Definition WORD_TARGETS_none : word_range := {| wmin := 30; wmax := 60 |}.

(** [KNOWN_DESTINATIONS = {1: 'Calpe', 2: 'Texel'}]. *)
Definition KNOWN_DESTINATIONS : gmap Z string :=
  list_to_map [(1, "Calpe"); (2, "Texel")].

Definition MAX_HALLUCINATION_RATE : Q := 20 # 100.
Definition MAX_HALLUCINATION_RATE_NONE : Q := 30 # 100.

Definition EMBELLISHMENT_BLOCKLIST : list string :=
  ["unique"; "modern"; "cosy"; "cozy"; "convenient"; "charming";
   "inviting"; "vibrant"; "delightful"; "exceptional"; "exquisite";
   "stunning"; "breathtaking"; "magnificent"; "spectacular";
   "world-class"; "must-visit"; "hidden gem"; "best-kept secret";
   "unforgettable"; "unparalleled"; "state-of-the-art";
   "award-winning"; "renowned"; "prestigious"; "iconic"].

(** The verification metadata stored with a staging row
    ([llm_context_json]), seen through the keys the gate reads. *)
Record llm_context := {
  ctx_data_quality : option string;
  ctx_hallucination_rate : option Q;
  ctx_verification_verdict : option string;
  ctx_unsupported_claims : option (list unsupported_claim);
  ctx_word_count : option Z;
}.

(** The empty object [{}]. *)
Definition empty_context : llm_context :=
  {| ctx_data_quality := None; ctx_hallucination_rate := None;
     ctx_verification_verdict := None; ctx_unsupported_claims := None;
     ctx_word_count := None |}.

(** The argument [llm_context_json]: [None], a JSON text, or a dict. *)
Inductive context_arg :=
  | CtxNone
  | CtxStr (text : string)
  | CtxDict (d : llm_context).

(** What [validate_content] returns. *)
Record gate_result := {
  approved : bool;
  reasons : list string;
  warnings : list string;
}.

(** [isinstance(c, dict) and c.get('severity') == 'HIGH']. *)
Definition is_high (c : unsupported_claim) : bool :=
  match c with
  | ClaimObj _ (Some s) _ => String.eqb s "HIGH"
  | _ => false
  end.

(** Lines 77-79: a rate above 1 is a percentage and is converted to a
    fraction. *)
Definition rate_fraction (hallucination_rate : Q) : Q :=
  if Py.Qgt_bool hallucination_rate 1 then (hallucination_rate / 100)%Q
  else hallucination_rate.

Section Gate.

(** [json.loads] restricted to the metadata object. *)
Variable json_loads : string -> option llm_context.

(** Lines 61-69: a text is decoded, a failure or a falsy value gives
    the empty object. *)
Definition decode_context (arg : context_arg) : llm_context :=
  match arg with
  | CtxNone => empty_context
  | CtxStr text => default empty_context (json_loads text)
  | CtxDict d => d
  end.

Definition validate_content (poi_id : Z) (new_content : option string)
    (llm_context_json : context_arg) (destination_id : option Z)
    : gate_result :=
  let ctx := decode_context llm_context_json in
  let data_quality := default "none" (ctx_data_quality ctx) in
  let hallucination_rate := default 1%Q (ctx_hallucination_rate ctx) in
  let unsupported_claims := default [] (ctx_unsupported_claims ctx) in
  let hallucination_rate := rate_fraction hallucination_rate in
  (* RULE 1: HIGH severity claim blocker *)
  let high_severity_claims := filter (fun c => is_high c = true) unsupported_claims in
  let reasons1 :=
    match high_severity_claims with
    | [] => []
    | _ => ["BLOCKED: " +:+ pretty (length high_severity_claims)
              +:+ " HIGH severity unsupported claim(s)"]
    end in
  (* RULE 2: hallucination rate threshold *)
  let threshold :=
    if String.eqb data_quality "none" then MAX_HALLUCINATION_RATE_NONE
    else MAX_HALLUCINATION_RATE in
  let reasons2 :=
    if Py.Qgt_bool hallucination_rate threshold
    then reasons1 ++ ["BLOCKED: Hallucination rate " +:+ Py.fmt_percent0 hallucination_rate
                        +:+ " exceeds " +:+ Py.fmt_percent0 threshold +:+ " threshold"]
    else reasons1 in
  (* RULE 3: word count validation, or empty content *)
  let targets := default WORD_TARGETS_none (WORD_TARGETS !! data_quality) in
  let min_words := Py.int_scaled (wmin targets) 8 10 in
  let max_words := Py.int_scaled (wmax targets) 12 10 in
  let '(reasons3, warnings3) :=
    match new_content with
    | Some text =>
        if String.eqb text "" then (reasons2 ++ ["BLOCKED: Empty content"], [])
        else
          let actual_words := Py.split_len text in
          if actual_words <? min_words then
            (reasons2, ["Word count " +:+ pretty actual_words +:+ " below minimum "
                          +:+ pretty min_words +:+ " for " +:+ data_quality +:+ " quality"])
          else if max_words <? actual_words then
            (reasons2, ["Word count " +:+ pretty actual_words +:+ " above maximum "
                          +:+ pretty max_words +:+ " for " +:+ data_quality +:+ " quality"])
          else (reasons2, [])
    | None => (reasons2 ++ ["BLOCKED: Empty content"], [])
    end in
  (* RULE 4: embellishment keyword check *)
  let warnings4 :=
    if Py.truthy_str new_content then
      let content_lower := Py.lower (default "" new_content) in
      let found_embellishments :=
        filter (fun word => Py.contains word content_lower = true) EMBELLISHMENT_BLOCKLIST in
      match found_embellishments with
      | [] => warnings3
      | _ => warnings3 ++ ["Embellishment words found: "
                             +:+ Py.join ", " (take 5 found_embellishments)]
      end
    else warnings3 in
  (* RULE 5: new destination enforcer *)
  let reasons5 :=
    match destination_id with
    | Some d =>
        if negb (d =? 0) && negb (bool_decide (is_Some (KNOWN_DESTINATIONS !! d)))
        then reasons3 ++ ["BLOCKED: Unknown destination " +:+ pretty d
                            +:+ " — requires mandatory manual review"]
        else reasons3
    | None => reasons3
    end in
  (* RULE 6: source coverage for 'none' quality *)
  let reasons6 :=
    if String.eqb data_quality "none" && Py.Qgt_bool hallucination_rate MAX_HALLUCINATION_RATE
    then
      if negb (existsb (Py.contains "Hallucination rate") reasons5)
      then reasons5 ++ ["BLOCKED: No source data and hallucination rate "
                          +:+ Py.fmt_percent0 hallucination_rate]
      else reasons5
    else reasons5 in
  {| approved := (length reasons6 =? 0)%nat;
     reasons := reasons6;
     warnings := warnings4 |}.

End Gate.

(** The four self-tests at the end of the script. *)
Definition self_test_1 : gate_result :=
  validate_content (fun _ => None) 1
    (Some "This is a restaurant in Den Burg on Texel that serves Dutch pancakes. Open daily from 10:00 to 17:00.")
    (CtxDict {| ctx_data_quality := Some "rich"; ctx_hallucination_rate := Some (10 # 100);
                ctx_verification_verdict := Some "REVIEW"; ctx_unsupported_claims := Some [];
                ctx_word_count := Some 18 |})
    (Some 2).

(** A row handed to [validate_batch].  [None] in [br_detail_description_en]
    and in [br_llm_context_json] is a missing key, for which [row.get]
    supplies [''] and ['{}']. *)
Record batch_row := {
  br_poi_id : Z;
  br_poi_name : option string;
  br_detail_description_en : option (option string);
  br_llm_context_json : option context_arg;
  br_destination_id : option Z;
}.

(** An element of [blocked_details]. *)
Record blocked_detail := {
  bd_poi_id : Z;
  bd_poi_name : string;
  bd_reasons : list string;
  bd_warnings : list string;
}.

(** What [validate_batch] returns. *)
Record batch_result := {
  b_total : nat;
  b_approved : nat;
  b_blocked : nat;
  b_warnings : nat;
  b_blocked_details : list blocked_detail;
}.

Section Batch.

Variable json_loads : string -> option llm_context.

(** The call of [validate_content] that [validate_batch] makes for a row. *)
Definition validate_row (row : batch_row) : gate_result :=
  validate_content json_loads (br_poi_id row)
    (default (Some "") (br_detail_description_en row))
    (default (CtxStr "{}") (br_llm_context_json row))
    (br_destination_id row).

(** One turn of the loop of [validate_batch] on its four variables. *)
Definition validate_step (acc : nat * nat * nat * list blocked_detail)
    (row : batch_row) : nat * nat * nat * list blocked_detail :=
  let '(approved_count, blocked_count, warning_count, blocked_details) := acc in
  let result := validate_row row in
  if approved result then
    (S approved_count, blocked_count,
     match warnings result with
     | [] => warning_count
     | _ => S warning_count
     end,
     blocked_details)
  else
    (approved_count, S blocked_count, warning_count,
     blocked_details ++ [{| bd_poi_id := br_poi_id row;
                            bd_poi_name := default "" (br_poi_name row);
                            bd_reasons := reasons result;
                            bd_warnings := warnings result |}]).

Definition validate_batch (staging_rows : list batch_row) : batch_result :=
  let '(approved_count, blocked_count, warning_count, blocked_details) :=
    foldl validate_step (0, 0, 0, [])%nat staging_rows in
  {| b_total := length staging_rows;
     b_approved := approved_count;
     b_blocked := blocked_count;
     b_warnings := warning_count;
     b_blocked_details := blocked_details |}.

End Batch.

End Safeguards.


(** ** [fase_r4_regeneration.py] *)

Module Regeneration.

Import PromptTemplates.

Definition BATCH_SIZE : nat := 50.
Definition WORD_COUNT_RETRIES : nat := 1.
Definition MISTRAL_MODEL_GENERATE : string := "mistral-large-latest".
Definition MISTRAL_MODEL_VERIFY : string := "mistral-large-latest".
Definition PASS_THRESHOLD : Q := 0.
Definition REVIEW_THRESHOLD : Q := 20 # 100.

(** [STATUS_MAP]: verdict to staging status. *)
Definition STATUS_MAP : gmap string string :=
  list_to_map
    [("PASS",   "approved");
     ("REVIEW", "pending");
     ("FAIL",   "review_required");
     ("ERROR",  "review_required")].

(** [STATUS_MAP['ERROR']]. *)
Definition STATUS_MAP_ERROR : string := default "" (STATUS_MAP !! "ERROR").

(** A function that returns or raises. *)
Inductive outcome (A : Type) :=
  | Returned (a : A)
  | Raised (exn : string).
Arguments Returned {A} a.
Arguments Raised {A} exn.

(** The dict [parse_verification] returns, through the keys read
    downstream; an absent key is [None]. *)
Record verification := {
  v_verdict : option string;
  v_hallucination_rate : option Q;
  v_unsupported : option Z;
  v_total_claims : option Z;
  v_unsupported_claims : option (list unsupported_claim);
  v_error : option string;
  v_raw_response : option string;
  v_parse_note : option string;
}.

(** Lines 306-315: a decoded object without a verdict gets one from
    its rate; a verdict that is present is kept. *)
Definition ensure_verdict (parsed : verification) : verification :=
  match v_verdict parsed with
  | Some _ => parsed
  | None =>
      let rate := default 0%Q (v_hallucination_rate parsed) in
      let verdict :=
        if Qeq_bool rate 0 then "PASS"
        else if Qle_bool rate REVIEW_THRESHOLD then "REVIEW"
        else "FAIL" in
      {| v_verdict := Some verdict;
         v_hallucination_rate := v_hallucination_rate parsed;
         v_unsupported := v_unsupported parsed;
         v_total_claims := v_total_claims parsed;
         v_unsupported_claims := v_unsupported_claims parsed;
         v_error := v_error parsed;
         v_raw_response := v_raw_response parsed;
         v_parse_note := v_parse_note parsed |}
  end.

(** The pattern ["verdict"\s*:\s*"(PASS|REVIEW|FAIL)"] at the head of
    [s]: the captured word. *)
Definition match_verdict (s : string) : option string :=
  match Py.after_key (Py.quoted "verdict") s with
  | Some rest =>
      if String.prefix (Py.quoted "PASS") rest then Some "PASS"
      else if String.prefix (Py.quoted "REVIEW") rest then Some "REVIEW"
      else if String.prefix (Py.quoted "FAIL") rest then Some "FAIL"
      else None
  | None => None
  end.

(** The pattern ["hallucination_rate"\s*:\s*([\d.]+)] at the head of
    [s]: the captured text. *)
Definition match_rate (s : string) : option string :=
  match Py.after_key (Py.quoted "hallucination_rate") s with
  | Some rest =>
      let text := Py.take_while (fun c => Py.is_digit c || Ascii.eqb c "."%char) rest in
      if String.eqb text "" then None else Some text
  | None => None
  end.

(** The pattern ["key"\s*:\s*(\d+)] at the head of [s]. *)
Definition match_count (key : string) (s : string) : option string :=
  match Py.after_key (Py.quoted key) s with
  | Some rest =>
      let text := Py.take_while Py.is_digit rest in
      if String.eqb text "" then None else Some text
  | None => None
  end.

(** Lines 317-333, the handler of [JSONDecodeError]: the key fields are
    pulled out of the raw text.  [None]: no verdict was found and
    control falls through to the last resort. *)
Definition extract_fields (response : string) : outcome (option verification) :=
  let verdict_match := Py.search match_verdict response in
  let rate_match := Py.search match_rate response in
  let unsupported_match := Py.search (match_count "unsupported") response in
  let total_match := Py.search (match_count "total_claims") response in
  match verdict_match with
  | Some verdict =>
      let rate :=
        match rate_match with
        | Some text =>
            match Py.float_of_text text with
            | Some q => Returned q
            | None => Raised "ValueError"
            end
        | None => Returned (5 # 10)
        end in
      match rate with
      | Returned rate =>
          Returned (Some
            {| v_verdict := Some verdict;
               v_hallucination_rate := Some rate;
               v_unsupported := Some (default 0 (Py.int_of_digits <$> unsupported_match));
               v_total_claims := Some (default 0 (Py.int_of_digits <$> total_match));
               v_unsupported_claims := Some [];
               v_error := None;
               v_raw_response := None;
               v_parse_note := Some "Extracted from truncated JSON" |})
      | Raised e => Raised e
      end
  | None => Returned None
  end.

(** Lines 335-346: the first of PASS, REVIEW, FAIL that occurs anywhere
    in the response decides; none of them gives ERROR. *)
Definition last_resort (response : string) : verification :=
  let found (v : string) (rate : Q) :=
    {| v_verdict := Some v;
       v_hallucination_rate := Some rate;
       v_unsupported := None;
       v_total_claims := None;
       v_unsupported_claims := Some [];
       v_error := None;
       v_raw_response := None;
       v_parse_note := Some ("Fallback: found " +:+ v +:+ " in response text") |} in
  if Py.contains "PASS" response then found "PASS" 0%Q
  else if Py.contains "REVIEW" response then found "REVIEW" (15 # 100)
  else if Py.contains "FAIL" response then found "FAIL" (3 # 10)
  else
    {| v_verdict := Some "ERROR";
       v_hallucination_rate := Some 1%Q;
       v_unsupported := None;
       v_total_claims := None;
       v_unsupported_claims := None;
       v_error := Some "Could not parse verification response";
       v_raw_response := Some (Py.take_str 500 response);
       v_parse_note := None |}.

(** *** The text service and the files of a run *)

(** One request to [call_mistral]. *)
Record request := {
  req_prompt : prompt;
  req_temperature : Q;
  req_max_tokens : Z;
  req_model : string;
}.

(** The [llm_context] stored with a staging row ([generated_at], a
    wall-clock reading, is left out). *)
Record llm_context := {
  lc_data_quality : string;
  lc_word_count : Z;
  lc_word_target : word_range;
  lc_verification_verdict : string;
  lc_hallucination_rate : Q;
  lc_unsupported_count : Z;
  lc_total_claims : Z;
  lc_unsupported_claims : list unsupported_claim;
  lc_content_source : string;
  lc_model_generate : string;
  lc_model_verify : string;
  lc_r3_prompt_version : string;
}.

(** The result dict of [process_single_poi]; a key that one of the two
    return paths does not set is an [option]. *)
Record poi_result := {
  r_poi_id : Z;
  r_poi_name : string;
  r_destination : string;
  r_destination_id : Z;
  r_category : string;
  r_data_quality : string;
  r_google_placeid : string;
  r_old_content : string;
  r_new_content : string;
  r_error : option string;
  r_verdict : string;
  r_status : string;
  r_recommendation : string;
  r_rationale : string;
  r_word_count : option Z;
  r_word_target : option word_range;
  r_word_count_ok : option bool;
  r_word_retries : option nat;
  r_verification : option verification;
  r_hallucination_rate : option Q;
  r_llm_context : option llm_context;
}.

(** [compute_stats], through its counters (the averages and the
    per-tier table are left out); [None] is the empty dict returned
    for an empty result list. *)
Record stats := {
  st_total : nat;
  st_verdicts : gmap string nat;
  st_statuses : gmap string nat;
  st_word_count_ok : nat;
  st_word_count_retried : nat;
  st_errors : nat;
}.

(** The content of the checkpoint file.  [cp_results] is the key
    ['results'], which [run_generation_and_verification] reads. *)
Record checkpoint := {
  cp_completed_ids : list Z;
  cp_phase : string;
  cp_stats : option stats;
  cp_results : option (list poi_result);
}.

(** What a run can observe and change outside its own variables: the
    text service, the staging table, the checkpoint file, the results
    file.  The service is a replay function: [oracle n req] is the text
    [call_mistral] returns (after its own HTTP retries) to the request
    [req] when [n] requests have been made before it. *)
Record world := {
  oracle : nat -> request -> string;
  calls : list request;
  staging_log : list poi_result;
  checkpoint_file : option checkpoint;
  results_file : option (list poi_result);
}.

(** Computations over the world that return or raise. *)
Definition M (A : Type) : Type := world -> outcome A * world.

Definition ret {A} (a : A) : M A := fun w => (Returned a, w).

Definition bind {A B} (m : M A) (k : A -> M B) : M B :=
  fun w =>
    match m w with
    | (Returned a, w') => k a w'
    | (Raised e, w') => (Raised e, w')
    end.

Definition lift {A} (o : outcome A) : M A := fun w => (o, w).

Notation "'do' x <- m ;; k" := (bind m (fun x => k))
  (at level 10, x name, m at level 99, k at level 200).
Notation "'do' ' pat <- m ;; k" := (bind m (fun x => let 'pat := x in k))
  (at level 10, pat pattern, m at level 99, k at level 200).

(** [call_mistral]: the request is recorded and the service answers. *)
Definition call_mistral (p : prompt) (temperature : Q) (max_tokens : Z)
    (model : string) : M string :=
  fun w =>
    let req := {| req_prompt := p; req_temperature := temperature;
                  req_max_tokens := max_tokens; req_model := model |} in
    (Returned (oracle w (length (calls w)) req),
     {| oracle := oracle w; calls := calls w ++ [req];
        staging_log := staging_log w;
        checkpoint_file := checkpoint_file w;
        results_file := results_file w |}).

(** [write_to_staging]: the rows reach the staging table in order. *)
Definition write_to_staging (entries : list poi_result) : M unit :=
  fun w =>
    (Returned tt,
     {| oracle := oracle w; calls := calls w;
        staging_log := staging_log w ++ entries;
        checkpoint_file := checkpoint_file w;
        results_file := results_file w |}).

Definition save_checkpoint (state : checkpoint) : M unit :=
  fun w =>
    (Returned tt,
     {| oracle := oracle w; calls := calls w;
        staging_log := staging_log w;
        checkpoint_file := Some state;
        results_file := results_file w |}).

Definition load_checkpoint : M checkpoint :=
  fun w =>
    (Returned
       (default {| cp_completed_ids := []; cp_phase := "generation";
                   cp_stats := None; cp_results := None |}
                (checkpoint_file w)),
     w).

(** [json.dump(results, f)] on [RESULTS_PATH], opened for writing. *)
Definition save_results (results : list poi_result) : M unit :=
  fun w =>
    (Returned tt,
     {| oracle := oracle w; calls := calls w;
        staging_log := staging_log w;
        checkpoint_file := checkpoint_file w;
        results_file := Some results |}).

Definition count_words (text : string) : Z := Py.split_len text.

Definition out_of_range (targets : word_range) (word_count : Z) : bool :=
  (word_count <? wmin targets) || (wmax targets <? word_count).

(** Lines 381-390: the retry loop on the word count.  [remaining] is
    [WORD_COUNT_RETRIES - retry_count], the turns the loop condition
    still allows. *)
Fixpoint retry_word_count (remaining : nat) (p : prompt) (targets : word_range)
    (generated_text : string) (word_count : Z) (retry_count : nat)
    : M (string * Z * nat) :=
  match remaining with
  | O => ret (generated_text, word_count, retry_count)
  | S remaining' =>
      if out_of_range targets word_count then
        let retry_count := S retry_count in
        do generated_text <-
          call_mistral p ((3 # 10) + inject_Z (Z.of_nat retry_count) * (1 # 10))%Q
            400 MISTRAL_MODEL_GENERATE ;;
        if Py.startswith generated_text "ERROR:" then
          ret (generated_text, word_count, retry_count)
        else
          retry_word_count remaining' p targets generated_text
            (count_words generated_text) retry_count
      else ret (generated_text, word_count, retry_count)
  end.

(** [[c for c in unsupported_claims if c.get('severity') == 'HIGH']]:
    an element that is not an object has no [get]. *)
Fixpoint high_severity_of (claims : list unsupported_claim)
    : outcome (list unsupported_claim) :=
  match claims with
  | [] => Returned []
  | ClaimObj c sev r :: rest =>
      match high_severity_of rest with
      | Returned hs =>
          Returned (if bool_decide (sev = Some "HIGH") then ClaimObj c sev r :: hs else hs)
      | Raised e => Raised e
      end
  | ClaimOther _ :: _ => Raised "AttributeError"
  end.

(** The result before generation (lines 357-366). *)
Definition initial_result (fs : fact_sheet) (old_content : string) : poi_result :=
  {| r_poi_id := fs_poi_id fs;
     r_poi_name := default "Unknown" (fs_name fs);
     r_destination := default "Unknown" (fs_destination fs);
     r_destination_id := default 0 (fs_destination_id fs);
     r_category := default "" (fs_category fs);
     r_data_quality := default "none" (fs_data_quality fs);
     r_google_placeid := default "" (fs_google_placeid fs);
     r_old_content := old_content;
     r_new_content := "";
     r_error := None;
     r_verdict := "";
     r_status := "";
     r_recommendation := "";
     r_rationale := "";
     r_word_count := None;
     r_word_target := None;
     r_word_count_ok := None;
     r_word_retries := None;
     r_verification := None;
     r_hallucination_rate := None;
     r_llm_context := None |}.

(** Lines 372-379: generation failed. *)
Definition generation_failed (result : poi_result) (generated_text : string)
    : poi_result :=
  {| r_poi_id := r_poi_id result;
     r_poi_name := r_poi_name result;
     r_destination := r_destination result;
     r_destination_id := r_destination_id result;
     r_category := r_category result;
     r_data_quality := r_data_quality result;
     r_google_placeid := r_google_placeid result;
     r_old_content := r_old_content result;
     r_new_content := "";
     r_error := Some generated_text;
     r_verdict := "ERROR";
     r_status := STATUS_MAP_ERROR;
     r_recommendation := "MANUAL_REVIEW";
     r_rationale := "Generation failed: " +:+ generated_text;
     r_word_count := None;
     r_word_target := None;
     r_word_count_ok := None;
     r_word_retries := None;
     r_verification := None;
     r_hallucination_rate := None;
     r_llm_context := None |}.

(** Lines 405-451: the verification is recorded, the verdict mapped to
    a staging status, the recommendation set, the context built. *)
Definition record_verification (result : poi_result) (generated_text : string)
    (word_count : Z) (targets : word_range) (retry_count : nat)
    (verification : verification) : outcome poi_result :=
  let quality := r_data_quality result in
  let verdict := default "ERROR" (v_verdict verification) in
  let hallucination_rate := default (-1 # 1) (v_hallucination_rate verification) in
  let status := default STATUS_MAP_ERROR (STATUS_MAP !! verdict) in
  let unsupported := default 0 (v_unsupported verification) in
  let total := default 0 (v_total_claims verification) in
  let unsupported_claims := default [] (v_unsupported_claims verification) in
  let advice : outcome (string * string) :=
    if String.eqb verdict "PASS" then
      Returned ("USE_NEW",
                "Verification PASS: 0 unsupported claims. Quality: " +:+ quality +:+ ".")
    else if String.eqb verdict "REVIEW" then
      Returned ("USE_NEW",
                "Verification REVIEW: " +:+ pretty unsupported +:+ "/" +:+ pretty total
                +:+ " minor unsupported claims (" +:+ Py.fmt_percent0 hallucination_rate
                +:+ "). Quality: " +:+ quality +:+ ".")
    else if String.eqb verdict "FAIL" then
      match high_severity_of unsupported_claims with
      | Returned [] =>
          Returned ("USE_NEW",
                    "Verification FAIL (no HIGH severity): " +:+ pretty unsupported
                    +:+ " unsupported claims. Quality: " +:+ quality +:+ ".")
      | Returned high_severity =>
          Returned ("MANUAL_REVIEW",
                    "Verification FAIL: " +:+ pretty (length high_severity)
                    +:+ " HIGH severity claims. Quality: " +:+ quality +:+ ".")
      | Raised e => Raised e
      end
    else
      Returned ("MANUAL_REVIEW",
                "Verification error: " +:+ verdict +:+ ". Quality: " +:+ quality +:+ ".") in
  match advice with
  | Raised e => Raised e
  | Returned (recommendation, rationale) =>
      Returned
        {| r_poi_id := r_poi_id result;
           r_poi_name := r_poi_name result;
           r_destination := r_destination result;
           r_destination_id := r_destination_id result;
           r_category := r_category result;
           r_data_quality := quality;
           r_google_placeid := r_google_placeid result;
           r_old_content := r_old_content result;
           r_new_content := generated_text;
           r_error := None;
           r_verdict := verdict;
           r_status := status;
           r_recommendation := recommendation;
           r_rationale := rationale;
           r_word_count := Some word_count;
           r_word_target := Some targets;
           r_word_count_ok := Some (negb (out_of_range targets word_count));
           r_word_retries := Some retry_count;
           r_verification := Some verification;
           r_hallucination_rate := Some hallucination_rate;
           r_llm_context := Some
             {| lc_data_quality := quality;
                lc_word_count := word_count;
                lc_word_target := targets;
                lc_verification_verdict := verdict;
                lc_hallucination_rate := hallucination_rate;
                lc_unsupported_count := unsupported;
                lc_total_claims := total;
                lc_unsupported_claims := take 5 unsupported_claims;
                lc_content_source := "fase_r4_regeneration";
                lc_model_generate := MISTRAL_MODEL_GENERATE;
                lc_model_verify := MISTRAL_MODEL_VERIFY;
                lc_r3_prompt_version := "v3_final" |} |}
  end.

Section Parsing.

(** [json.loads] on the text between the outer braces, read as a
    verification object; [None] is [JSONDecodeError]. *)
Variable json_loads : string -> option verification.

Definition parse_verification (response : string) : outcome verification :=
  if Py.startswith response "ERROR:" then
    Returned
      {| v_verdict := Some "ERROR";
         v_hallucination_rate := Some 1%Q;
         v_unsupported := None;
         v_total_claims := None;
         v_unsupported_claims := None;
         v_error := Some response;
         v_raw_response := None;
         v_parse_note := None |}
  else
    match Py.outer_braces response with
    | Some json_str =>
        match json_loads json_str with
        | Some parsed => Returned (ensure_verdict parsed)
        | None =>
            match extract_fields response with
            | Returned (Some v) => Returned v
            | Returned None => Returned (last_resort response)
            | Raised e => Raised e
            end
        end
    | None => Returned (last_resort response)
    end.

(** [process_single_poi]: generate, then verify.  The pauses
    ([time.sleep]) are not represented. *)
Definition process_single_poi (fact_sheet : fact_sheet) (old_content : string)
    : M poi_result :=
  let quality := default "none" (fs_data_quality fact_sheet) in
  let targets :=
    default {| wmin := 30; wmax := 60 |} (WORD_TARGETS !! quality) in
  let result := initial_result fact_sheet old_content in
  (* Step 1: generate *)
  let p := build_generation_prompt fact_sheet in
  do generated_text <- call_mistral p (4 # 10) 400 MISTRAL_MODEL_GENERATE ;;
  if Py.startswith generated_text "ERROR:" then
    ret (generation_failed result generated_text)
  else
    do ' (generated_text, word_count, retry_count) <-
      retry_word_count WORD_COUNT_RETRIES p targets generated_text
        (count_words generated_text) 0%nat ;;
    (* Step 2: verify *)
    do verify_response <-
      call_mistral (build_verification_prompt fact_sheet generated_text)
        (1 # 10) 1500 MISTRAL_MODEL_VERIFY ;;
    do verification <- lift (parse_verification verify_response) ;;
    lift (record_verification result generated_text word_count targets
            retry_count verification).

End Parsing.

(** *** The batch runner *)

(** [Counter(key(r) for r in results)]. *)
Definition count_by (key : poi_result -> string) (results : list poi_result)
    : gmap string nat :=
  foldl (fun m r => <[key r := S (default 0%nat (m !! key r))]> m) ∅ results.

Definition compute_stats (results : list poi_result) : option stats :=
  match results with
  | [] => None
  | _ =>
      Some
        {| st_total := length results;
           st_verdicts := count_by r_verdict results;
           st_statuses := count_by r_status results;
           st_word_count_ok :=
             length (filter (fun r => r_word_count_ok r = Some true) results);
           st_word_count_retried :=
             length (filter (fun r => (0 < default 0 (r_word_retries r))%nat) results);
           st_errors :=
             length (filter (fun r => Py.truthy_str (r_error r) = true) results) |}
  end.

(** The variables of the loop of [run_generation_and_verification]. *)
Record run_state := {
  rs_results : list poi_result;
  rs_completed_ids : gset Z;
  rs_batch_for_staging : list poi_result;
}.

(** [l[:n]], also for a negative [n]. *)
Definition py_take {A} (n : Z) (l : list A) : list A :=
  if 0 <=? n then take (Z.to_nat n) l
  else take (length l - Z.to_nat (- n)) l.

(** Lines 466-471: the fact sheets still to do, after offset and limit. *)
Definition select_remaining (fact_sheets : list fact_sheet)
    (completed_ids : gset Z) (limit : option Z) (offset : Z) : list fact_sheet :=
  let remaining := filter (fun fs => fs_poi_id fs ∉ completed_ids) fact_sheets in
  let remaining :=
    if 0 <? offset then drop (Z.to_nat offset) remaining else remaining in
  if Py.truthy_int limit then py_take (default 0 limit) remaining else remaining.

Section Runner.

Variable json_loads : string -> option verification.

(** One turn of the loop (lines 479-523, the log lines apart). *)
Definition loop_body (old_content_map : gmap Z string) (st : run_state)
    (fs : fact_sheet) : M run_state :=
  let poi_id := fs_poi_id fs in
  let old_content := default "" (old_content_map !! poi_id) in
  do result <- process_single_poi json_loads fs old_content ;;
  let results := rs_results st ++ [result] in
  let completed_ids := rs_completed_ids st ∪ {[poi_id]} in
  let batch_for_staging := rs_batch_for_staging st ++ [result] in
  if (BATCH_SIZE <=? length batch_for_staging)%nat then
    do _ <- write_to_staging batch_for_staging ;;
    do _ <- save_checkpoint
              {| cp_completed_ids := elements completed_ids;
                 cp_phase := "generation";
                 cp_stats := compute_stats results;
                 cp_results := None |} ;;
    ret {| rs_results := results; rs_completed_ids := completed_ids;
           rs_batch_for_staging := [] |}
  else
    ret {| rs_results := results; rs_completed_ids := completed_ids;
           rs_batch_for_staging := batch_for_staging |}.

Fixpoint run_loop (old_content_map : gmap Z string)
    (remaining : list fact_sheet) (st : run_state) : M run_state :=
  match remaining with
  | [] => ret st
  | fs :: rest =>
      do st' <- loop_body old_content_map st fs ;;
      run_loop old_content_map rest st'
  end.

(** The variables as the loop finds them (lines 463-476). *)
Definition initial_state (checkpoint : checkpoint) : run_state :=
  {| rs_results := default [] (cp_results checkpoint);
     rs_completed_ids := list_to_set (cp_completed_ids checkpoint);
     rs_batch_for_staging := [] |}.

Definition run_generation_and_verification (fact_sheets : list fact_sheet)
    (old_content_map : gmap Z string) (checkpoint : checkpoint)
    (limit : option Z) (offset : Z) : M (list poi_result) :=
  let st0 := initial_state checkpoint in
  let remaining :=
    select_remaining fact_sheets (rs_completed_ids st0) limit offset in
  do st <- run_loop old_content_map remaining st0 ;;
  (* final staging write *)
  do _ <- match rs_batch_for_staging st with
          | [] => ret tt
          | batch => write_to_staging batch
          end ;;
  (* final checkpoint *)
  do _ <- save_checkpoint
            {| cp_completed_ids := elements (rs_completed_ids st);
               cp_phase := "complete";
               cp_stats := compute_stats (rs_results st);
               cp_results := None |} ;;
  (* save full results *)
  do _ <- save_results (rs_results st) ;;
  ret (rs_results st).

(** [main], from the loading of the checkpoint to the return of the
    runner; [old_content_map] is what [get_current_content] fetched. *)
Definition main (resume : bool) (fact_sheets : list fact_sheet)
    (old_content_map : gmap Z string) (limit : option Z) (offset : Z)
    : M (list poi_result) :=
  do checkpoint <-
    (if resume then load_checkpoint
     else ret {| cp_completed_ids := []; cp_phase := "generation";
                 cp_stats := None; cp_results := None |}) ;;
  run_generation_and_verification fact_sheets old_content_map checkpoint
    limit offset.

(** A fresh run that is killed when [k] items have gone through the
    loop: the variables of the process are lost, the world is what the
    run has made of it so far. *)
Definition killed_after (k : nat) (fact_sheets : list fact_sheet)
    (old_content_map : gmap Z string) (w : world) : world :=
  let checkpoint := {| cp_completed_ids := []; cp_phase := "generation";
                       cp_stats := None; cp_results := None |} in
  let st0 := initial_state checkpoint in
  let remaining := select_remaining fact_sheets (rs_completed_ids st0) None 0 in
  snd (run_loop old_content_map (take k remaining) st0 w).

End Runner.

(** [w'] differs from [w] in the requests made at most. *)
Definition same_files (w w' : world) : Prop :=
  oracle w' = oracle w
  /\ staging_log w' = staging_log w
  /\ checkpoint_file w' = checkpoint_file w
  /\ results_file w' = results_file w.

(** The checkpoint on disk, if there is one, holds no results. *)
Definition checkpoint_without_results (w : world) : Prop :=
  forall cp, checkpoint_file w = Some cp -> cp_results cp = None.

(** *** Measures used in the statements *)

(** The requests a computation adds to the log. *)
Definition adds_requests {A} (m : M A) (lo hi : nat) : Prop :=
  forall w, exists new,
    calls (m w).2 = calls w ++ new /\ (lo <= length new <= hi)%nat.

(** The ids of a list of results. *)
Definition ids_of (results : list poi_result) : gset Z :=
  list_to_set (map r_poi_id results).

(** The sum of the counters of a [Counter]. *)
Definition counted (m : gmap string nat) : nat :=
  map_fold (fun _ n total => (n + total)%nat) 0%nat m.

End Regeneration.

(** ** [fase_r5_promote_staging.py] *)

Module Promote.

Definition R4_BATCH_DATE : string := "2026-02-13".
Definition FIELD : string := "enriched_detail_description".

(** A row of [poi_content_staging] ([applied_at] and [reviewed_at],
    clock readings, are left out; [s_created_date] is
    [DATE(created_at)]).  The rows of the table are kept in the order of
    [created_at]. *)
Record staging_row := {
  s_id : Z;
  s_poi_id : Z;
  s_poi_name : option string;
  s_detail_description_en : option string;
  s_llm_context_json : option string;
  s_destination_id : option Z;
  s_old_content_snapshot : option string;
  s_comparison_recommendation : option string;
  s_comparison_rationale : option string;
  s_status : string;
  s_created_date : string;
  s_review_notes : option string;
  s_reviewed_by : option string;
}.

(** A row of [poi_content_history] ([verification_result], a re-encoding
    of the staging metadata, is left out).  The table is kept in the
    order of [created_at], the most recent entry last. *)
Record history_entry := {
  h_poi_id : Z;
  h_field_name : string;
  h_old_value : option string;
  h_new_value : option string;
  h_change_source : string;
  h_change_reason : string;
  h_changed_by : string;
}.

(** The three tables.  [POI] maps an id to the column
    [enriched_detail_description], which may be NULL. *)
Record store := {
  staging : list staging_row;
  POI : gmap Z (option string);
  history : list history_entry;
}.

Definition set_status (status : string) (notes : option string)
    (row : staging_row) : staging_row :=
  {| s_id := s_id row;
     s_poi_id := s_poi_id row;
     s_poi_name := s_poi_name row;
     s_detail_description_en := s_detail_description_en row;
     s_llm_context_json := s_llm_context_json row;
     s_destination_id := s_destination_id row;
     s_old_content_snapshot := s_old_content_snapshot row;
     s_comparison_recommendation := s_comparison_recommendation row;
     s_comparison_rationale := s_comparison_rationale row;
     s_status := status;
     s_created_date := s_created_date row;
     s_review_notes := notes;
     s_reviewed_by := s_reviewed_by row |}.

(** [UPDATE poi_content_staging SET status = 'applied' WHERE id = %s]. *)
Definition mark_applied (id : Z) (db : store) : store :=
  {| staging :=
       map (fun row => if s_id row =? id
                       then set_status "applied" (s_review_notes row) row
                       else row) (staging db);
     POI := POI db;
     history := history db |}.

(** What a sequence of [mark_applied], one for each id of [ids], does
    to a row. *)
Definition applied_by (ids : list Z) (row : staging_row) : staging_row :=
  if existsb (Z.eqb (s_id row)) ids
  then set_status "applied" (s_review_notes row) row
  else row.

(** [UPDATE POI SET enriched_detail_description = %s WHERE id = %s]. *)
Definition update_POI (poi_id : Z) (content : option string) (db : store) : store :=
  {| staging := staging db;
     POI := alter (fun _ => content) poi_id (POI db);
     history := history db |}.

(** [INSERT INTO poi_content_history ...]. *)
Definition insert_history (entry : history_entry) (db : store) : store :=
  {| staging := staging db;
     POI := POI db;
     history := history db ++ [entry] |}.

(** The rows the promotion selects: of the batch, and approved. *)
Definition is_selected (row : staging_row) : bool :=
  String.eqb (s_created_date row) R4_BATCH_DATE && String.eqb (s_status row) "approved".

(** The body of the loop over the selected rows (lines 198-271); the
    counters are [promoted] and [errors]. *)
Definition promote_row (acc : Z * Z * store) (row : staging_row) : Z * Z * store :=
  let '(promoted, errors, db) := acc in
  match POI db !! s_poi_id row with
  | None => (promoted, errors + 1, db)
  | Some old_content =>
      let new_content := s_detail_description_en row in
      if bool_decide (old_content = new_content) then
        (* skip if content is the same *)
        (promoted + 1, errors, mark_applied (s_id row) db)
      else
        let db := update_POI (s_poi_id row) new_content db in
        let db :=
          insert_history
            {| h_poi_id := s_poi_id row;
               h_field_name := FIELD;
               h_old_value := old_content;
               h_new_value := new_content;
               h_change_source := "fase_r4_staging";
               h_change_reason :=
                 if Py.truthy_str (s_comparison_rationale row)
                 then default "" (s_comparison_rationale row)
                 else "R4 regeneration approved";
               h_changed_by := "system_r5" |} db in
        (promoted + 1, errors, mark_applied (s_id row) db)
  end.

(** [promote_to_production]: the number it returns and the store it
    leaves. *)
Definition promote_to_production (dry_run : bool) (db : store) : Z * store :=
  let rows := List.filter is_selected (staging db) in
  match rows with
  | [] => (0, db)
  | _ =>
      if dry_run then (Z.of_nat (length rows), db)
      else
        let '(promoted, _, db') := foldl promote_row (0, 0, db) rows in
        (promoted, db')
  end.

(** The most recent audit entry of a POI's description. *)
Definition latest_history (poi_id : Z) (db : store) : option history_entry :=
  last (List.filter
          (fun h => (h_poi_id h =? poi_id) && String.eqb (h_field_name h) FIELD)
          (history db)).

(** The most recent staging row of a POI in the batch. *)
Definition latest_staging (poi_id : Z) (db : store) : option staging_row :=
  last (List.filter
          (fun row => (s_poi_id row =? poi_id)
                      && String.eqb (s_created_date row) R4_BATCH_DATE)
          (staging db)).

(** Lines 283-318: the content to restore, [None] when the function
    gives up (no rollback data, or an empty old content). *)
Definition rollback_content (poi_id : Z) (db : store) : option string :=
  let old_content :=
    match latest_history poi_id db with
    | Some h => h_old_value h
    | None =>
        match latest_staging poi_id db with
        | Some row =>
            if Py.truthy_str (s_old_content_snapshot row)
            then s_old_content_snapshot row else None
        | None => None
        end
    end in
  if Py.truthy_str old_content then old_content else None.

(** [rollback_poi]: what it returns and the store it leaves. *)
Definition rollback_poi (poi_id : Z) (dry_run : bool) (db : store) : bool * store :=
  match rollback_content poi_id db with
  | None => (false, db)
  | Some old_content =>
      if dry_run then (true, db)
      else
        let current := POI db !! poi_id in
        let db1 := update_POI poi_id (Some old_content) db in
        let db2 :=
          insert_history
            {| h_poi_id := poi_id;
               h_field_name := FIELD;
               h_old_value := default (Some "") current;
               h_new_value := Some old_content;
               h_change_source := "rollback";
               h_change_reason := "Manual rollback via fase_r5_promote_staging.py";
               h_changed_by := "system_r5" |} db1 in
        (true,
         {| staging :=
              map (fun row =>
                     if (s_poi_id row =? poi_id)
                        && String.eqb (s_created_date row) R4_BATCH_DATE
                        && String.eqb (s_status row) "applied"
                     then set_status "rejected" (Some "Rolled back via R5") row
                     else row) (staging db2);
            POI := POI db2;
            history := history db2 |})
  end.

(** *** [batch_approve] *)

(** The rows [batch_approve] selects: of the batch, recommended
    [USE_NEW], and pending or in need of review. *)
Definition is_candidate (row : staging_row) : bool :=
  String.eqb (s_created_date row) R4_BATCH_DATE
  && bool_decide (s_comparison_recommendation row = Some "USE_NEW")
  && (String.eqb (s_status row) "pending"
      || String.eqb (s_status row) "review_required").

(** [SET status = 'approved', reviewed_by = 'system_r5', reviewed_at = NOW()]
    on one row; [reviewed_at], a clock reading, is not a column of the
    model. *)
Definition set_approved (row : staging_row) : staging_row :=
  {| s_id := s_id row;
     s_poi_id := s_poi_id row;
     s_poi_name := s_poi_name row;
     s_detail_description_en := s_detail_description_en row;
     s_llm_context_json := s_llm_context_json row;
     s_destination_id := s_destination_id row;
     s_old_content_snapshot := s_old_content_snapshot row;
     s_comparison_recommendation := s_comparison_recommendation row;
     s_comparison_rationale := s_comparison_rationale row;
     s_status := "approved";
     s_created_date := s_created_date row;
     s_review_notes := s_review_notes row;
     s_reviewed_by := Some "system_r5" |}.

(** [UPDATE poi_content_staging SET status = 'approved',
    reviewed_by = 'system_r5', reviewed_at = NOW() WHERE id = %s]. *)
Definition mark_approved (id : Z) (db : store) : store :=
  {| staging :=
       map (fun row => if s_id row =? id then set_approved row else row)
         (staging db);
     POI := POI db;
     history := history db |}.

Section Approve.

Variable json_loads : string -> option Safeguards.llm_context.

(** The call of [validate_content] that [batch_approve] makes for a row;
    the metadata column comes back from the database as a text or as
    NULL. *)
Definition gate_of_row (row : staging_row) : Safeguards.gate_result :=
  Safeguards.validate_content json_loads (s_poi_id row)
    (s_detail_description_en row)
    (match s_llm_context_json row with
     | Some text => Safeguards.CtxStr text
     | None => Safeguards.CtxNone
     end)
    (s_destination_id row).

(** One turn of the loop (lines 136-154); the counters are [approved]
    and [blocked]. *)
Definition approve_row (acc : Z * Z * store) (row : staging_row) : Z * Z * store :=
  let '(approved, blocked, db) := acc in
  if Safeguards.approved (gate_of_row row)
  then (approved + 1, blocked, mark_approved (s_id row) db)
  else (approved, blocked + 1, db).

(** [batch_approve]: the number it returns and the store it leaves. *)
Definition batch_approve (dry_run : bool) (db : store) : Z * store :=
  let rows := List.filter is_candidate (staging db) in
  match rows with
  | [] => (0, db)
  | _ =>
      if dry_run then (Z.of_nat (length rows), db)
      else
        let '(approved, _, db') := foldl approve_row (0, 0, db) rows in
        (approved, db')
  end.

(** The options of the command line ([--dry-run] is not read). *)
Record args := {
  a_execute : bool;
  a_batch_approve : bool;
  a_rollback : option Z;
  a_status : bool;
}.

(** [main] (lines 365-432): the store it leaves.  [show_status] only
    reads. *)
Definition main (a : args) (db : store) : store :=
  let dry_run := negb (a_execute a) in
  if a_status a then db
  else if Py.truthy_int (a_rollback a) then
    (rollback_poi (default 0 (a_rollback a)) dry_run db).2
  else
    let db :=
      if a_batch_approve a then (batch_approve dry_run db).2 else db in
    (promote_to_production dry_run db).2.

End Approve.

(** The audit entries [entries] of one POI, read in order, start from
    the text [content] and each start from the text the one before it
    left. *)
Fixpoint audit_chain (content : option string) (entries : list history_entry)
    : Prop :=
  match entries with
  | [] => True
  | entry :: rest =>
      h_old_value entry = content /\ audit_chain (h_new_value entry) rest
  end.

(** The text the entries leave behind them. *)
Definition audit_result (content : option string) (entries : list history_entry)
    : option string :=
  foldl (fun _ entry => h_new_value entry) content entries.

(** The entries of [entries] that are about the description of [poi_id]. *)
Definition entries_of (poi_id : Z) (entries : list history_entry)
    : list history_entry :=
  List.filter (fun h => (h_poi_id h =? poi_id) && String.eqb (h_field_name h) FIELD)
    entries.

(** What a sequence of [mark_approved], one for each id of [ids], does
    to a row. *)
Definition approved_by (ids : list Z) (row : staging_row) : staging_row :=
  if existsb (Z.eqb (s_id row)) ids then set_approved row else row.

(** The audit entries written between [db] and [db'] account for the
    text of [p]. *)
Definition audited (p : Z) (db db' : store) : Prop :=
  exists entries,
    history db' = history db ++ entries
    /\ match POI db !! p with
       | Some old =>
           audit_chain old (entries_of p entries)
           /\ POI db' !! p = Some (audit_result old (entries_of p entries))
       | None => POI db' !! p = None
       end.

End Promote.

(** ** [call_mistral]: the HTTP exchange and its retries *)

Module Transport.

Definition MAX_RETRIES : nat := 3.
Definition RETRY_DELAY : Z := 3.

(** What one [urlopen] comes to: an answer whose JSON holds the content
    of the first choice, an [HTTPError] with its code and body, or any
    other exception (time-out, connection failure, an answer that does
    not decode), with its message. *)
Inductive http_outcome :=
  | Answered (content : string)
  | HTTPError (code : Z) (error_body : string)
  | OtherException (message : string).

(** What the function does besides returning. *)
Inductive event :=
  | Requested
  | Slept (seconds : Z).

Fixpoint rstrip (s : string) : string :=
  match s with
  | EmptyString => EmptyString
  | String c rest =>
      let rest' := rstrip rest in
      if Py.is_space c && String.eqb rest' "" then EmptyString else String c rest'
  end.

(** [s.strip()]. *)
Definition strip (s : string) : string := rstrip (Py.skip_spaces s).

(** The loop [for attempt in range(MAX_RETRIES)], from [attempt] on,
    with [remaining] turns left; [network n] is what the [n]-th
    [urlopen] of the call comes to. *)
Fixpoint attempts (network : nat -> http_outcome) (attempt remaining : nat)
    (trace : list event) : string * list event :=
  match remaining with
  | O => ("ERROR: Max retries exceeded", trace)
  | S remaining' =>
      match network attempt with
      | Answered content => (strip content, trace ++ [Requested])
      | HTTPError code error_body =>
          if code =? 429 then
            attempts network (S attempt) remaining'
              (trace ++ [Requested; Slept (RETRY_DELAY * (Z.of_nat attempt + 2))])
          else if 500 <=? code then
            attempts network (S attempt) remaining'
              (trace ++ [Requested; Slept RETRY_DELAY])
          else
            ("ERROR: HTTP " +:+ pretty code +:+ ": " +:+ Py.take_str 200 error_body,
             trace ++ [Requested])
      | OtherException message =>
          if (attempt <? MAX_RETRIES - 1)%nat then
            attempts network (S attempt) remaining'
              (trace ++ [Requested; Slept RETRY_DELAY])
          else ("ERROR: " +:+ message, trace ++ [Requested])
      end
  end.

(** [call_mistral]: the text it returns and what it did. *)
Definition call_mistral (network : nat -> http_outcome) : string * list event :=
  attempts network 0 MAX_RETRIES [].

Definition requests (trace : list event) : nat :=
  length (List.filter (fun e => match e with Requested => true | _ => false end) trace).

Definition seconds_slept (trace : list event) : Z :=
  foldr (fun e total => match e with Slept s => s + total | Requested => total end)
    0 trace.

(** A failure that the loop answers with another attempt. *)
Definition retried (o : http_outcome) : bool :=
  match o with
  | Answered _ => false
  | HTTPError code _ => (code =? 429) || (500 <=? code)
  | OtherException _ => true
  end.

End Transport.

(** ** Sample data for the examples *)

Module Samples.

Import PromptTemplates.

(** A description of thirty-two words. *)
Definition plain_text : string :=
  "The bakery is located in the centre of Calpe. It sells bread and pastries. Opening hours are listed on the website. Visitors can contact the bakery by phone for current information about products.".

(** Metadata of tier ['none'] with rate 0.25 and no unsupported claim. *)
Definition none_tier_25 : Safeguards.llm_context :=
  {| Safeguards.ctx_data_quality := Some "none";
     Safeguards.ctx_hallucination_rate := Some (25 # 100);
     Safeguards.ctx_verification_verdict := Some "FAIL";
     Safeguards.ctx_unsupported_claims := Some [];
     Safeguards.ctx_word_count := Some 32 |}.

(** A fact sheet of the given tier. *)
Definition sheet (poi_id : Z) (tier : string) : fact_sheet :=
  {| fs_poi_id := poi_id;
     fs_name := Some "Panaderia";
     fs_data_quality := Some tier;
     fs_destination := Some "Calpe";
     fs_destination_id := Some 1;
     fs_category := Some "Food";
     fs_google_placeid := None |}.

(** A text service that writes [plain_text] for every generation
    request and gives the same answer to every verification request. *)
Definition service (verify_answer : string) (n : nat) (req : Regeneration.request)
    : string :=
  match Regeneration.req_prompt req with
  | build_generation_prompt _ => plain_text
  | build_verification_prompt _ _ => verify_answer
  end.

(** The world before a first run. *)
Definition fresh_world (oracle : nat -> Regeneration.request -> string)
    : Regeneration.world :=
  {| Regeneration.oracle := oracle;
     Regeneration.calls := [];
     Regeneration.staging_log := [];
     Regeneration.checkpoint_file := None;
     Regeneration.results_file := None |}.

(** A verification answer in the output format, with verdict PASS. *)
Definition pass_json : string :=
  "{" +:+ Py.quoted "total_claims" +:+ ": 4, " +:+ Py.quoted "unsupported" +:+ ": 0, "
  +:+ Py.quoted "hallucination_rate" +:+ ": 0.0, "
  +:+ Py.quoted "verdict" +:+ ": " +:+ Py.quoted "PASS" +:+ "}".

(** [json.loads] on [pass_json]; other texts are taken not to decode. *)
Definition pass_loads (text : string) : option Regeneration.verification :=
  if String.eqb text pass_json then
    Some {| Regeneration.v_verdict := Some "PASS";
            Regeneration.v_hallucination_rate := Some 0%Q;
            Regeneration.v_unsupported := Some 0;
            Regeneration.v_total_claims := Some 4;
            Regeneration.v_unsupported_claims := None;
            Regeneration.v_error := None;
            Regeneration.v_raw_response := None;
            Regeneration.v_parse_note := None |}
  else None.

(** Fifty-one fact sheets, with ids 1 to 51. *)
Definition sheets_51 : list fact_sheet :=
  map (fun n => sheet (Z.of_nat n) "none") (seq 1 51).

(** One pass over the fifty-one sheets. *)
Definition uninterrupted : Regeneration.world :=
  snd (Regeneration.main pass_loads false sheets_51 ∅ None 0
         (fresh_world (service pass_json))).

(** The run is killed when fifty sheets are done, that is right after
    the checkpoint that the fiftieth triggers; it is then started again
    with [--resume]. *)
Definition killed_at_50 : Regeneration.world :=
  Regeneration.killed_after pass_loads 50 sheets_51 ∅
    (fresh_world (service pass_json)).

Definition resumed : Regeneration.world :=
  snd (Regeneration.main pass_loads true sheets_51 ∅ None 0 killed_at_50).

(** A staging row of the batch. *)
Definition staged (id poi_id : Z) (candidate : string) (status : string)
    : Promote.staging_row :=
  {| Promote.s_id := id;
     Promote.s_poi_id := poi_id;
     Promote.s_poi_name := Some "Panaderia";
     Promote.s_detail_description_en := Some candidate;
     Promote.s_llm_context_json := None;
     Promote.s_destination_id := Some 1;
     Promote.s_old_content_snapshot := None;
     Promote.s_comparison_recommendation := Some "USE_NEW";
     Promote.s_comparison_rationale := None;
     Promote.s_status := status;
     Promote.s_created_date := Promote.R4_BATCH_DATE;
     Promote.s_review_notes := None;
     Promote.s_reviewed_by := None |}.

(** POI 7 has a description and an approved candidate that differs. *)
Definition store_changed : Promote.store :=
  {| Promote.staging := [staged 1 7 "A bakery in Calpe." "approved"];
     Promote.POI := {[ 7 := Some "An old text." ]};
     Promote.history := [] |}.

(** POI 7 has a description and an approved candidate equal to it. *)
Definition store_same : Promote.store :=
  {| Promote.staging := [staged 1 7 "An old text." "approved"];
     Promote.POI := {[ 7 := Some "An old text." ]};
     Promote.history := [] |}.

(** POI 8 has an empty description and an approved candidate. *)
Definition store_empty_before : Promote.store :=
  {| Promote.staging := [staged 2 8 "A bakery in Calpe." "approved"];
     Promote.POI := {[ 8 := Some "" ]};
     Promote.history := [] |}.

(** A text service that is down. *)
Definition service_down (n : nat) (req : Regeneration.request) : string :=
  "ERROR: HTTP 401: unauthorized".

(** The checkpoint of a run without [--resume]. *)
Definition no_checkpoint : Regeneration.checkpoint :=
  {| Regeneration.cp_completed_ids := [];
     Regeneration.cp_phase := "generation";
     Regeneration.cp_stats := None;
     Regeneration.cp_results := None |}.

(** A verification with verdict PASS and no list of claims. *)
Definition verified_pass : Regeneration.verification :=
  {| Regeneration.v_verdict := Some "PASS";
     Regeneration.v_hallucination_rate := Some 0%Q;
     Regeneration.v_unsupported := Some 0;
     Regeneration.v_total_claims := Some 4;
     Regeneration.v_unsupported_claims := None;
     Regeneration.v_error := None;
     Regeneration.v_raw_response := None;
     Regeneration.v_parse_note := None |}.

(** The command lines [--execute] and [--execute --rollback 7]. *)
Definition execute_promote : Promote.args :=
  {| Promote.a_execute := true; Promote.a_batch_approve := false;
     Promote.a_rollback := None; Promote.a_status := false |}.

Definition execute_rollback_7 : Promote.args :=
  {| Promote.a_execute := true; Promote.a_batch_approve := false;
     Promote.a_rollback := Some 7; Promote.a_status := false |}.

(** A network that answers the second request, after a 503. *)
Definition second_try (n : nat) : Transport.http_outcome :=
  match n with
  | O => Transport.HTTPError 503 "busy"
  | _ => Transport.Answered " A bakery in Calpe. "
  end.

(** A network that answers 429 to every request. *)
Definition rate_limited (n : nat) : Transport.http_outcome :=
  Transport.HTTPError 429 "slow down".

End Samples.

(** * Properties *)

(** ** The safeguard gate *)

Section GateProperties.

Import PromptTemplates Safeguards Samples.

Variable json_loads : string -> option llm_context.

(** The gate approves exactly when it has collected no reason. *)
Lemma approved_iff_no_reason poi_id new_content arg destination_id :
  approved (validate_content json_loads poi_id new_content arg destination_id) = true
  <-> reasons (validate_content json_loads poi_id new_content arg destination_id) = [].
Proof.
  assert (E : forall l : list string, (length l =? 0)%nat = true <-> l = []).
  { intros [|x l]; simpl; split; intros E; congruence. }
  unfold validate_content.
  destruct new_content as [text|]; [destruct (String.eqb text "")|];
    repeat (match goal with
            | |- context [if ?b then (_, _) else _] => destruct b
            end);
    simpl; apply E.
Qed.

Ltac split_rule3 :=
  match goal with
  | |- context [validate_content _ _ ?c _ _] =>
      unfold validate_content;
      destruct c as [?text|]; [destruct (String.eqb text "")|];
      repeat (match goal with
              | |- context [if ?b then (_, _) else _] => destruct b
              end)
  | H : context [validate_content _ _ ?c _ _] |- _ =>
      unfold validate_content in H;
      destruct c as [?text|]; [destruct (String.eqb text "")|];
      repeat (match type of H with
              | context [if ?b then (_, _) else _] => destruct b
              end)
  end.

Ltac reduce_gate E :=
  cbv beta iota zeta delta [reasons approved warnings] in E.

Ltac nonempty E :=
  apply (f_equal (@length string)) in E;
  rewrite ?length_app in E; simpl length in E; lia.

Ltac split_ifs E :=
  repeat (match type of E with
          | context [if ?b then _ else _] => destruct b eqn:?; cbn [andb negb] in E
          | context [match ?d with Some _ => _ | None => _ end] => destruct d eqn:?
          end).

(** C2.  A row whose metadata lists an unsupported claim of severity
    HIGH is never approved, whatever its rate, tier, text, word count
    and destination. *)
Theorem C2_high_severity_blocks poi_id new_content arg destination_id claim why :
  ClaimObj claim (Some "HIGH") why
    ∈ default [] (ctx_unsupported_claims (decode_context json_loads arg)) ->
  approved (validate_content json_loads poi_id new_content arg destination_id) = false.
Proof.
  intros Hin.
  destruct (approved _) eqn:E; [|reflexivity].
  apply approved_iff_no_reason in E. exfalso.
  assert (Hhigh : filter (fun c => is_high c = true)
            (default [] (ctx_unsupported_claims (decode_context json_loads arg))) <> []).
  { intros Hnil.
    assert (Hf : ClaimObj claim (Some "HIGH") why ∈ filter (fun c => is_high c = true)
              (default [] (ctx_unsupported_claims (decode_context json_loads arg)))).
    { apply list_elem_of_filter. split; [reflexivity | exact Hin]. }
    rewrite Hnil in Hf. inversion Hf. }
  split_rule3; reduce_gate E;
    destruct (filter _ _) as [|c0 rest]; try congruence;
    split_ifs E; try discriminate; nonempty E.
Qed.

(** C6, at the input where the code departs from it.  Tier ['none'],
    rate 0.25, a known destination, a text of thirty-two words and no
    unsupported claim: the rate does not exceed the allowance of the
    tier (0.30) and rule 2 is silent, yet rule 6 blocks the row. *)
Theorem C6_none_tier_blocked_below_allowance :
  Qle_bool (rate_fraction (25 # 100)) MAX_HALLUCINATION_RATE_NONE = true
  /\ validate_content json_loads 5 (Some plain_text) (CtxDict none_tier_25) (Some 1)
     = {| approved := false;
          reasons := ["BLOCKED: No source data and hallucination rate 25%"];
          warnings := [] |}.
Proof. split; vm_compute; reflexivity. Qed.

(** With a tier that has evidence the same rate is blocked by rule 2,
    at the general threshold. *)
Example rich_tier_blocked_by_rule_2 :
  reasons (validate_content json_loads 5 (Some plain_text)
             (CtxDict {| ctx_data_quality := Some "rich";
                         ctx_hallucination_rate := Some (25 # 100);
                         ctx_verification_verdict := Some "FAIL";
                         ctx_unsupported_claims := Some [];
                         ctx_word_count := Some 32 |}) (Some 1))
  = ["BLOCKED: Hallucination rate 25% exceeds 20% threshold"].
Proof. vm_compute. reflexivity. Qed.

(** Whatever the tier, a rate above 20% blocks: above the threshold of
    the tier by rule 2, and for the tier ['none'] between 20% and 30%
    by rule 6. *)
Lemma rate_above_20_blocks poi_id new_content arg destination_id :
  let ctx := decode_context json_loads arg in
  Py.Qgt_bool (rate_fraction (default 1%Q (ctx_hallucination_rate ctx)))
    MAX_HALLUCINATION_RATE = true ->
  approved (validate_content json_loads poi_id new_content arg destination_id) = false.
Proof.
  intros ctx Hrate.
  destruct (approved _) eqn:E; [|reflexivity].
  apply approved_iff_no_reason in E. exfalso. subst ctx.
  split_rule3; reduce_gate E; rewrite ?Hrate in E;
    destruct (String.eqb (default "none" _) "none"); cbn [andb] in E;
    rewrite ?Hrate in E; split_ifs E; try discriminate; nonempty E.
Qed.

(** For a tier with evidence, a text that is not empty, no claim of
    severity HIGH and a destination that is known or falsy, the gate
    blocks exactly when the rate exceeds the general threshold. *)
Lemma evidence_tier_threshold poi_id text arg destination_id :
  let ctx := decode_context json_loads arg in
  String.eqb (default "none" (ctx_data_quality ctx)) "none" = false ->
  filter (fun c => is_high c = true) (default [] (ctx_unsupported_claims ctx)) = [] ->
  text <> "" ->
  destination_id ∈ [None; Some 0; Some 1; Some 2] ->
  approved (validate_content json_loads poi_id (Some text) arg destination_id)
  = negb (Py.Qgt_bool (rate_fraction (default 1%Q (ctx_hallucination_rate ctx)))
            MAX_HALLUCINATION_RATE).
Proof.
  intros ctx Htier Hhigh Htext Hdest. subst ctx.
  apply String.eqb_neq in Htext.
  assert (Hd : match destination_id with
               | Some d => negb (d =? 0) && negb (bool_decide (is_Some (KNOWN_DESTINATIONS !! d)))
               | None => false
               end = false).
  { repeat (apply elem_of_cons in Hdest as [-> | Hdest]; [reflexivity|]).
    inversion Hdest. }
  unfold validate_content. rewrite Htext, Hhigh, Htier.
  cbn [andb].
  destruct (Py.Qgt_bool _ MAX_HALLUCINATION_RATE);
    repeat (match goal with
            | |- context [if ?b then (_, _) else _] => destruct b
            end);
    destruct destination_id as [d|]; rewrite ?Hd; reflexivity.
Qed.

(** C10.  A destination that is [None] or 0 is not looked up in
    [KNOWN_DESTINATIONS]: the gate answers as it does for the known
    destination 1, although 0 is not a known destination, and such a
    row can be approved. *)
Theorem C10_falsy_destination_not_checked poi_id new_content arg destination_id :
  destination_id = None \/ destination_id = Some 0 ->
  KNOWN_DESTINATIONS !! 0 = None
  /\ validate_content json_loads poi_id new_content arg destination_id
     = validate_content json_loads poi_id new_content arg (Some 1)
  /\ exists content ctx,
       approved (validate_content json_loads poi_id (Some content) (CtxDict ctx)
                   destination_id) = true.
Proof.
  intros Hd. split; [reflexivity|]. split.
  - destruct Hd as [-> | ->]; unfold validate_content; reflexivity.
  - exists plain_text,
      {| ctx_data_quality := Some "none"; ctx_hallucination_rate := Some (0 # 1);
         ctx_verification_verdict := Some "PASS"; ctx_unsupported_claims := Some [];
         ctx_word_count := Some 32 |}.
    destruct Hd as [-> | ->]; vm_compute; reflexivity.
Qed.

(** A destination that is neither falsy nor known does block. *)
Lemma unknown_destination_blocks poi_id new_content arg d :
  d <> 0 -> KNOWN_DESTINATIONS !! d = None ->
  approved (validate_content json_loads poi_id new_content arg (Some d)) = false.
Proof.
  intros Hd Hk.
  destruct (approved _) eqn:E; [|reflexivity].
  apply approved_iff_no_reason in E. exfalso.
  assert (Hz : (d =? 0) = false) by (apply Z.eqb_neq; exact Hd).
  split_rule3; reduce_gate E; rewrite Hz, Hk in E;
    cbn [andb negb bool_decide decide_rel] in E;
    split_ifs E; try discriminate; try nonempty E.
Qed.

End GateProperties.

Lemma C2_high_severity_blocks_witness :
  Safeguards.approved
    (Safeguards.validate_content (fun _ => None) 2
       (Some "Award-winning restaurant with Michelin stars.")
       (Safeguards.CtxDict
          {| Safeguards.ctx_data_quality := Some "minimal";
             Safeguards.ctx_hallucination_rate := Some (40 # 100);
             Safeguards.ctx_verification_verdict := Some "FAIL";
             Safeguards.ctx_unsupported_claims :=
               Some [PromptTemplates.ClaimObj "Michelin stars" (Some "HIGH") "No source"];
             Safeguards.ctx_word_count := Some 7 |})
       (Some 1)) = false.
Proof.
  apply (C2_high_severity_blocks (fun _ => None) 2 _ _ (Some 1) "Michelin stars" "No source").
  simpl. apply list_elem_of_here.
Defined.

Lemma C10_falsy_destination_not_checked_witness :
  Safeguards.KNOWN_DESTINATIONS !! 0 = None
  /\ Safeguards.validate_content (fun _ => None) 3 (Some "A nice place to visit.")
       Safeguards.CtxNone (Some 0)
     = Safeguards.validate_content (fun _ => None) 3 (Some "A nice place to visit.")
         Safeguards.CtxNone (Some 1)
  /\ exists content ctx,
       Safeguards.approved
         (Safeguards.validate_content (fun _ => None) 3 (Some content)
            (Safeguards.CtxDict ctx) (Some 0)) = true.
Proof.
  apply (C10_falsy_destination_not_checked (fun _ => None) 3
           (Some "A nice place to visit.") Safeguards.CtxNone (Some 0)).
  right. reflexivity.
Defined.

(** ** Generation, verification and the staging status *)

Section RegenerationProperties.

Import PromptTemplates Regeneration.

Variable json_loads : string -> option verification.

(** [STATUS_MAP.get(verdict, STATUS_MAP['ERROR'])] as a case analysis. *)
Lemma status_lookup (verdict : string) :
  default STATUS_MAP_ERROR (STATUS_MAP !! verdict)
  = if String.eqb verdict "PASS" then "approved"
    else if String.eqb verdict "REVIEW" then "pending"
    else "review_required".
Proof.
  unfold STATUS_MAP. cbn [list_to_map foldr fst snd].
  rewrite !lookup_insert, lookup_empty.
  destruct (String.eqb_spec verdict "PASS") as [->|H1]; [reflexivity|].
  destruct (String.eqb_spec verdict "REVIEW") as [->|H2]; [reflexivity|].
  repeat case_decide; try congruence; reflexivity.
Qed.

Lemma bind_returned {A B} (m : M A) (k : A -> M B) w b w' :
  bind m k w = (Returned b, w') ->
  exists a w1, m w = (Returned a, w1) /\ k a w1 = (Returned b, w').
Proof.
  unfold bind. destruct (m w) as [[a|e] w1]; intros H; [eauto | discriminate].
Qed.

(** What [record_verification] puts in the result it returns. *)
Lemma record_verification_fields result text word_count targets retry_count v r :
  record_verification result text word_count targets retry_count v = Returned r ->
  r_verdict r = default "ERROR" (v_verdict v)
  /\ r_status r = default STATUS_MAP_ERROR (STATUS_MAP !! default "ERROR" (v_verdict v))
  /\ r_new_content r = text
  /\ r_word_count r = Some word_count
  /\ r_word_count_ok r = Some (negb (out_of_range targets word_count))
  /\ r_word_retries r = Some retry_count
  /\ r_hallucination_rate r = Some (default (-1 # 1) (v_hallucination_rate v)).
Proof.
  unfold record_verification.
  repeat (match goal with
          | |- context [if ?b then _ else _] => destruct b
          | |- context [match high_severity_of ?l with _ => _ end] =>
              destruct (high_severity_of l) as [[|? ?]|?]
          end);
    intros H; inversion H; subst; clear H; cbn; repeat split; reflexivity.
Qed.

(** C1 (amended).  The status a row is created with is a function of
    its verdict alone: PASS gives [approved], REVIEW gives [pending],
    FAIL, ERROR and anything else give [review_required]. *)
Theorem C1_status_from_verdict fs old_content w r w' :
  process_single_poi json_loads fs old_content w = (Returned r, w') ->
  r_status r
  = if String.eqb (r_verdict r) "PASS" then "approved"
    else if String.eqb (r_verdict r) "REVIEW" then "pending"
    else "review_required".
Proof.
  unfold process_single_poi. intros H.
  apply bind_returned in H as (t0 & w1 & _ & H).
  destruct (Py.startswith t0 "ERROR:").
  - inversion H; subst. reflexivity.
  - apply bind_returned in H as ([[text wc] rc] & w2 & _ & H).
    apply bind_returned in H as (vr & w3 & _ & H).
    apply bind_returned in H as (v & w4 & _ & H).
    unfold lift in H. inversion H as [[Hr Hw]].
    apply record_verification_fields in Hr as (Hv & Hs & _).
    rewrite Hs, Hv. apply status_lookup.
Qed.

(** C3 (amended).  A verdict that the decoded response carries is
    kept as it is.  When it carries none, the verdict follows from the
    rate alone (a missing rate counts as 0): PASS exactly for rate 0,
    REVIEW exactly for a rate other than 0 and at most 0.20, FAIL
    exactly above 0.20; the severities of the unsupported claims play
    no part. *)
Theorem C3_verdict_derivation (parsed : verification) :
  (forall response json_str,
     Py.startswith response "ERROR:" = false ->
     Py.outer_braces response = Some json_str ->
     json_loads json_str = Some parsed ->
     parse_verification json_loads response = Returned (ensure_verdict parsed))
  /\ (forall verdict, v_verdict parsed = Some verdict -> ensure_verdict parsed = parsed)
  /\ (v_verdict parsed = None ->
      let rate := default 0%Q (v_hallucination_rate parsed) in
      (v_verdict (ensure_verdict parsed) = Some "PASS" <-> (rate == 0)%Q)
      /\ (v_verdict (ensure_verdict parsed) = Some "REVIEW"
          <-> ~ (rate == 0)%Q /\ (rate <= 20 # 100)%Q)
      /\ (v_verdict (ensure_verdict parsed) = Some "FAIL" <-> (20 # 100 < rate)%Q)
      /\ v_unsupported_claims (ensure_verdict parsed) = v_unsupported_claims parsed
      /\ v_hallucination_rate (ensure_verdict parsed) = v_hallucination_rate parsed).
Proof.
  split; [|split].
  - intros response json_str He Hb Hj. unfold parse_verification.
    rewrite He, Hb, Hj. reflexivity.
  - intros verdict Hv. unfold ensure_verdict. rewrite Hv. reflexivity.
  - intros Hv rate. unfold ensure_verdict. rewrite Hv. fold rate. cbn.
    unfold REVIEW_THRESHOLD.
    destruct (Qeq_bool rate 0) eqn:E0.
    + apply Qeq_bool_iff in E0.
      repeat split; intros; try discriminate; try tauto.
      exfalso.
      match goal with
      | Hlt : (_ < rate)%Q |- _ => rewrite E0 in Hlt; vm_compute in Hlt; discriminate
      end.
    + assert (Hne : ~ (rate == 0)%Q).
      { intros Hq. apply Qeq_bool_iff in Hq. congruence. }
      destruct (Qle_bool rate (20 # 100)) eqn:E1.
      * apply Qle_bool_iff in E1.
        repeat split; intros; try discriminate; try tauto.
        exfalso.
        match goal with
        | Hlt : (_ < rate)%Q |- _ => apply Qlt_not_le in Hlt; contradiction
        end.
      * assert (Hgt : (20 # 100 < rate)%Q).
        { apply Qnot_le_lt. intros Hle. apply Qle_bool_iff in Hle. congruence. }
        repeat split; intros; try discriminate; try tauto.
        exfalso.
        match goal with
        | Hc : _ /\ (rate <= _)%Q |- _ =>
            destruct Hc as [_ Hle]; apply Qlt_not_le in Hgt; contradiction
        end.
Qed.



Lemma search_some {A} (m : string -> option A) (s : string) a :
  Py.search m s = Some a -> exists s', m s' = Some a.
Proof.
  induction s as [|c s IH]; cbn [Py.search].
  - destruct (m "") eqn:E; [intros H; injection H as <-; eauto | discriminate].
  - destruct (m (String c s)) eqn:E; [intros H; injection H as <-; eauto | exact IH].
Qed.

Lemma match_verdict_words s verdict :
  match_verdict s = Some verdict ->
  verdict = "PASS" \/ verdict = "REVIEW" \/ verdict = "FAIL".
Proof.
  unfold match_verdict. destruct (Py.after_key _ s) as [rest|]; [|discriminate].
  repeat (match goal with
          | |- context [if ?b then _ else _] => destruct b
          end);
    intros H; inversion H; auto.
Qed.


(** C9 (amended).  When the first text is out of the word range of
    the tier, generation is retried once ([WORD_COUNT_RETRIES] is 1),
    at temperature 0.3 + 0.1 * 1, which is the temperature 0.4 of the
    first request and not a higher one.  The text of the retry is then
    verified and returned whatever its word count, with
    [word_count_ok] telling whether it is in range: the item does not
    fail on its length. *)
Theorem C9_one_retry_same_temperature fs old_content w :
  let targets :=
    default {| wmin := 30; wmax := 60 |}
      (WORD_TARGETS !! default "none" (fs_data_quality fs)) in
  let req0 := {| req_prompt := build_generation_prompt fs;
                 req_temperature := 4 # 10;
                 req_max_tokens := 400;
                 req_model := MISTRAL_MODEL_GENERATE |} in
  let req1 := {| req_prompt := build_generation_prompt fs;
                 req_temperature := (3 # 10) + inject_Z (Z.of_nat 1) * (1 # 10);
                 req_max_tokens := 400;
                 req_model := MISTRAL_MODEL_GENERATE |} in
  let t0 := oracle w (length (calls w)) req0 in
  let t1 := oracle w (S (length (calls w))) req1 in
  let req2 := {| req_prompt := build_verification_prompt fs t1;
                 req_temperature := 1 # 10;
                 req_max_tokens := 1500;
                 req_model := MISTRAL_MODEL_VERIFY |} in
  let answer := oracle w (S (S (length (calls w)))) req2 in
  let word_count :=
    if Py.startswith t1 "ERROR:" then count_words t0 else count_words t1 in
  Py.startswith t0 "ERROR:" = false ->
  out_of_range targets (count_words t0) = true ->
  WORD_COUNT_RETRIES = 1%nat
  /\ (req_temperature req1 == req_temperature req0)%Q
  /\ process_single_poi json_loads fs old_content w
     = (match parse_verification json_loads answer with
        | Returned v =>
            record_verification (initial_result fs old_content) t1 word_count
              targets 1 v
        | Raised e => Raised e
        end,
        {| oracle := oracle w;
           calls := calls w ++ [req0; req1; req2];
           staging_log := staging_log w;
           checkpoint_file := checkpoint_file w;
           results_file := results_file w |})
  /\ forall r w',
       process_single_poi json_loads fs old_content w = (Returned r, w') ->
       r_new_content r = t1
       /\ r_word_retries r = Some 1%nat
       /\ r_word_count_ok r = Some (negb (out_of_range targets word_count)).
Proof.
  intros targets req0 req1 t0 t1 req2 answer word_count He0 Hout.
  assert (Hrun : process_single_poi json_loads fs old_content w
     = (match parse_verification json_loads answer with
        | Returned v =>
            record_verification (initial_result fs old_content) t1 word_count
              targets 1 v
        | Raised e => Raised e
        end,
        {| oracle := oracle w;
           calls := calls w ++ [req0; req1; req2];
           staging_log := staging_log w;
           checkpoint_file := checkpoint_file w;
           results_file := results_file w |})).
  { unfold process_single_poi.
    unfold bind at 1. unfold call_mistral at 1. cbn [oracle calls staging_log checkpoint_file results_file].
    fold req0. fold t0. rewrite He0.
    unfold WORD_COUNT_RETRIES. cbn [retry_word_count].
    fold targets. rewrite Hout.
    unfold bind, call_mistral, ret, lift.
    cbn [oracle calls staging_log checkpoint_file results_file].
    rewrite !length_app. cbn [length]. rewrite !Nat.add_1_r.
    fold req1. fold t1.
    subst word_count.
    destruct (Py.startswith t1 "ERROR:");
      cbn [oracle calls staging_log checkpoint_file results_file];
      rewrite !length_app; cbn [length]; rewrite !Nat.add_1_r;
      fold req2; fold answer; rewrite <- !app_assoc; cbn [app];
      destruct (parse_verification json_loads answer); reflexivity. }
  split; [reflexivity|]. split; [vm_compute; reflexivity|]. split; [exact Hrun|].
  intros r w' Hr. rewrite Hrun in Hr.
  destruct (parse_verification json_loads answer) as [v|e]; [|inversion Hr].
  inversion Hr as [[Hrec Hw]].
  apply record_verification_fields in Hrec as (_ & _ & Hn & _ & Hok & Hrt & _).
  auto.
Qed.

(** A text in range is not regenerated: one generation request, then
    the verification request. *)
Lemma in_range_no_retry fs old_content w :
  let targets :=
    default {| wmin := 30; wmax := 60 |}
      (WORD_TARGETS !! default "none" (fs_data_quality fs)) in
  let req0 := {| req_prompt := build_generation_prompt fs;
                 req_temperature := 4 # 10;
                 req_max_tokens := 400;
                 req_model := MISTRAL_MODEL_GENERATE |} in
  let t0 := oracle w (length (calls w)) req0 in
  let req1 := {| req_prompt := build_verification_prompt fs t0;
                 req_temperature := 1 # 10;
                 req_max_tokens := 1500;
                 req_model := MISTRAL_MODEL_VERIFY |} in
  Py.startswith t0 "ERROR:" = false ->
  out_of_range targets (count_words t0) = false ->
  calls (snd (process_single_poi json_loads fs old_content w))
  = calls w ++ [req0; req1].
Proof.
  intros targets req0 t0 req1 He0 Hin.
  unfold process_single_poi.
  unfold bind at 1. unfold call_mistral at 1.
  cbn [oracle calls staging_log checkpoint_file results_file].
  fold req0. fold t0. rewrite He0.
  unfold WORD_COUNT_RETRIES. cbn [retry_word_count].
  fold targets. rewrite Hin.
  unfold bind, call_mistral, ret, lift.
  cbn [oracle calls staging_log checkpoint_file results_file].
  rewrite !length_app. cbn [length]. rewrite !Nat.add_1_r.
  fold req1.
  destruct (parse_verification json_loads _); cbn [snd calls];
    rewrite <- !app_assoc; reflexivity.
Qed.

End RegenerationProperties.

(** *** The statements above on sample runs *)

Section RegenerationSamples.

Import PromptTemplates Regeneration Samples.

(** C1, as the spec words it, fails on a clean row: with verdict PASS
    the row is created [approved], not [pending]. *)
Lemma C1_pass_is_approved_counterexample :
  exists r w',
    process_single_poi pass_loads (sheet 101 "none") "" (fresh_world (service pass_json))
    = (Returned r, w')
    /\ r_verdict r = "PASS"
    /\ r_status r = "approved"
    /\ r_status r <> "pending".
Proof.
  eexists. eexists. split; [vm_compute; reflexivity|].
  split; [reflexivity|]. split; [reflexivity|]. discriminate.
Qed.

Lemma C1_status_from_verdict_witness :
  match process_single_poi pass_loads (sheet 101 "none") ""
          (fresh_world (service "REVIEW")) with
  | (Returned r, _) =>
      r_status r
      = if String.eqb (r_verdict r) "PASS" then "approved"
        else if String.eqb (r_verdict r) "REVIEW" then "pending"
        else "review_required"
  | (Raised _, _) => False
  end.
Proof.
  destruct (process_single_poi pass_loads (sheet 101 "none") ""
              (fresh_world (service "REVIEW"))) as [[r|e] w'] eqn:E.
  - exact (C1_status_from_verdict pass_loads (sheet 101 "none") ""
             (fresh_world (service "REVIEW")) r w' E).
  - vm_compute in E. discriminate.
Defined.

(** C3, as the spec words it, fails twice.  A verdict PASS that comes
    with rate 0.5 is kept; and without a verdict, rate 0.1 gives REVIEW
    although one unsupported claim has severity HIGH. *)
Lemma C3_verdict_counterexample :
  (let parsed :=
     {| v_verdict := Some "PASS"; v_hallucination_rate := Some (5 # 10);
        v_unsupported := Some 5; v_total_claims := Some 10;
        v_unsupported_claims := Some []; v_error := None;
        v_raw_response := None; v_parse_note := None |} in
   v_verdict (ensure_verdict parsed) = Some "PASS"
   /\ (20 # 100 < 5 # 10)%Q)
  /\ (let parsed :=
        {| v_verdict := None; v_hallucination_rate := Some (1 # 10);
           v_unsupported := Some 1; v_total_claims := Some 10;
           v_unsupported_claims :=
             Some [ClaimObj "founded in 1820" (Some "HIGH") "not in source"];
           v_error := None; v_raw_response := None; v_parse_note := None |} in
      v_verdict (ensure_verdict parsed) = Some "REVIEW"
      /\ v_verdict (ensure_verdict parsed) <> Some "FAIL").
Proof.
  split; split; try reflexivity; discriminate.
Qed.


(** The same happens after a failed decoding: braces, nothing that
    decodes, no verdict field, the word FAIL. *)
Example undecodable_with_bare_word :
  let response := "{ this is not JSON, the check did FAIL }" in
  Py.outer_braces response = Some response
  /\ pass_loads response = None
  /\ Py.search match_verdict response = None
  /\ (v_verdict <$> match parse_verification pass_loads response with
                    | Returned v => Some v
                    | Raised _ => None
                    end) = Some (Some "FAIL").
Proof. repeat split; vm_compute; reflexivity. Qed.

(** A truncated object: the fields are pulled out of the raw text. *)
Example truncated_json_fields :
  let response :=
    "{" +:+ Py.quoted "verdict" +:+ ": " +:+ Py.quoted "REVIEW" +:+ ", "
    +:+ Py.quoted "hallucination_rate" +:+ ": 0.125, "
    +:+ Py.quoted "unsupported" +:+ ": 1, " +:+ Py.quoted "total_claims" +:+ ": 8, "
    +:+ Py.quoted "unsupported_claims" +:+ ": [{ }" in
  match parse_verification pass_loads response with
  | Returned v =>
      v_verdict v = Some "REVIEW"
      /\ (default 0%Q (v_hallucination_rate v) == 125 # 1000)%Q
      /\ v_unsupported v = Some 1 /\ v_total_claims v = Some 8
  | Raised _ => False
  end.
Proof. vm_compute. repeat split; reflexivity. Qed.

(** Scenario C of the spec: nothing decodes, no field, no bare word. *)
Example scenario_C :
  let response := "I am unable to check this description." in
  match parse_verification pass_loads response with
  | Returned v =>
      v_verdict v = Some "ERROR" /\ v_hallucination_rate v = Some 1%Q
      /\ default STATUS_MAP_ERROR (STATUS_MAP !! "ERROR") = "review_required"
  | Raised _ => False
  end.
Proof. vm_compute. repeat split; reflexivity. Qed.

(** C9, as the spec words it, fails on the temperature: the retry is
    made at the temperature of the first request, not at a higher one. *)
Lemma C9_retry_temperature_counterexample :
  let w' := snd (process_single_poi pass_loads (sheet 7 "rich") ""
                   (fresh_world (service "PASS"))) in
  exists req0 req1 req2,
    calls w' = [req0; req1; req2]
    /\ req_prompt req0 = build_generation_prompt (sheet 7 "rich")
    /\ req_prompt req1 = build_generation_prompt (sheet 7 "rich")
    /\ ~ (req_temperature req0 < req_temperature req1)%Q.
Proof.
  eexists. eexists. eexists. split; [vm_compute; reflexivity|].
  split; [reflexivity|]. split; [reflexivity|].
  intros H. vm_compute in H. discriminate.
Qed.

Lemma C9_one_retry_same_temperature_witness :
  match process_single_poi pass_loads (sheet 7 "rich") ""
          (fresh_world (service "PASS")) with
  | (Returned r, _) =>
      r_new_content r = plain_text
      /\ r_word_retries r = Some 1%nat
      /\ r_word_count_ok r = Some false
  | (Raised _, _) => False
  end.
Proof.
  destruct (C9_one_retry_same_temperature pass_loads (sheet 7 "rich") ""
              (fresh_world (service "PASS")))
    as (_ & _ & _ & Hall); [vm_compute; reflexivity | vm_compute; reflexivity |].
  destruct (process_single_poi pass_loads (sheet 7 "rich") ""
              (fresh_world (service "PASS"))) as [[r|e] w'] eqn:E.
  - exact (Hall r w' eq_refl).
  - vm_compute in E. discriminate.
Defined.

(** Scenario A of the spec: tier rich, 125 words in [110, 140]: the
    count is in range and the loop does not turn. *)
Example scenario_A :
  out_of_range {| wmin := 110; wmax := 140 |} 125 = false
  /\ WORD_TARGETS !! "rich" = Some {| wmin := 110; wmax := 140 |}.
Proof. split; vm_compute; reflexivity. Qed.

End RegenerationSamples.

(** ** The batch runner: checkpoint and resume *)

Section RunnerProperties.

Import PromptTemplates Regeneration.

Variable json_loads : string -> option verification.

(** The sheets a run selects never include a completed id: an item
    that the checkpoint lists is not processed again. *)
Lemma select_remaining_not_completed fact_sheets completed_ids limit offset fs :
  fs ∈ select_remaining fact_sheets completed_ids limit offset ->
  fs ∈ fact_sheets /\ fs_poi_id fs ∉ completed_ids.
Proof.
  unfold select_remaining, py_take. intros Hin.
  assert (Hf : fs ∈ filter (fun fs => fs_poi_id fs ∉ completed_ids) fact_sheets).
  { repeat (match type of Hin with
            | context [if ?b then _ else _] => destruct b
            end);
      repeat (first [ apply subseteq_take in Hin | apply subseteq_drop in Hin ]);
      exact Hin. }
  apply list_elem_of_filter in Hf. tauto.
Qed.

Lemma same_files_refl w : same_files w w.
Proof. repeat split. Qed.

Lemma same_files_trans w1 w2 w3 :
  same_files w1 w2 -> same_files w2 w3 -> same_files w1 w3.
Proof.
  intros (A1 & A2 & A3 & A4) (B1 & B2 & B3 & B4).
  repeat split; congruence.
Qed.

Lemma bind_same_files {A B} (m : M A) (k : A -> M B) :
  (forall w, same_files w (m w).2) ->
  (forall a w, same_files w (k a w).2) ->
  forall w, same_files w (bind m k w).2.
Proof.
  intros Hm Hk w. unfold bind. specialize (Hm w).
  destruct (m w) as [[a|e] w1]; cbn [snd] in *; [|exact Hm].
  eapply same_files_trans; [exact Hm | apply Hk].
Qed.

Lemma call_mistral_same_files p t n model w :
  same_files w (call_mistral p t n model w).2.
Proof. repeat split. Qed.

Lemma retry_word_count_same_files remaining p targets :
  forall text wc rc w,
    same_files w (retry_word_count remaining p targets text wc rc w).2.
Proof.
  induction remaining as [|remaining IH]; intros text wc rc w; cbn [retry_word_count].
  - apply same_files_refl.
  - destruct (out_of_range targets wc); [|apply same_files_refl].
    apply bind_same_files; [intros; apply call_mistral_same_files|].
    intros t w1. destruct (Py.startswith t "ERROR:"); [apply same_files_refl | apply IH].
Qed.

(** Generation and verification of one item touch no file. *)
Lemma process_single_poi_same_files fs old_content w :
  same_files w (process_single_poi json_loads fs old_content w).2.
Proof.
  unfold process_single_poi.
  apply bind_same_files; [intros; apply call_mistral_same_files|].
  intros t0 w0. destruct (Py.startswith t0 "ERROR:"); [apply same_files_refl|].
  apply bind_same_files; [intros; apply retry_word_count_same_files|].
  intros [[text wc] rc] w1.
  apply bind_same_files; [intros; apply call_mistral_same_files|].
  intros vr w2.
  apply bind_same_files; [intros; apply same_files_refl|].
  intros v w3. apply same_files_refl.
Qed.

Lemma loop_body_checkpoint old_content_map st fs w :
  checkpoint_without_results w ->
  checkpoint_without_results (loop_body json_loads old_content_map st fs w).2.
Proof.
  intros Hw. unfold loop_body, bind.
  pose proof (process_single_poi_same_files fs
                (default "" (old_content_map !! fs_poi_id fs)) w) as (_ & _ & Hc & _).
  destruct (process_single_poi json_loads fs _ w) as [[r|e] w1]; cbn [snd] in *.
  - destruct (BATCH_SIZE <=? _)%nat; cbn.
    + intros cp Hcp. injection Hcp as <-. reflexivity.
    + intros cp Hcp. apply Hw. congruence.
  - intros cp Hcp. apply Hw. congruence.
Qed.

Lemma run_loop_checkpoint old_content_map remaining :
  forall st w,
    checkpoint_without_results w ->
    checkpoint_without_results (run_loop json_loads old_content_map remaining st w).2.
Proof.
  induction remaining as [|fs rest IH]; intros st w Hw; cbn [run_loop].
  - exact Hw.
  - unfold bind.
    pose proof (loop_body_checkpoint old_content_map st fs w Hw) as H1.
    destruct (loop_body json_loads old_content_map st fs w) as [[st'|e] w1];
      cbn [snd] in *; [apply IH; exact H1 | exact H1].
Qed.

(** Whenever a run is killed, the run that resumes it starts from an
    empty result list: the checkpoint it loads lists the completed ids
    and nothing else. *)
Lemma resume_starts_without_results k fact_sheets old_content_map w :
  checkpoint_without_results w ->
  let w' := killed_after json_loads k fact_sheets old_content_map w in
  checkpoint_without_results w'
  /\ forall cp, (load_checkpoint w').1 = Returned cp ->
                rs_results (initial_state cp) = [].
Proof.
  intros Hw w'.
  assert (Hw' : checkpoint_without_results w').
  { subst w'. unfold killed_after. apply run_loop_checkpoint. exact Hw. }
  split; [exact Hw'|].
  intros cp Hcp. unfold load_checkpoint in Hcp. cbn in Hcp.
  injection Hcp as <-. unfold initial_state. cbn [rs_results].
  destruct (checkpoint_file w') as [cp'|] eqn:E; cbn; [|reflexivity].
  rewrite (Hw' cp' E). reflexivity.
Qed.

End RunnerProperties.

Section RunnerSamples.

Import PromptTemplates Regeneration Samples.

(** C4, at the input where the code departs from it.  The checkpoint
    written at the fiftieth item holds the fifty completed ids and no
    result.  The resumed run skips the fifty items (no item is sent to
    the text service twice, and the staging table receives all
    fifty-one rows), but it starts from an empty result list: the
    results file it writes holds the result of item 51 alone, where the
    uninterrupted run writes fifty-one results. *)
Theorem C4_resume_loses_results :
  (map r_poi_id <$> results_file uninterrupted) = Some (map Z.of_nat (seq 1 51))
  /\ (length <$> (cp_completed_ids <$> checkpoint_file killed_at_50)) = Some 50%nat
  /\ (cp_results <$> checkpoint_file killed_at_50) = Some None
  /\ results_file killed_at_50 = None
  /\ (map r_poi_id <$> results_file resumed) = Some [51]
  /\ map r_poi_id (staging_log resumed) = map Z.of_nat (seq 1 51)
  /\ length (calls resumed) = length (calls uninterrupted).
Proof. vm_compute. repeat split; reflexivity. Qed.

End RunnerSamples.

(** ** Promotion and rollback *)

Section PromoteProperties.

Import Promote.

Lemma applied_by_compose ids1 ids2 row :
  applied_by ids2 (applied_by ids1 row) = applied_by (ids1 ++ ids2) row.
Proof.
  unfold applied_by. rewrite existsb_app.
  destruct (existsb (Z.eqb (s_id row)) ids1) eqn:E1; cbn [s_id set_status orb].
  - destruct (existsb (Z.eqb (s_id row)) ids2); reflexivity.
  - reflexivity.
Qed.

Lemma applied_by_nil row : applied_by [] row = row.
Proof. reflexivity. Qed.

Lemma mark_applied_staging id db :
  staging (mark_applied id db) = map (applied_by [id]) (staging db).
Proof.
  unfold mark_applied, applied_by. cbn [staging]. apply map_ext.
  intros row. cbn [existsb]. rewrite orb_false_r. reflexivity.
Qed.

Lemma alter_present (m : gmap Z (option string)) k v old :
  m !! k = Some old -> alter (fun _ => v) k m = <[k := v]> m.
Proof.
  intros Hk. apply map_eq. intros j.
  rewrite lookup_alter, lookup_insert.
  destruct (decide (k = j)) as [->|Hne]; [rewrite Hk|]; reflexivity.
Qed.

Lemma alter_none_iff (m : gmap Z (option string)) k v j :
  alter (fun _ => v) k m !! j = None <-> m !! j = None.
Proof.
  rewrite lookup_alter.
  destruct (decide (k = j)) as [->|]; [|tauto].
  destruct (m !! j); cbn; split; congruence.
Qed.

(** One turn of the promotion loop, case by case. *)
Lemma promote_row_missing promoted errors db row :
  POI db !! s_poi_id row = None ->
  promote_row (promoted, errors, db) row = (promoted, errors + 1, db).
Proof. intros H. unfold promote_row. rewrite H. reflexivity. Qed.

Lemma promote_row_same promoted errors db row :
  POI db !! s_poi_id row = Some (s_detail_description_en row) ->
  promote_row (promoted, errors, db) row
  = (promoted + 1, errors, mark_applied (s_id row) db).
Proof.
  intros H. unfold promote_row. rewrite H.
  rewrite bool_decide_eq_true_2; reflexivity.
Qed.

Lemma promote_row_changed promoted errors db row old :
  POI db !! s_poi_id row = Some old ->
  old <> s_detail_description_en row ->
  exists entry,
    promote_row (promoted, errors, db) row
    = (promoted + 1, errors,
       mark_applied (s_id row)
         (insert_history entry
            (update_POI (s_poi_id row) (s_detail_description_en row) db)))
    /\ h_poi_id entry = s_poi_id row
    /\ h_field_name entry = FIELD
    /\ h_old_value entry = old
    /\ h_new_value entry = s_detail_description_en row
    /\ h_change_source entry = "fase_r4_staging".
Proof.
  intros H Hne. unfold promote_row. rewrite H.
  rewrite bool_decide_eq_false_2 by exact Hne.
  eexists. split; [reflexivity|]. repeat split; reflexivity.
Qed.

(** What a pass over [rows] does to the staging table and to the keys
    of the POI table. *)
Lemma promote_rows_staging rows :
  forall promoted errors db,
  exists ids,
    staging (foldl promote_row (promoted, errors, db) rows).2
    = map (applied_by ids) (staging db)
    /\ (forall i, In i ids <->
                  exists x, In x rows /\ s_id x = i /\ POI db !! s_poi_id x <> None)
    /\ (forall k, POI (foldl promote_row (promoted, errors, db) rows).2 !! k = None
                  <-> POI db !! k = None).
Proof.
  induction rows as [|row rows IH]; intros promoted errors db.
  - exists []. cbn. split; [|split].
    + rewrite map_ext with (g := id); [symmetry; apply map_id | reflexivity].
    + intros i. split; [intros [] | intros (x & [] & _)].
    + tauto.
  - cbn [foldl].
    destruct (POI db !! s_poi_id row) as [old|] eqn:Hpoi.
    + assert (Hstep : exists db1,
                promote_row (promoted, errors, db) row = (promoted + 1, errors, db1)
                /\ staging db1 = map (applied_by [s_id row]) (staging db)
                /\ (forall k, POI db1 !! k = None <-> POI db !! k = None)).
      { destruct (decide (old = s_detail_description_en row)) as [->|Hne].
        - eexists. split; [apply promote_row_same; exact Hpoi|].
          split; [apply mark_applied_staging|]. cbn. tauto.
        - destruct (promote_row_changed promoted errors db row old Hpoi Hne)
            as (entry & Heq & _).
          eexists. split; [exact Heq|].
          split; [rewrite mark_applied_staging; reflexivity|].
          intros k. cbn. apply alter_none_iff. }
      destruct Hstep as (db1 & -> & Hst & Hdom).
      destruct (IH (promoted + 1) errors db1) as (ids & Hs & Hids & Hd).
      exists (s_id row :: ids). split; [|split].
      * rewrite Hs, Hst, map_map. apply map_ext. intros r.
        apply (applied_by_compose [s_id row] ids).
      * intros i. cbn [In]. rewrite Hids. split.
        -- intros [<- | (x & Hx & Hi & Hp)].
           ++ exists row. split; [left; reflexivity|]. split; [reflexivity|]. congruence.
           ++ exists x. split; [right; exact Hx|]. split; [exact Hi|].
              rewrite <- Hdom. exact Hp.
        -- intros (x & [<- | Hx] & Hi & Hp).
           ++ left. exact Hi.
           ++ right. exists x. split; [exact Hx|]. split; [exact Hi|].
              rewrite Hdom. exact Hp.
      * intros k. rewrite Hd. apply Hdom.
    + rewrite (promote_row_missing _ _ _ _ Hpoi).
      destruct (IH promoted (errors + 1) db) as (ids & Hs & Hids & Hd).
      exists ids. split; [exact Hs|]. split; [|exact Hd].
      intros i. rewrite Hids. split.
      * intros (x & Hx & Hi & Hp). exists x. split; [right; exact Hx|]. tauto.
      * intros (x & [<- | Hx] & Hi & Hp); [congruence|].
        exists x. tauto.
Qed.




(** *** Rollback after promotion *)

Lemma filter_filter {A} (f g : A -> bool) (l : list A) :
  List.filter g (List.filter f l) = List.filter (fun x => f x && g x) l.
Proof.
  induction l as [|x l IH]; [reflexivity|]. cbn.
  destruct (f x); cbn; [destruct (g x)|]; rewrite IH; reflexivity.
Qed.

Lemma filter_singleton_split {A} (f : A -> bool) (l : list A) x :
  List.filter f l = [x] ->
  exists l1 l2, l = l1 ++ x :: l2
                /\ List.filter f l1 = [] /\ List.filter f l2 = [] /\ f x = true.
Proof.
  induction l as [|y l IH]; cbn; [discriminate|].
  destruct (f y) eqn:Hy.
  - intros H. injection H as -> Hl.
    exists [], l. repeat split; auto.
  - intros H. destruct (IH H) as (l1 & l2 & -> & H1 & H2 & Hx).
    exists (y :: l1), l2. cbn. rewrite Hy. repeat split; auto.
Qed.

Lemma filter_nil_not_in {A} (f : A -> bool) (l : list A) :
  List.filter f l = [] -> forall x, In x l -> f x = false.
Proof.
  intros H x Hx. destruct (f x) eqn:E; [|reflexivity].
  assert (Hin : In x (List.filter f l)) by (apply filter_In; auto).
  rewrite H in Hin. destruct Hin.
Qed.

(** The store a promotion leaves is the store the loop leaves. *)
Lemma promote_store db :
  (promote_to_production false db).2
  = (foldl promote_row (0, 0, db) (List.filter is_selected (staging db))).2.
Proof.
  unfold promote_to_production.
  destruct (List.filter is_selected (staging db)) as [|r rs]; [reflexivity|].
  destruct (foldl promote_row (0, 0, db) (r :: rs)) as [[? ?] ?]. reflexivity.
Qed.

(** A pass over rows of other POIs leaves the text of [p] alone and
    appends audit entries of other POIs only. *)
Lemma promote_rows_other p rows :
  forall promoted errors db,
    (forall r, In r rows -> s_poi_id r <> p) ->
    POI (foldl promote_row (promoted, errors, db) rows).2 !! p = POI db !! p
    /\ exists entries,
         history (foldl promote_row (promoted, errors, db) rows).2
         = history db ++ entries
         /\ Forall (fun h => h_poi_id h <> p) entries.
Proof.
  induction rows as [|row rows IH]; intros promoted errors db Hall.
  - cbn. split; [reflexivity|]. exists []. rewrite app_nil_r. split; [reflexivity|constructor].
  - cbn [foldl].
    assert (Hrow : s_poi_id row <> p) by (apply Hall; left; reflexivity).
    assert (Hrest : forall r, In r rows -> s_poi_id r <> p)
      by (intros r Hr; apply Hall; right; exact Hr).
    destruct (POI db !! s_poi_id row) as [old|] eqn:Hpoi.
    + destruct (decide (old = s_detail_description_en row)) as [->|Hne].
      * rewrite promote_row_same by exact Hpoi.
        destruct (IH (promoted + 1) errors (mark_applied (s_id row) db) Hrest)
          as (HP & entries & HH & HF).
        split; [exact HP|]. exists entries. split; [exact HH | exact HF].
      * destruct (promote_row_changed promoted errors db row old Hpoi Hne)
          as (entry & -> & He & _).
        match goal with
        | |- context [foldl promote_row (?a, ?b, ?d) rows] =>
            destruct (IH a b d Hrest) as (HP & entries & HH & HF)
        end.
        split.
        -- rewrite HP. cbn. apply lookup_alter_ne. exact Hrow.
        -- exists (entry :: entries). split.
           ++ rewrite HH. cbn. rewrite <- app_assoc. reflexivity.
           ++ constructor; [congruence | exact HF].
    + rewrite promote_row_missing by exact Hpoi. apply IH. exact Hrest.
Qed.

Lemma filter_history_other p entries :
  Forall (fun h => h_poi_id h <> p) entries ->
  List.filter (fun h => (h_poi_id h =? p) && String.eqb (h_field_name h) FIELD) entries
  = [].
Proof.
  induction 1 as [|h entries Hh _ IH]; [reflexivity|]. cbn.
  apply Z.eqb_neq in Hh. rewrite Hh. exact IH.
Qed.

(** C8 (amended).  Let exactly one row of the batch be approved for an
    item whose production text is not empty, with a candidate that
    differs from it.  After the promotion, a rollback of the item puts
    the production text back to what it was before the promotion,
    appends exactly one audit entry, with change source [rollback], and
    turns the applied rows of the item in the batch to [rejected], the
    promoted row among them. *)
Theorem C8_rollback_restores (db : store) (p : Z) (row : staging_row) (old : string) :
  List.filter (fun r => is_selected r && (s_poi_id r =? p)) (staging db) = [row] ->
  POI db !! p = Some (Some old) ->
  old <> "" ->
  s_detail_description_en row <> Some old ->
  let db1 := (promote_to_production false db).2 in
  let out := rollback_poi p false db1 in
  POI db1 !! p = Some (s_detail_description_en row)
  /\ out.1 = true
  /\ POI out.2 !! p = Some (Some old)
  /\ (forall k, k <> p -> POI out.2 !! k = POI db1 !! k)
  /\ (exists entry,
        history out.2 = history db1 ++ [entry]
        /\ h_poi_id entry = p
        /\ h_field_name entry = FIELD
        /\ h_old_value entry = s_detail_description_en row
        /\ h_new_value entry = Some old
        /\ h_change_source entry = "rollback")
  /\ In (set_status "rejected" (Some "Rolled back via R5") row) (staging out.2)
  /\ (forall r, In r (staging out.2) -> s_poi_id r = p ->
                s_created_date r = R4_BATCH_DATE -> s_status r <> "applied").
Proof.
  intros Hone Hpoi Hold Hcand db1 out.
  rewrite <- filter_filter in Hone.
  destruct (filter_singleton_split _ _ _ Hone) as (l1 & l2 & Hsel & Hl1 & Hl2 & Hp).
  apply Z.eqb_eq in Hp.
  assert (Hrow_in : In row (List.filter is_selected (staging db))).
  { rewrite Hsel. apply in_or_app. right. left. reflexivity. }
  apply filter_In in Hrow_in as [Hrow_in Hrow_sel].
  assert (Ho1 : forall r, In r l1 -> s_poi_id r <> p).
  { intros r Hr. apply Z.eqb_neq. exact (filter_nil_not_in _ _ Hl1 r Hr). }
  assert (Ho2 : forall r, In r l2 -> s_poi_id r <> p).
  { intros r Hr. apply Z.eqb_neq. exact (filter_nil_not_in _ _ Hl2 r Hr). }
  (* the pass, in three parts *)
  assert (Hdb1 : db1 = (foldl promote_row (0, 0, db) (l1 ++ row :: l2)).2).
  { subst db1. rewrite promote_store, Hsel. reflexivity. }
  rewrite foldl_app in Hdb1. cbn [foldl] in Hdb1.
  destruct (foldl promote_row (0, 0, db) l1) as [[p1 e1] d1] eqn:E1.
  destruct (promote_rows_other p l1 0 0 db Ho1) as (HP1 & H1 & HH1 & HF1).
  rewrite E1 in HP1, HH1. cbn [snd] in HP1, HH1.
  assert (Hpoi1 : POI d1 !! s_poi_id row = Some (Some old)) by (rewrite Hp; congruence).
  destruct (promote_row_changed p1 e1 d1 row (Some old) Hpoi1)
    as (entry & Hstep & He1 & He2 & He3 & He4 & He5).
  { congruence. }
  rewrite Hstep in Hdb1.
  match type of Hdb1 with
  | _ = (foldl promote_row (?a, ?b, ?d) l2).2 =>
      destruct (promote_rows_other p l2 a b d Ho2) as (HP2 & H2 & HH2 & HF2)
  end.
  rewrite <- Hdb1 in HP2, HH2.
  cbn [POI history mark_applied insert_history update_POI] in HP2, HH2.
  rewrite Hp in HP2. rewrite lookup_alter_eq in HP2.
  replace (POI d1 !! p) with (Some (Some old)) in HP2 by congruence.
  cbn in HP2.
  (* the most recent audit entry of the item is the one of the promotion *)
  assert (Hlatest : latest_history p db1 = Some entry).
  { unfold latest_history. rewrite HH2, HH1.
    rewrite !List.filter_app. rewrite (filter_history_other p H1 HF1).
    rewrite (filter_history_other p H2 HF2). cbn [List.filter].
    rewrite He1, He2, Hp, Z.eqb_refl. cbn [andb].
    rewrite String.eqb_refl. rewrite !app_nil_r. apply last_snoc. }
  assert (Hcontent : rollback_content p db1 = Some old).
  { unfold rollback_content. rewrite Hlatest, He3. cbn [Py.truthy_str].
    apply String.eqb_neq in Hold. rewrite Hold. reflexivity. }
  split; [exact HP2|].
  subst out. unfold rollback_poi. rewrite Hcontent.
  cbn [fst snd POI history staging insert_history update_POI].
  split; [reflexivity|]. split; [|split; [|split; [|split]]].
  - rewrite lookup_alter_eq, HP2. reflexivity.
  - intros k Hk. apply lookup_alter_ne. congruence.
  - eexists. split; [reflexivity|]. cbn. rewrite HP2. repeat split; reflexivity.
  - destruct (promote_rows_staging (List.filter is_selected (staging db)) 0 0 db)
      as (ids & Hs & Hids & _).
    rewrite <- promote_store in Hs. fold db1 in Hs. rewrite Hs.
    apply in_map_iff. exists (applied_by ids row). split.
    + assert (Hex : existsb (Z.eqb (s_id row)) ids = true).
      { apply existsb_exists. exists (s_id row). split; [|apply Z.eqb_refl].
        apply Hids. exists row. split; [apply filter_In; auto|].
        split; [reflexivity|]. rewrite Hp. congruence. }
      unfold applied_by. rewrite Hex.
      unfold is_selected in Hrow_sel. apply andb_prop in Hrow_sel as [Hdate _].
      cbn [s_poi_id s_created_date s_status set_status].
      rewrite Hp, Z.eqb_refl, Hdate. cbn. reflexivity.
    + apply in_map_iff. exists row. split; [reflexivity | exact Hrow_in].
  - intros r Hr Hrp Hrd Hrs.
    apply in_map_iff in Hr as (r0 & Hr0 & _).
    destruct ((s_poi_id r0 =? p) && String.eqb (s_created_date r0) R4_BATCH_DATE
              && String.eqb (s_status r0) "applied") eqn:Hc.
    + subst r. cbn in Hrs. discriminate.
    + subst r. rewrite Hrp, Z.eqb_refl, Hrd, String.eqb_refl, Hrs in Hc.
      cbn in Hc. discriminate.
Qed.

End PromoteProperties.

(** *** The statements above on sample stores *)

Section PromoteSamples.

Import Promote Samples.

(** Two promotions in a row: one audit entry, one production write,
    and the second call returns 0. *)
Example promote_twice :
  let first := promote_to_production false store_changed in
  let second := promote_to_production false first.2 in
  first.1 = 1
  /\ POI first.2 !! 7 = Some (Some "A bakery in Calpe.")
  /\ length (history first.2) = 1%nat
  /\ map s_status (staging first.2) = ["applied"]
  /\ second = (0, first.2).
Proof. vm_compute. repeat split; reflexivity. Qed.

(** Scenario D of the spec: the candidate equals the production text. *)
Example scenario_D :
  let first := promote_to_production false store_same in
  first.1 = 1
  /\ POI first.2 = POI store_same
  /\ history first.2 = []
  /\ map s_status (staging first.2) = ["applied"].
Proof. vm_compute. repeat split; reflexivity. Qed.

(** C8, as the spec words it, fails for an item whose production text
    was empty before the promotion: the rollback refuses to restore an
    empty text, returns [False] and leaves everything as the promotion
    left it. *)
Lemma C8_empty_old_content_counterexample :
  let db1 := (promote_to_production false store_empty_before).2 in
  let out := rollback_poi 8 false db1 in
  POI store_empty_before !! 8 = Some (Some "")
  /\ POI db1 !! 8 = Some (Some "A bakery in Calpe.")
  /\ out = (false, db1)
  /\ POI out.2 !! 8 <> POI store_empty_before !! 8
  /\ length (history out.2) = length (history db1).
Proof.
  vm_compute. repeat split; try reflexivity. discriminate.
Qed.

(** When the candidate equals the production text the promotion writes
    no audit entry, and a rollback then goes back to the entry before
    it: here to the text that preceded ["An old text."]. *)
Example rollback_after_unchanged_promotion :
  let db :=
    {| staging := staging store_same;
       POI := POI store_same;
       history :=
         [{| h_poi_id := 7; h_field_name := FIELD;
             h_old_value := Some "The first text."; h_new_value := Some "An old text.";
             h_change_source := "manual"; h_change_reason := "edit";
             h_changed_by := "editor" |}] |} in
  let db1 := (promote_to_production false db).2 in
  history db1 = history db
  /\ POI (rollback_poi 7 false db1).2 !! 7 = Some (Some "The first text.").
Proof. vm_compute. split; reflexivity. Qed.

Lemma C8_rollback_restores_witness :
  let db1 := (promote_to_production false store_changed).2 in
  let out := rollback_poi 7 false db1 in
  POI db1 !! 7 = Some (Some "A bakery in Calpe.")
  /\ out.1 = true
  /\ POI out.2 !! 7 = Some (Some "An old text.")
  /\ length (history out.2) = S (length (history db1))
  /\ map s_status (staging out.2) = ["rejected"].
Proof.
  destruct (C8_rollback_restores store_changed 7
              (staged 1 7 "A bakery in Calpe." "approved") "An old text.")
    as (H1 & H2 & H3 & _ & (entry & H5 & _) & _).
  - vm_compute. reflexivity.
  - vm_compute. reflexivity.
  - discriminate.
  - discriminate.
  - split; [exact H1|]. split; [exact H2|]. split; [exact H3|].
    split; [rewrite H5, length_app; cbn; lia|].
    vm_compute. reflexivity.
Defined.

End PromoteSamples.

(** * Further properties of the code *)

(** ** The gate on edge inputs, and [validate_batch] *)

Section GateEdges.

Import PromptTemplates Safeguards.

Variable json_loads : string -> option llm_context.

Ltac split_rule3 :=
  match goal with
  | |- context [validate_content _ _ ?c _ _] =>
      unfold validate_content;
      destruct c as [?text|]; [destruct (String.eqb text "")|];
      repeat (match goal with
              | |- context [if ?b then (_, _) else _] => destruct b
              end)
  | H : context [validate_content _ _ ?c _ _] |- _ =>
      unfold validate_content in H;
      destruct c as [?text|]; [destruct (String.eqb text "")|];
      repeat (match type of H with
              | context [if ?b then (_, _) else _] => destruct b
              end)
  end.

Ltac reduce_gate E :=
  cbv beta iota zeta delta [reasons approved warnings] in E.

Ltac nonempty E :=
  apply (f_equal (@length string)) in E;
  rewrite ?length_app in E; simpl length in E; lia.

Ltac split_ifs E :=
  repeat (match type of E with
          | context [if ?b then _ else _] => destruct b eqn:?; cbn [andb negb] in E
          | context [match ?d with Some _ => _ | None => _ end] => destruct d eqn:?
          end).

(** A row without text is blocked, with the reason of rule 3. *)
Lemma empty_content_reason poi_id new_content arg destination_id :
  Py.truthy_str new_content = false ->
  approved (validate_content json_loads poi_id new_content arg destination_id) = false
  /\ In "BLOCKED: Empty content"
       (reasons (validate_content json_loads poi_id new_content arg destination_id)).
Proof.
  intros Hfalsy.
  assert (Hin : In "BLOCKED: Empty content"
            (reasons (validate_content json_loads poi_id new_content arg destination_id))).
  { unfold validate_content.
    destruct new_content as [text|]; cbn [Py.truthy_str] in Hfalsy.
    - apply negb_false_iff in Hfalsy. rewrite Hfalsy.
      cbv beta iota zeta delta [reasons].
      repeat (match goal with
              | |- context [if ?b then _ else _] => destruct b
              | |- context [match ?d with Some _ => _ | None => _ end] => destruct d
              end);
        rewrite ?in_app_iff; cbn [In]; tauto.
    - cbv beta iota zeta delta [reasons].
      repeat (match goal with
              | |- context [if ?b then _ else _] => destruct b
              | |- context [match ?d with Some _ => _ | None => _ end] => destruct d
              end);
        rewrite ?in_app_iff; cbn [In]; tauto. }
  split; [|exact Hin].
  destruct (approved _) eqn:E; [|reflexivity].
  apply approved_iff_no_reason in E. rewrite E in Hin. destruct Hin.
Qed.

(** X1.  A row without text, be it [None] or the empty string, is never
    approved, and the reasons say so. *)
Theorem X1_empty_content_blocks poi_id new_content arg destination_id :
  Py.truthy_str new_content = false ->
  approved (validate_content json_loads poi_id new_content arg destination_id) = false
  /\ In "BLOCKED: Empty content"
       (reasons (validate_content json_loads poi_id new_content arg destination_id)).
Proof. apply empty_content_reason. Qed.

(** X2.  Beyond being empty or not, the text has no say in the
    decision: two texts that are not empty get the same reasons and the
    same approval, whatever they contain and however long they are.
    Word count and vocabulary reach the warnings only. *)
Theorem X2_decision_ignores_text poi_id text1 text2 arg destination_id :
  text1 <> "" -> text2 <> "" ->
  reasons (validate_content json_loads poi_id (Some text1) arg destination_id)
  = reasons (validate_content json_loads poi_id (Some text2) arg destination_id)
  /\ approved (validate_content json_loads poi_id (Some text1) arg destination_id)
     = approved (validate_content json_loads poi_id (Some text2) arg destination_id).
Proof.
  intros H1 H2. apply String.eqb_neq in H1, H2.
  unfold validate_content. rewrite H1, H2.
  repeat (match goal with
          | |- context [if ?b then (_, _) else _] => destruct b
          end);
    split; reflexivity.
Qed.

(** X3.  A row without usable metadata, that is [None], a text that
    does not decode, or the empty object, is never approved: the rate
    it is given is 1 and its tier is ['none']. *)
Theorem X3_no_metadata_blocks poi_id new_content arg destination_id :
  decode_context json_loads arg = empty_context ->
  approved (validate_content json_loads poi_id new_content arg destination_id) = false.
Proof.
  intros Hctx. apply rate_above_20_blocks. rewrite Hctx. reflexivity.
Qed.

(** X4.  A rate written as a percentage between 1 and 100 is read as
    the fraction it stands for: the gate answers as it does for the
    rate divided by 100. *)
Theorem X4_percentage_is_fraction poi_id new_content destination_id
    tier (rate : Q) verdict claims words :
  (1 < rate)%Q -> (rate <= 100)%Q ->
  validate_content json_loads poi_id new_content
    (CtxDict {| ctx_data_quality := tier; ctx_hallucination_rate := Some rate;
                ctx_verification_verdict := verdict;
                ctx_unsupported_claims := claims; ctx_word_count := words |})
    destination_id
  = validate_content json_loads poi_id new_content
      (CtxDict {| ctx_data_quality := tier;
                  ctx_hallucination_rate := Some (rate / 100)%Q;
                  ctx_verification_verdict := verdict;
                  ctx_unsupported_claims := claims; ctx_word_count := words |})
      destination_id.
Proof.
  intros Hlo Hhi.
  assert (E1 : rate_fraction rate = (rate / 100)%Q).
  { unfold rate_fraction, Py.Qgt_bool.
    destruct (Qle_bool rate 1) eqn:E; [|reflexivity].
    apply Qle_bool_iff in E. apply Qlt_not_le in Hlo. contradiction. }
  assert (E2 : rate_fraction (rate / 100) = (rate / 100)%Q).
  { unfold rate_fraction, Py.Qgt_bool.
    destruct (Qle_bool (rate / 100) 1) eqn:E; [reflexivity|].
    exfalso. assert (Hle : (rate / 100 <= 1)%Q).
    { apply Qle_shift_div_r; [reflexivity|]. exact Hhi. }
    apply Qle_bool_iff in Hle. congruence. }
  unfold validate_content.
  cbn [decode_context ctx_data_quality ctx_hallucination_rate
       ctx_unsupported_claims].
  change (default 1%Q (Some rate)) with rate.
  change (default 1%Q (Some (rate / 100)%Q)) with (rate / 100)%Q.
  rewrite E1, E2. reflexivity.
Qed.

(** A claim of severity HIGH among the unsupported claims blocks. *)
Lemma high_claim_blocks poi_id new_content arg destination_id c :
  c ∈ default [] (ctx_unsupported_claims (decode_context json_loads arg)) ->
  is_high c = true ->
  approved (validate_content json_loads poi_id new_content arg destination_id) = false.
Proof.
  intros Hin Hc.
  destruct (approved _) eqn:E; [|reflexivity].
  apply approved_iff_no_reason in E. exfalso.
  assert (Hhigh : filter (fun c => is_high c = true)
            (default [] (ctx_unsupported_claims (decode_context json_loads arg))) <> []).
  { intros Hnil.
    assert (Hf : c ∈ filter (fun c => is_high c = true)
              (default [] (ctx_unsupported_claims (decode_context json_loads arg)))).
    { apply list_elem_of_filter. split; [exact Hc | exact Hin]. }
    rewrite Hnil in Hf. inversion Hf. }
  split_rule3; reduce_gate E;
    destruct (filter _ _) as [|c0 rest]; try congruence;
    split_ifs E; try discriminate; nonempty E.
Qed.

Lemma rate_within_20_within_30 (rate : Q) :
  Py.Qgt_bool rate MAX_HALLUCINATION_RATE = false ->
  Py.Qgt_bool rate MAX_HALLUCINATION_RATE_NONE = false.
Proof.
  unfold Py.Qgt_bool. intros H. apply negb_false_iff in H. apply negb_false_iff.
  apply Qle_bool_iff in H. apply Qle_bool_iff.
  eapply Qle_trans; [exact H|]. unfold MAX_HALLUCINATION_RATE, MAX_HALLUCINATION_RATE_NONE.
  unfold Qle. cbn. lia.
Qed.

(** X6.  The gate approves a row exactly when four conditions hold:
    the text is not empty, no unsupported claim has severity HIGH, the
    rate (as a fraction) is at most 20%, and the destination is absent,
    0 or a known one.  The tier, the verdict, the word count and the
    vocabulary have no part in the decision. *)
Theorem X6_approval_conditions poi_id new_content arg destination_id :
  let ctx := decode_context json_loads arg in
  approved (validate_content json_loads poi_id new_content arg destination_id) = true
  <-> (exists text, new_content = Some text /\ text <> "")
      /\ (forall c, c ∈ default [] (ctx_unsupported_claims ctx) -> is_high c = false)
      /\ (rate_fraction (default 1%Q (ctx_hallucination_rate ctx))
           <= MAX_HALLUCINATION_RATE)%Q
      /\ (forall d, destination_id = Some d ->
                    d = 0 \/ is_Some (KNOWN_DESTINATIONS !! d)).
Proof.
  intros ctx. split.
  - intros Happ. split; [|split; [|split]].
    + destruct new_content as [text|].
      * exists text. split; [reflexivity|]. intros ->.
        destruct (empty_content_reason poi_id (Some "") arg destination_id eq_refl)
          as [Hb _].
        congruence.
      * destruct (empty_content_reason poi_id None arg destination_id eq_refl)
          as [Hb _].
        congruence.
    + intros c Hin. destruct (is_high c) eqn:Hc; [|reflexivity].
      pose proof (high_claim_blocks poi_id new_content arg destination_id c Hin Hc).
      congruence.
    + apply Qle_bool_iff.
      destruct (Qle_bool (rate_fraction (default 1%Q (ctx_hallucination_rate ctx)))
                  MAX_HALLUCINATION_RATE) eqn:Hr; [reflexivity|].
      assert (Hb : approved
                     (validate_content json_loads poi_id new_content arg destination_id)
                   = false).
      { apply rate_above_20_blocks. fold ctx. unfold Py.Qgt_bool. rewrite Hr. reflexivity. }
      congruence.
    + intros d ->. destruct (decide (d = 0)) as [Hz|Hz]; [left; exact Hz | right].
      destruct (KNOWN_DESTINATIONS !! d) eqn:Hk; [eexists; reflexivity|].
      pose proof (unknown_destination_blocks json_loads poi_id new_content arg d Hz Hk).
      congruence.
  - intros ((text & -> & Htext) & Hhigh & Hrate & Hdest).
    apply String.eqb_neq in Htext.
    assert (Hnone : filter (fun c => is_high c = true)
                      (default [] (ctx_unsupported_claims ctx)) = []).
    { destruct (filter _ _) as [|c0 rest] eqn:E; [reflexivity|]. exfalso.
      assert (Hc : c0 ∈ filter (fun c => is_high c = true)
                     (default [] (ctx_unsupported_claims ctx)))
        by (rewrite E; left).
      apply list_elem_of_filter in Hc as [Hc Hin].
      rewrite (Hhigh c0 Hin) in Hc. discriminate. }
    assert (H20 : Py.Qgt_bool (rate_fraction (default 1%Q (ctx_hallucination_rate ctx)))
                    MAX_HALLUCINATION_RATE = false).
    { unfold Py.Qgt_bool. apply negb_false_iff. apply Qle_bool_iff. exact Hrate. }
    pose proof (rate_within_20_within_30 _ H20) as H30.
    assert (Hd : match destination_id with
                 | Some d => negb (d =? 0)
                             && negb (bool_decide (is_Some (KNOWN_DESTINATIONS !! d)))
                 | None => false
                 end = false).
    { destruct destination_id as [d|]; [|reflexivity].
      destruct (Hdest d eq_refl) as [-> | Hk]; [reflexivity|].
      rewrite (bool_decide_eq_true_2 _ Hk). apply andb_false_r. }
    subst ctx. unfold validate_content. rewrite Htext, Hnone.
    destruct (String.eqb (default "none" _) "none"); rewrite ?H20, ?H30; cbn [andb];
      repeat (match goal with
              | |- context [if ?b then (_, _) else _] => destruct b
              end);
      destruct destination_id as [d|]; rewrite ?Hd; reflexivity.
Qed.

(** The loop of [validate_batch], counter by counter. *)
Lemma validate_steps rows :
  forall a b w details,
    let out := foldl (validate_step json_loads) (a, b, w, details) rows in
    (out.1.1.1 + out.1.1.2 = a + b + length rows)%nat
    /\ (out.1.1.1 = a + length (List.filter
                                  (fun r => approved (validate_row json_loads r)) rows))%nat
    /\ (out.1.2 = w + length (List.filter
                                (fun r => approved (validate_row json_loads r)
                                          && match warnings (validate_row json_loads r) with
                                             | [] => false
                                             | _ :: _ => true
                                             end) rows))%nat
    /\ out.2 = details
               ++ map (fun r => {| bd_poi_id := br_poi_id r;
                                   bd_poi_name := default "" (br_poi_name r);
                                   bd_reasons := reasons (validate_row json_loads r);
                                   bd_warnings := warnings (validate_row json_loads r) |})
                    (List.filter
                       (fun r => negb (approved (validate_row json_loads r))) rows).
Proof.
  induction rows as [|row rows IH]; intros a b w details.
  - cbn. rewrite app_nil_r. repeat split; lia.
  - cbn [foldl List.filter length].
    remember (validate_step json_loads (a, b, w, details) row) as acc eqn:Hacc.
    unfold validate_step in Hacc.
    destruct (approved (validate_row json_loads row)) eqn:E; cbn [negb].
    + destruct (warnings (validate_row json_loads row)); subst acc;
        match goal with
        | |- context [foldl _ (?a', ?b', ?w', ?d') rows] =>
            specialize (IH a' b' w' d')
        end;
        cbn zeta in IH; destruct IH as (I1 & I2 & I3 & I4);
        cbn zeta; cbn [andb length]; repeat split; try lia; exact I4.
    + subst acc.
      match goal with
      | |- context [foldl _ (?a', ?b', ?w', ?d') rows] =>
          specialize (IH a' b' w' d')
      end.
      cbn zeta in IH. destruct IH as (I1 & I2 & I3 & I4).
      cbn zeta. cbn [andb length map]. repeat split; try lia.
      rewrite I4, <- app_assoc. reflexivity.
Qed.

(** X5.  [validate_batch] counts every row once, as approved or as
    blocked; its warnings counter is the number of approved rows that
    carry a warning (a blocked row with a warning is not counted); and
    it lists the blocked rows, and only them, in the order of the
    input, each with the reasons and the warnings of the gate. *)
Theorem X5_validate_batch_counts (staging_rows : list batch_row) :
  let result := validate_batch json_loads staging_rows in
  b_total result = length staging_rows
  /\ (b_approved result + b_blocked result = b_total result)%nat
  /\ b_approved result
     = length (List.filter (fun r => approved (validate_row json_loads r)) staging_rows)
  /\ b_warnings result
     = length (List.filter
                 (fun r => approved (validate_row json_loads r)
                           && match warnings (validate_row json_loads r) with
                              | [] => false
                              | _ :: _ => true
                              end) staging_rows)
  /\ (b_warnings result <= b_approved result)%nat
  /\ length (b_blocked_details result) = b_blocked result
  /\ b_blocked_details result
     = map (fun r => {| bd_poi_id := br_poi_id r;
                        bd_poi_name := default "" (br_poi_name r);
                        bd_reasons := reasons (validate_row json_loads r);
                        bd_warnings := warnings (validate_row json_loads r) |})
         (List.filter (fun r => negb (approved (validate_row json_loads r)))
            staging_rows).
Proof.
  intros result. subst result. unfold validate_batch.
  pose proof (validate_steps staging_rows 0 0 0 []) as H. cbn zeta in H.
  destruct (foldl (validate_step json_loads) (0, 0, 0, [])%nat staging_rows)
    as [[[a b] w] details].
  cbn [fst snd] in H. destruct H as (H1 & H2 & H3 & H5).
  cbn [b_total b_approved b_blocked b_warnings b_blocked_details].
  cbn [app] in H5.
  assert (Hw : (length (List.filter
                          (fun r => approved (validate_row json_loads r)
                                    && match warnings (validate_row json_loads r) with
                                       | [] => false
                                       | _ :: _ => true
                                       end) staging_rows)
                <= length (List.filter (fun r => approved (validate_row json_loads r))
                             staging_rows))%nat).
  { clear. induction staging_rows as [|r rs IH]; [reflexivity|]. cbn [List.filter].
    destruct (approved (validate_row json_loads r)); cbn [andb]; [|exact IH].
    destruct (warnings (validate_row json_loads r)); cbn [length]; lia. }
  assert (Hlen : (length (List.filter (fun r => approved (validate_row json_loads r))
                            staging_rows)
                  + length (List.filter
                              (fun r => negb (approved (validate_row json_loads r)))
                              staging_rows)
                  = length staging_rows)%nat).
  { clear. induction staging_rows as [|r rs IH]; [reflexivity|]. cbn.
    destruct (approved (validate_row json_loads r)); cbn; lia. }
  repeat split; try lia; try exact H5.
  rewrite H5, length_map. lia.
Qed.

End GateEdges.

(** ** One item: words, requests, failures *)

Section ItemProperties.

Import PromptTemplates Regeneration.

Variable json_loads : string -> option verification.

Lemma count_runs_blank_joined (a b : string) :
  forall in_word,
    Py.count_runs in_word (a +:+ " " +:+ b)
    = (Py.count_runs in_word a + Py.count_runs false b)%nat.
Proof.
  induction a as [|c a IH]; intros in_word.
  - reflexivity.
  - change (String c a +:+ " " +:+ b) with (String c (a +:+ " " +:+ b)).
    cbn [Py.count_runs].
    destruct (Py.is_space c); rewrite IH; lia.
Qed.

(** X7.  [count_words] counts nothing in the empty text, and the count
    of two texts joined by a blank is the sum of their counts. *)
Theorem X7_count_words_additive (a b : string) :
  count_words "" = 0
  /\ 0 <= count_words a
  /\ count_words (a +:+ " " +:+ b) = count_words a + count_words b.
Proof.
  unfold count_words, Py.split_len. split; [reflexivity|]. split; [lia|].
  rewrite count_runs_blank_joined. lia.
Qed.

Lemma bind_adds_requests {A B} (m : M A) (k : A -> M B) lo1 hi1 hi2 :
  adds_requests m lo1 hi1 ->
  (forall a, adds_requests (k a) 0 hi2) ->
  adds_requests (bind m k) lo1 (hi1 + hi2).
Proof.
  intros Hm Hk w. unfold bind. destruct (Hm w) as (new1 & E1 & L1).
  destruct (m w) as [[a|e] w1]; cbn [snd] in *.
  - destruct (Hk a w1) as (new2 & E2 & L2).
    exists (new1 ++ new2). rewrite E2, E1, app_assoc, length_app.
    split; [reflexivity | lia].
  - exists new1. split; [exact E1 | lia].
Qed.

Lemma ret_adds_requests {A} (a : A) : adds_requests (ret a) 0 0.
Proof. intros w. exists []. cbn. rewrite app_nil_r. split; [reflexivity | lia]. Qed.

Lemma lift_adds_requests {A} (o : outcome A) : adds_requests (lift o) 0 0.
Proof. intros w. exists []. cbn. rewrite app_nil_r. split; [reflexivity | lia]. Qed.

Lemma call_adds_requests p t n model : adds_requests (call_mistral p t n model) 1 1.
Proof. intros w. eexists. cbn. split; [reflexivity | cbn; lia]. Qed.

Lemma adds_requests_weaken {A} (m : M A) lo hi lo' hi' :
  adds_requests m lo hi -> (lo' <= lo)%nat -> (hi <= hi')%nat ->
  adds_requests m lo' hi'.
Proof.
  intros H Hlo Hhi w. destruct (H w) as (new & E & L).
  exists new. split; [exact E | lia].
Qed.

Lemma retry_adds_requests remaining p targets :
  forall text wc rc,
    adds_requests (retry_word_count remaining p targets text wc rc) 0 remaining.
Proof.
  induction remaining as [|remaining IH]; intros text wc rc; cbn [retry_word_count].
  - apply ret_adds_requests.
  - destruct (out_of_range targets wc).
    + apply (adds_requests_weaken _ 1 (1 + remaining)); [|lia|lia].
      apply bind_adds_requests; [apply call_adds_requests|].
      intros t. destruct (Py.startswith t "ERROR:").
      * apply (adds_requests_weaken _ 0 0); [apply ret_adds_requests | lia | lia].
      * apply IH.
    + apply (adds_requests_weaken _ 0 0); [apply ret_adds_requests | lia | lia].
Qed.

(** X8.  One item costs at least one request to the text service and
    at most three: the generation, at most [WORD_COUNT_RETRIES]
    regenerations, and the verification. *)
Theorem X8_requests_per_item fs old_content w :
  exists new,
    calls (process_single_poi json_loads fs old_content w).2 = calls w ++ new
    /\ (1 <= length new <= 2 + WORD_COUNT_RETRIES)%nat.
Proof.
  assert (H : adds_requests (process_single_poi json_loads fs old_content)
                1 (1 + (WORD_COUNT_RETRIES + (1 + (0 + 0))))).
  { unfold process_single_poi.
    apply bind_adds_requests; [apply call_adds_requests|].
    intros t0. destruct (Py.startswith t0 "ERROR:").
    - eapply adds_requests_weaken; [apply ret_adds_requests | lia | lia].
    - apply bind_adds_requests; [apply retry_adds_requests|].
      intros [[text wc] rc].
      apply (adds_requests_weaken _ 1 (1 + (0 + 0))); [|lia|lia].
      apply bind_adds_requests; [apply call_adds_requests|].
      intros vr. apply bind_adds_requests; [apply lift_adds_requests|].
      intros v. apply lift_adds_requests. }
  destruct (H w) as (new & E & L). exists new.
  split; [exact E | lia].
Qed.

(** X9.  When the text service fails on the generation request, the
    item is not verified: one request is made, and the result is an
    ERROR that carries the message, with an empty text, the status
    [review_required] and the recommendation MANUAL_REVIEW. *)
Theorem X9_generation_failure fs old_content w :
  let request := {| req_prompt := build_generation_prompt fs;
                    req_temperature := 4 # 10;
                    req_max_tokens := 400;
                    req_model := MISTRAL_MODEL_GENERATE |} in
  let answer := oracle w (length (calls w)) request in
  Py.startswith answer "ERROR:" = true ->
  exists r w',
    process_single_poi json_loads fs old_content w = (Returned r, w')
    /\ calls w' = calls w ++ [request]
    /\ r_poi_id r = fs_poi_id fs
    /\ r_new_content r = ""
    /\ r_error r = Some answer
    /\ r_verdict r = "ERROR"
    /\ r_status r = "review_required"
    /\ r_recommendation r = "MANUAL_REVIEW"
    /\ r_verification r = None.
Proof.
  intros request answer Herr.
  unfold process_single_poi, bind, call_mistral.
  cbn [oracle calls]. fold request. fold answer. rewrite Herr.
  eexists. eexists. split; [reflexivity|]. cbn. repeat split; reflexivity.
Qed.

(** X10.  Generation and verification of one item write nothing: the
    staging table, the checkpoint file and the results file are as they
    were, whether the item returns or raises. *)
Theorem X10_item_writes_no_file fs old_content w :
  let w' := (process_single_poi json_loads fs old_content w).2 in
  staging_log w' = staging_log w
  /\ checkpoint_file w' = checkpoint_file w
  /\ results_file w' = results_file w.
Proof.
  intros w'.
  destruct (process_single_poi_same_files json_loads fs old_content w)
    as (_ & H1 & H2 & H3).
  auto.
Qed.

(** X11.  When nothing of the response decodes as JSON, whatever the
    parser returns has one of the four verdicts PASS, REVIEW, FAIL and
    ERROR, a rate, and no unsupported claim: the fallbacks never report
    a claim, of severity HIGH or other. *)
Theorem X11_fallback_verdicts response v :
  (forall json_str, Py.outer_braces response = Some json_str ->
                    json_loads json_str = None) ->
  parse_verification json_loads response = Returned v ->
  (v_verdict v = Some "PASS" \/ v_verdict v = Some "REVIEW"
   \/ v_verdict v = Some "FAIL" \/ v_verdict v = Some "ERROR")
  /\ default [] (v_unsupported_claims v) = []
  /\ is_Some (v_hallucination_rate v).
Proof.
  intros Hjson. unfold parse_verification.
  assert (Hlast : forall v0, last_resort response = v0 ->
            (v_verdict v0 = Some "PASS" \/ v_verdict v0 = Some "REVIEW"
             \/ v_verdict v0 = Some "FAIL" \/ v_verdict v0 = Some "ERROR")
            /\ default [] (v_unsupported_claims v0) = []
            /\ is_Some (v_hallucination_rate v0)).
  { intros v0 <-. unfold last_resort.
    repeat (match goal with
            | |- context [if ?b then _ else _] => destruct b
            end);
      cbn; repeat split; eauto 6. }
  destruct (Py.startswith response "ERROR:").
  - intros H. inversion H; subst. cbn. repeat split; eauto 6.
  - destruct (Py.outer_braces response) as [json_str|] eqn:Hb.
    + rewrite (Hjson json_str eq_refl). unfold extract_fields.
      destruct (Py.search match_verdict response) as [verdict|] eqn:Hs.
      * apply search_some in Hs as (s' & Hs').
        apply match_verdict_words in Hs'.
        destruct (Py.search match_rate response) as [text|].
        -- destruct (Py.float_of_text text); [|discriminate].
           intros H. inversion H; subst. cbn.
           repeat split; eauto. destruct Hs' as [-> | [-> | ->]]; auto.
        -- intros H. inversion H; subst. cbn.
           repeat split; eauto. destruct Hs' as [-> | [-> | ->]]; auto.
      * intros H. inversion H. apply Hlast. reflexivity.
    + intros H. inversion H. apply Hlast. reflexivity.
Qed.

Lemma high_severity_of_objects claims :
  (forall raw, ~ In (ClaimOther raw) claims) ->
  high_severity_of claims
  = Returned (List.filter
                (fun c => match c with
                          | ClaimObj _ sev _ => bool_decide (sev = Some "HIGH")
                          | ClaimOther _ => false
                          end) claims).
Proof.
  induction claims as [|c claims IH]; intros Hobj; [reflexivity|].
  destruct c as [claim sev why | raw].
  - cbn [high_severity_of List.filter]. rewrite IH.
    + destruct (bool_decide (sev = Some "HIGH")); reflexivity.
    + intros raw Hin. apply (Hobj raw). right. exact Hin.
  - exfalso. apply (Hobj raw). left. reflexivity.
Qed.

(** X12.  With a list of unsupported claims that are all objects, the
    verification is always recorded, and the new text is recommended
    ([USE_NEW]) exactly for the verdicts PASS and REVIEW and for a FAIL
    without a claim of severity HIGH; every other case is left to
    MANUAL_REVIEW.  The context that goes to the staging table keeps
    the first five unsupported claims. *)
Theorem X12_recommendation result text word_count targets retry_count v :
  (forall raw, ~ In (ClaimOther raw) (default [] (v_unsupported_claims v))) ->
  exists r,
    record_verification result text word_count targets retry_count v = Returned r
    /\ (r_recommendation r = "USE_NEW" \/ r_recommendation r = "MANUAL_REVIEW")
    /\ (r_recommendation r = "USE_NEW" <->
        r_verdict r = "PASS" \/ r_verdict r = "REVIEW"
        \/ (r_verdict r = "FAIL"
            /\ forall claim why,
                 ~ In (ClaimObj claim (Some "HIGH") why)
                      (default [] (v_unsupported_claims v))))
    /\ (lc_unsupported_claims <$> r_llm_context r)
       = Some (take 5 (default [] (v_unsupported_claims v))).
Proof.
  intros Hobj. unfold record_verification.
  rewrite (high_severity_of_objects _ Hobj).
  set (verdict := default "ERROR" (v_verdict v)).
  set (claims := default [] (v_unsupported_claims v)) in *.
  set (high := List.filter _ claims).
  assert (Hhigh : high = [] <-> forall claim why, ~ In (ClaimObj claim (Some "HIGH") why) claims).
  { subst high. split.
    - intros Hnil claim why Hin.
      assert (Hf : In (ClaimObj claim (Some "HIGH") why)
                (List.filter (fun c => match c with
                                       | ClaimObj _ sev _ => bool_decide (sev = Some "HIGH")
                                       | ClaimOther _ => false
                                       end) claims)).
      { apply filter_In. split; [exact Hin | reflexivity]. }
      rewrite Hnil in Hf. destruct Hf.
    - intros Hno. destruct (List.filter _ claims) as [|c rest] eqn:E; [reflexivity|].
      exfalso.
      assert (Hc : In c (c :: rest)) by (left; reflexivity).
      rewrite <- E in Hc. apply filter_In in Hc as [Hin Hc].
      destruct c as [claim sev why | raw]; [|discriminate].
      apply bool_decide_eq_true in Hc. subst sev. exact (Hno claim why Hin). }
  destruct (String.eqb_spec verdict "PASS") as [Ep|Ep].
  { eexists. split; [reflexivity|]. cbn. split; [auto|]. split; [|reflexivity].
    split; auto. }
  destruct (String.eqb_spec verdict "REVIEW") as [Er|Er].
  { eexists. split; [reflexivity|]. cbn. split; [auto|]. split; [|reflexivity].
    split; auto. }
  destruct (String.eqb_spec verdict "FAIL") as [Ef|Ef].
  { destruct high as [|c rest] eqn:Eh.
    - eexists. split; [reflexivity|]. cbn. split; [auto|]. split; [|reflexivity].
      split; [intros _|auto]. right. right. split; [exact Ef|]. apply Hhigh. reflexivity.
    - eexists. split; [reflexivity|]. cbn. split; [auto|]. split; [|reflexivity].
      split; [discriminate|].
      intros [Hc | [Hc | [_ Hc]]]; [congruence | congruence |].
      apply Hhigh in Hc. discriminate. }
  eexists. split; [reflexivity|]. cbn. split; [auto|]. split; [|reflexivity].
  split; [discriminate|]. intros [Hc | [Hc | [Hc _]]]; congruence.
Qed.

End ItemProperties.

(** ** The batch runner: what a run leaves behind *)

Section RunnerFurther.

Import PromptTemplates Regeneration.

Variable json_loads : string -> option verification.

Lemma record_verification_id result text word_count targets retry_count v r :
  record_verification result text word_count targets retry_count v = Returned r ->
  r_poi_id r = r_poi_id result.
Proof.
  unfold record_verification.
  repeat (match goal with
          | |- context [if ?b then _ else _] => destruct b
          | |- context [match high_severity_of ?l with _ => _ end] =>
              destruct (high_severity_of l) as [[|? ?]|?]
          end);
    intros H; inversion H; reflexivity.
Qed.

Lemma process_result_id fs old_content w r w' :
  process_single_poi json_loads fs old_content w = (Returned r, w') ->
  r_poi_id r = fs_poi_id fs.
Proof.
  unfold process_single_poi. intros H.
  apply bind_returned in H as (t0 & w1 & _ & H).
  destruct (Py.startswith t0 "ERROR:").
  - inversion H; subst. reflexivity.
  - apply bind_returned in H as ([[text wc] rc] & w2 & _ & H).
    apply bind_returned in H as (vr & w3 & _ & H).
    apply bind_returned in H as (v & w4 & _ & H).
    unfold lift in H. inversion H as [[Hr Hw]].
    apply record_verification_id in Hr. exact Hr.
Qed.

(** One turn of the loop: either the batch grows, or it is flushed to
    the staging table and a checkpoint is written. *)
Lemma loop_body_spec old_content_map st fs w :
  match loop_body json_loads old_content_map st fs w with
  | (Returned st', w') =>
      exists r,
        r_poi_id r = fs_poi_id fs
        /\ rs_results st' = rs_results st ++ [r]
        /\ rs_completed_ids st' = rs_completed_ids st ∪ {[fs_poi_id fs]}
        /\ results_file w' = results_file w
        /\ ((length (rs_batch_for_staging st ++ [r]) < BATCH_SIZE)%nat
            /\ rs_batch_for_staging st' = rs_batch_for_staging st ++ [r]
            /\ staging_log w' = staging_log w
            /\ checkpoint_file w' = checkpoint_file w
            \/ (BATCH_SIZE <= length (rs_batch_for_staging st ++ [r]))%nat
               /\ rs_batch_for_staging st' = []
               /\ staging_log w' = staging_log w ++ rs_batch_for_staging st ++ [r]
               /\ checkpoint_file w'
                  = Some {| cp_completed_ids := elements (rs_completed_ids st');
                            cp_phase := "generation";
                            cp_stats := compute_stats (rs_results st');
                            cp_results := None |})
  | (Raised _, w') =>
      staging_log w' = staging_log w
      /\ checkpoint_file w' = checkpoint_file w
      /\ results_file w' = results_file w
  end.
Proof.
  unfold loop_body, bind.
  pose proof (process_single_poi_same_files json_loads fs
                (default "" (old_content_map !! fs_poi_id fs)) w) as (_ & Hs & Hc & Hr).
  destruct (process_single_poi json_loads fs _ w) as [[r|e] w1] eqn:E; cbn [snd] in *.
  - apply process_result_id in E.
    destruct (BATCH_SIZE <=? length (rs_batch_for_staging st ++ [r]))%nat eqn:Eb.
    + apply Nat.leb_le in Eb. cbn.
      exists r. repeat split; auto. right. repeat split; auto. congruence.
    + apply Nat.leb_gt in Eb. cbn.
      exists r. repeat split; auto.
  - auto.
Qed.

(** The loop body raises exactly when the item does. *)
Lemma loop_body_raised old_content_map st fs w e w' :
  loop_body json_loads old_content_map st fs w = (Raised e, w') ->
  process_single_poi json_loads fs (default "" (old_content_map !! fs_poi_id fs)) w
  = (Raised e, w').
Proof.
  unfold loop_body, bind.
  destruct (process_single_poi json_loads fs _ w) as [[r|e'] w1].
  - destruct (BATCH_SIZE <=? length (rs_batch_for_staging st ++ [r]))%nat;
      cbn; discriminate.
  - intros H. inversion H. reflexivity.
Qed.

(** The loop, from any state: what it has staged and checkpointed when
    it stops, be it at the end of the list or on an exception. *)
Lemma run_loop_trace old_content_map remaining :
  forall st w,
    (length (rs_batch_for_staging st) < BATCH_SIZE)%nat ->
    exists new staged unstaged,
      rs_batch_for_staging st ++ new = staged ++ unstaged
      /\ (length unstaged < BATCH_SIZE)%nat
      /\ map r_poi_id new = map fs_poi_id (take (length new) remaining)
      /\ staging_log (run_loop json_loads old_content_map remaining st w).2
         = staging_log w ++ staged
      /\ results_file (run_loop json_loads old_content_map remaining st w).2
         = results_file w
      /\ (staged = []
          /\ checkpoint_file (run_loop json_loads old_content_map remaining st w).2
             = checkpoint_file w
          \/ exists flushed cp,
               staged <> []
               /\ staged = rs_batch_for_staging st ++ flushed
               /\ new = flushed ++ unstaged
               /\ checkpoint_file (run_loop json_loads old_content_map remaining st w).2
                  = Some cp
               /\ cp_phase cp = "generation"
               /\ cp_results cp = None
               /\ list_to_set (cp_completed_ids cp)
                  = rs_completed_ids st ∪ ids_of flushed)
      /\ (exists q, length staged = (q * BATCH_SIZE)%nat)
      /\ match (run_loop json_loads old_content_map remaining st w).1 with
         | Returned st' =>
             length new = length remaining
             /\ rs_results st' = rs_results st ++ new
             /\ rs_completed_ids st' = rs_completed_ids st ∪ ids_of new
             /\ rs_batch_for_staging st' = unstaged
         | Raised e =>
             (length new < length remaining)%nat
             /\ exists stn wn fs,
                  run_loop json_loads old_content_map (take (length new) remaining) st w
                  = (Returned stn, wn)
                  /\ rs_results stn = rs_results st ++ new
                  /\ remaining !! length new = Some fs
                  /\ process_single_poi json_loads fs
                       (default "" (old_content_map !! fs_poi_id fs)) wn
                     = (Raised e, (run_loop json_loads old_content_map remaining st w).2)
         end.
Proof.
  induction remaining as [|fs rest IH]; intros st w Hlen.
  - exists [], [], (rs_batch_for_staging st). cbn.
    rewrite !app_nil_r. repeat split; auto.
    + exists 0%nat. reflexivity.
    + unfold ids_of. cbn. set_solver.
  - cbn [run_loop]. unfold bind.
    pose proof (loop_body_spec old_content_map st fs w) as Hstep.
    destruct (loop_body json_loads old_content_map st fs w) as [[st1|e] w1] eqn:Hbody.
    + destruct Hstep as (r & Hid & Hres & Hcomp & Hrf & Hcase).
      assert (Hraise : forall new e',
                (length new < length rest)%nat
                /\ (exists stn wn fs',
                      run_loop json_loads old_content_map (take (length new) rest) st1 w1
                      = (Returned stn, wn)
                      /\ rs_results stn = rs_results st1 ++ new
                      /\ rest !! length new = Some fs'
                      /\ process_single_poi json_loads fs'
                           (default "" (old_content_map !! fs_poi_id fs')) wn
                         = (Raised e', (run_loop json_loads old_content_map rest st1 w1).2)) ->
                (length (r :: new) < length (fs :: rest))%nat
                /\ exists stn wn fs',
                     run_loop json_loads old_content_map
                       (take (length (r :: new)) (fs :: rest)) st w
                     = (Returned stn, wn)
                     /\ rs_results stn = rs_results st ++ r :: new
                     /\ (fs :: rest) !! length (r :: new) = Some fs'
                     /\ process_single_poi json_loads fs'
                          (default "" (old_content_map !! fs_poi_id fs')) wn
                        = (Raised e', (run_loop json_loads old_content_map rest st1 w1).2)).
      { intros new e' (L & stn & wn & fs' & Hrun & Hr & Hlook & Hproc).
        split; [cbn [length]; lia|].
        exists stn, wn, fs'. cbn [length take run_loop]. unfold bind.
        rewrite Hbody. split; [exact Hrun|].
        split; [rewrite Hr, Hres, <- app_assoc; reflexivity|].
        split; [exact Hlook | exact Hproc]. }
      destruct Hcase as [(Hlt & Hb & Hsl & Hcp) | (Hge & Hb & Hsl & Hcp)].
      * (* the batch grows *)
        destruct (IH st1 w1)
          as (new & staged & unstaged & H1 & H2 & H3 & H4 & H5 & H6 & H8 & H7).
        { rewrite Hb. exact Hlt. }
        exists (r :: new), staged, unstaged.
        split; [rewrite <- H1, Hb, <- app_assoc; reflexivity|].
        split; [exact H2|].
        split; [cbn; rewrite H3, Hid; reflexivity|].
        split; [rewrite H4, Hsl; reflexivity|].
        split; [congruence|].
        split.
        { destruct H6 as [(Hnil & Hsame)
                         | (flushed & cp & Hne & Hst & Hnew & Hfile & Hph & Hnr & Hids)].
          - left. split; [exact Hnil | congruence].
          - right. exists (r :: flushed), cp.
            split; [exact Hne|].
            split; [rewrite Hst, Hb, <- app_assoc; reflexivity|].
            split; [rewrite Hnew; reflexivity|].
            split; [exact Hfile|]. split; [exact Hph|]. split; [exact Hnr|].
            rewrite Hids, Hcomp. unfold ids_of. cbn. rewrite Hid. set_solver. }
        split; [exact H8|].
        destruct (run_loop json_loads old_content_map rest st1 w1).1 as [st'|e'].
        -- destruct H7 as (L & R & C & B). cbn [length].
           split; [lia|]. split; [rewrite R, Hres, <- app_assoc; reflexivity|].
           split; [|exact B].
           rewrite C, Hcomp. unfold ids_of. cbn. rewrite Hid. set_solver.
        -- apply Hraise. exact H7.
      * (* the batch is flushed *)
        destruct (IH st1 w1)
          as (new & staged & unstaged & H1 & H2 & H3 & H4 & H5 & H6 & H8 & H7).
        { rewrite Hb. cbn. unfold BATCH_SIZE. lia. }
        rewrite Hb in H1. cbn [app] in H1.
        exists (r :: new), (rs_batch_for_staging st ++ r :: staged), unstaged.
        split; [rewrite H1, <- app_assoc; reflexivity|].
        split; [exact H2|].
        split; [cbn; rewrite H3, Hid; reflexivity|].
        split; [rewrite H4, Hsl, <- !app_assoc; reflexivity|].
        split; [congruence|].
        split.
        { right.
          destruct H6 as [(Hnil & Hsame)
                         | (flushed & cp & Hne & Hst & Hnew & Hfile & Hph & Hnr & Hids)].
          - subst staged. cbn [app] in H1. subst new.
            eexists [r], _.
            split; [destruct (rs_batch_for_staging st); discriminate|].
            split; [reflexivity|]. split; [reflexivity|].
            split; [rewrite Hsame; exact Hcp|].
            split; [reflexivity|]. split; [reflexivity|].
            cbn [cp_completed_ids]. rewrite list_to_set_elements_L, Hcomp.
            unfold ids_of. cbn. rewrite Hid. set_solver.
          - rewrite Hb in Hst. cbn [app] in Hst. subst staged.
            exists (r :: flushed), cp.
            split; [destruct (rs_batch_for_staging st); discriminate|].
            split; [reflexivity|]. split; [rewrite Hnew; reflexivity|].
            split; [exact Hfile|]. split; [exact Hph|]. split; [exact Hnr|].
            rewrite Hids, Hcomp. unfold ids_of. cbn. rewrite Hid. set_solver. }
        split.
        { destruct H8 as (q & Hq). exists (S q).
          rewrite length_app in Hge. rewrite length_app. cbn [length] in Hge |- *.
          rewrite Hq. unfold BATCH_SIZE in *. lia. }
        destruct (run_loop json_loads old_content_map rest st1 w1).1 as [st'|e'].
        -- destruct H7 as (L & R & C & B). cbn [length].
           split; [lia|]. split; [rewrite R, Hres, <- app_assoc; reflexivity|].
           split; [|exact B].
           rewrite C, Hcomp. unfold ids_of. cbn. rewrite Hid. set_solver.
        -- apply Hraise. exact H7.
    + destruct Hstep as (Hsl & Hcp & Hrf).
      exists [], [], (rs_batch_for_staging st). cbn [fst snd].
      rewrite !app_nil_r. cbn [length].
      split; [reflexivity|]. split; [exact Hlen|]. split; [reflexivity|].
      split; [exact Hsl|]. split; [exact Hrf|].
      split; [left; split; [reflexivity | exact Hcp]|].
      split; [exists 0%nat; reflexivity|].
      split; [lia|].
      exists st, w, fs. cbn [take run_loop].
      split; [reflexivity|]. split; [reflexivity|]. split; [reflexivity|].
      apply loop_body_raised with (st := st). exact Hbody.
Qed.

(** What a run that returns leaves behind. *)
Lemma run_outcome fact_sheets old_content_map cp limit offset w results w' :
  run_generation_and_verification json_loads fact_sheets old_content_map cp
    limit offset w = (Returned results, w') ->
  let remaining :=
    select_remaining fact_sheets (list_to_set (cp_completed_ids cp)) limit offset in
  exists new,
    results = default [] (cp_results cp) ++ new
    /\ map r_poi_id new = map fs_poi_id remaining
    /\ staging_log w' = staging_log w ++ new
    /\ results_file w' = Some results
    /\ checkpoint_file w'
       = Some {| cp_completed_ids :=
                   elements (list_to_set (cp_completed_ids cp) ∪ ids_of new);
                 cp_phase := "complete";
                 cp_stats := compute_stats results;
                 cp_results := None |}.
Proof.
  intros Hrun remaining. unfold run_generation_and_verification in Hrun.
  change (select_remaining fact_sheets (rs_completed_ids (initial_state cp))
            limit offset) with remaining in Hrun.
  apply bind_returned in Hrun as (st & w1 & Hloop & Hrun).
  destruct (run_loop_trace old_content_map remaining (initial_state cp) w)
    as (new & staged & unstaged & H1 & H2 & H3 & H4 & H5 & _ & _ & H7).
  { cbn. unfold BATCH_SIZE. lia. }
  rewrite Hloop in H4, H5, H7. cbn [fst snd] in *.
  destruct H7 as (L & R & C & B).
  cbn [initial_state rs_batch_for_staging rs_results rs_completed_ids app] in *.
  rewrite L, firstn_all in H3.
  exists new.
  assert (Hfinal : forall w2 : world,
            (do _ <- save_checkpoint
                       {| cp_completed_ids := elements (rs_completed_ids st);
                          cp_phase := "complete";
                          cp_stats := compute_stats (rs_results st);
                          cp_results := None |} ;;
             do _ <- save_results (rs_results st) ;;
             ret (rs_results st)) w2 = (Returned results, w') ->
            results = rs_results st
            /\ staging_log w' = staging_log w2
            /\ results_file w' = Some (rs_results st)
            /\ checkpoint_file w'
               = Some {| cp_completed_ids := elements (rs_completed_ids st);
                         cp_phase := "complete";
                         cp_stats := compute_stats (rs_results st);
                         cp_results := None |}).
  { intros w2 H. cbv [bind save_checkpoint save_results ret] in H.
    inversion H; subst. cbn. auto. }
  unfold bind at 1 in Hrun.
  destruct (rs_batch_for_staging st) as [|b bs] eqn:Eb.
  - cbn [ret] in Hrun. apply Hfinal in Hrun as (-> & Hs & Hr & Hc).
    subst unstaged. rewrite app_nil_r in H1. subst staged.
    rewrite R, C in *. repeat split; auto. congruence.
  - cbn [write_to_staging] in Hrun. apply Hfinal in Hrun as (-> & Hs & Hr & Hc).
    cbn [staging_log] in Hs.
    rewrite R, C in *. repeat split; auto.
    rewrite Hs, H4, <- app_assoc, B, <- H1. reflexivity.
Qed.

(** X13.  A run that returns has produced one result for each
    selected fact sheet, in order, after the results the checkpoint may
    have carried; the staging table has received each new result once;
    the results file holds what the run returns; and the checkpoint
    file says [complete] and lists the ids it started with and the ids
    it processed. *)
Theorem X13_run_outcome fact_sheets old_content_map cp limit offset w results w' :
  run_generation_and_verification json_loads fact_sheets old_content_map cp
    limit offset w = (Returned results, w') ->
  let remaining :=
    select_remaining fact_sheets (list_to_set (cp_completed_ids cp)) limit offset in
  exists new,
    results = default [] (cp_results cp) ++ new
    /\ map r_poi_id new = map fs_poi_id remaining
    /\ staging_log w' = staging_log w ++ new
    /\ results_file w' = Some results
    /\ checkpoint_file w'
       = Some {| cp_completed_ids :=
                   elements (list_to_set (cp_completed_ids cp) ∪ ids_of new);
                 cp_phase := "complete";
                 cp_stats := compute_stats results;
                 cp_results := None |}.
Proof. apply run_outcome. Qed.

(** X14.  A fresh run that is killed after [k] items, or that stops
    earlier on the exception of an item.  Let [done] be the results of
    the items that completed: as many as the loop went through, or, on
    an exception, the items before the one that raised.  The staging
    table has received the first [BATCH_SIZE * (n / BATCH_SIZE)] of
    them, so fewer than [BATCH_SIZE] are missing from it; the results
    file is untouched; and the checkpoint file is unchanged when
    nothing was staged and lists exactly the ids of the staged rows
    otherwise. *)
Theorem X14_crash_consistency k fact_sheets old_content_map w :
  let items := take k (select_remaining fact_sheets ∅ None 0) in
  let st0 := initial_state {| cp_completed_ids := []; cp_phase := "generation";
                              cp_stats := None; cp_results := None |} in
  let out := run_loop json_loads old_content_map items st0 w in
  let w' := killed_after json_loads k fact_sheets old_content_map w in
  exists done : list poi_result,
    let n := length done in
    let staged := take (BATCH_SIZE * (n / BATCH_SIZE)) done in
    w' = out.2
    /\ map r_poi_id done = map fs_poi_id (take n items)
    /\ match out.1 with
       | Returned st => n = length items /\ rs_results st = done
       | Raised e =>
           (n < length items)%nat
           /\ exists st wn fs,
                run_loop json_loads old_content_map (take n items) st0 w
                = (Returned st, wn)
                /\ rs_results st = done
                /\ items !! n = Some fs
                /\ process_single_poi json_loads fs
                     (default "" (old_content_map !! fs_poi_id fs)) wn
                   = (Raised e, w')
       end
    /\ staging_log w' = staging_log w ++ staged
    /\ (length done - length staged < BATCH_SIZE)%nat
    /\ results_file w' = results_file w
    /\ (staged = [] -> checkpoint_file w' = checkpoint_file w)
    /\ (staged <> [] ->
        exists cp,
          checkpoint_file w' = Some cp
          /\ cp_phase cp = "generation"
          /\ cp_results cp = None
          /\ list_to_set (cp_completed_ids cp) = ids_of staged).
Proof.
  intros items st0 out w'.
  assert (Hw : w' = out.2) by reflexivity.
  destruct (run_loop_trace old_content_map items st0 w)
    as (done & staged & unstaged & H1 & H2 & H3 & H4 & H5 & H6 & (q & Hq) & H7).
  { cbn. unfold BATCH_SIZE. lia. }
  fold out in H4, H5, H6, H7. rewrite <- Hw in H4, H5, H6, H7.
  cbn [st0 initial_state rs_batch_for_staging rs_results rs_completed_ids
       cp_results cp_completed_ids default from_option id app] in H1, H6, H7.
  exists done. cbn zeta.
  assert (Hlen : length done = (length staged + length unstaged)%nat)
    by (rewrite H1, length_app; reflexivity).
  assert (Hdiv : (BATCH_SIZE * (length done / BATCH_SIZE))%nat = length staged).
  { unfold BATCH_SIZE in *.
    assert (Hx : (length done / 50)%nat = q).
    { symmetry. apply (Nat.div_unique _ 50 q (length unstaged)); lia. }
    rewrite Hx. lia. }
  assert (Htake : take (BATCH_SIZE * (length done / BATCH_SIZE)) done = staged).
  { rewrite Hdiv, H1. apply take_app_length. }
  rewrite Htake.
  split; [exact Hw|]. split; [exact H3|].
  split.
  { destruct out.1 as [st|e].
    - destruct H7 as (L & R & _). split; [exact L | exact R].
    - destruct H7 as (L & stn & wn & fs & Hrun & Hr & Hlook & Hproc).
      split; [exact L|]. exists stn, wn, fs. repeat split; assumption. }
  split; [exact H4|]. split; [lia|]. split; [exact H5|].
  split.
  - intros Hnil.
    destruct H6 as [(_ & Hsame) | (flushed & cp & Hne & _)]; [exact Hsame | contradiction].
  - intros Hne.
    destruct H6 as [(Hnil & _) | (flushed & cp & _ & Hst & _ & Hfile & Hph & Hnr & Hids)];
      [contradiction|].
    exists cp. subst flushed. repeat split; try assumption.
    rewrite Hids. set_solver.
Qed.

(** X15.  The fact sheets a run selects are fact sheets of the input,
    in the order of the input, none of them completed; a positive
    limit bounds their number; and without offset and limit they are
    all the fact sheets that are not completed. *)
Theorem X15_select_remaining fact_sheets (completed_ids : gset Z) limit offset :
  let remaining := select_remaining fact_sheets completed_ids limit offset in
  remaining `sublist_of` fact_sheets
  /\ (forall fs, fs ∈ remaining -> fs_poi_id fs ∉ completed_ids)
  /\ (forall n, limit = Some n -> 0 < n -> (length remaining <= Z.to_nat n)%nat)
  /\ (offset <= 0 -> Py.truthy_int limit = false ->
      remaining = filter (fun fs => fs_poi_id fs ∉ completed_ids) fact_sheets).
Proof.
  intros remaining. subst remaining. split; [|split; [|split]].
  - unfold select_remaining, py_take.
    repeat (match goal with
            | |- context [if ?b then _ else _] => destruct b
            end);
      repeat (first [ etransitivity; [apply sublist_take|]
                    | etransitivity; [apply sublist_drop|] ]);
      apply sublist_filter.
  - intros fs Hin. eapply select_remaining_not_completed. exact Hin.
  - intros n -> Hn. unfold select_remaining, py_take. cbn [Py.truthy_int default from_option id].
    replace (n =? 0) with false by (symmetry; apply Z.eqb_neq; lia).
    replace (0 <=? n) with true by (symmetry; apply Z.leb_le; lia).
    cbn [negb]. rewrite length_take. lia.
  - intros Hoff Hlim. unfold select_remaining. rewrite Hlim.
    replace (0 <? offset) with false by (symmetry; apply Z.ltb_ge; lia).
    reflexivity.
Qed.

Lemma counted_increment (m : gmap string nat) (key : string) :
  counted (<[key := S (default 0%nat (m !! key))]> m) = S (counted m).
Proof.
  unfold counted.
  assert (Hcomm : forall (m' : gmap string nat) (j1 j2 : string) (z1 z2 y : nat),
            j1 <> j2 -> m' !! j1 = Some z1 -> m' !! j2 = Some z2 ->
            (z1 + (z2 + y) = z2 + (z1 + y))%nat) by (intros; lia).
  destruct (m !! key) as [n|] eqn:E.
  - rewrite <- insert_delete_eq.
    rewrite map_fold_insert_L; [|intros; lia | apply lookup_delete_eq].
    rewrite <- (insert_delete_id m key n E) at 2.
    rewrite map_fold_insert_L; [|intros; lia | apply lookup_delete_eq].
    cbn. lia.
  - rewrite map_fold_insert_L; [|intros; lia | exact E]. reflexivity.
Qed.

Lemma counted_count_by (key : poi_result -> string) results :
  counted (count_by key results) = length results.
Proof.
  unfold count_by.
  assert (H : forall m, counted (foldl (fun m r => <[key r := S (default 0%nat (m !! key r))]> m)
                                   m results)
                        = (counted m + length results)%nat).
  { induction results as [|r results IH]; intros m; cbn [foldl length].
    - lia.
    - rewrite IH, counted_increment. lia. }
  rewrite H. unfold counted. rewrite map_fold_empty. reflexivity.
Qed.

(** X16.  [compute_stats] gives nothing for an empty list; for any
    other list the total is the number of results, the counts per
    verdict add up to the total and so do the counts per status, and
    no other counter exceeds the total. *)
Theorem X16_compute_stats_totals (results : list poi_result) :
  match compute_stats results with
  | None => results = []
  | Some stats =>
      results <> []
      /\ st_total stats = length results
      /\ counted (st_verdicts stats) = st_total stats
      /\ counted (st_statuses stats) = st_total stats
      /\ (st_word_count_ok stats <= st_total stats)%nat
      /\ (st_word_count_retried stats <= st_total stats)%nat
      /\ (st_errors stats <= st_total stats)%nat
  end.
Proof.
  destruct results as [|r rs]; [reflexivity|].
  cbn [compute_stats st_total st_verdicts st_statuses st_word_count_ok
       st_word_count_retried st_errors].
  split; [discriminate|]. split; [reflexivity|].
  split; [apply counted_count_by|]. split; [apply counted_count_by|].
  repeat split; apply sublist_length, sublist_filter.
Qed.

Lemma filter_nothing_completed (fact_sheets : list fact_sheet) (completed : gset Z) :
  completed = ∅ ->
  filter (fun fs => fs_poi_id fs ∉ completed) fact_sheets = fact_sheets.
Proof.
  intros ->. induction fact_sheets as [|fs rest IH]; [reflexivity|].
  rewrite filter_cons_True by set_solver. rewrite IH. reflexivity.
Qed.

Lemma filter_all_completed (fact_sheets : list fact_sheet) (completed : gset Z) :
  (forall fs, fs ∈ fact_sheets -> fs_poi_id fs ∈ completed) ->
  filter (fun fs => fs_poi_id fs ∉ completed) fact_sheets = [].
Proof.
  induction fact_sheets as [|fs rest IH]; intros Hall; [reflexivity|].
  rewrite filter_cons_False.
  - apply IH. intros fs' Hin. apply Hall. right. exact Hin.
  - intros Hn. apply Hn, Hall. left.
Qed.

(** X17.  After a run over all fact sheets has returned, a run started
    with [--resume] finds nothing to do: it sends no request to the
    text service and adds no row to the staging table. *)
Theorem X17_resume_after_complete fact_sheets old_content_map w results w1 :
  main json_loads false fact_sheets old_content_map None 0 w = (Returned results, w1) ->
  let w2 := (main json_loads true fact_sheets old_content_map None 0 w1).2 in
  calls w2 = calls w1 /\ staging_log w2 = staging_log w1.
Proof.
  intros Hrun w2. unfold main in Hrun. unfold bind at 1 in Hrun. cbn [ret] in Hrun.
  apply run_outcome in Hrun as (new & _ & Hids & _ & _ & Hcp).
  cbn [cp_completed_ids cp_results] in Hids, Hcp.
  unfold select_remaining in Hids. cbn [Py.truthy_int] in Hids.
  rewrite filter_nothing_completed in Hids by reflexivity. cbn in Hids.
  assert (Hnone : select_remaining fact_sheets
                    (list_to_set (elements (list_to_set [] ∪ ids_of new))) None 0 = []).
  { unfold select_remaining. cbn [Py.truthy_int].
    replace (0 <? 0) with false by reflexivity.
    apply filter_all_completed. intros fs Hin.
    rewrite list_to_set_elements_L. unfold ids_of. rewrite Hids.
    apply elem_of_union_r, elem_of_list_to_set, list_elem_of_fmap.
    exists fs. split; [reflexivity | exact Hin]. }
  assert (Hload : load_checkpoint w1
                  = (Returned {| cp_completed_ids := elements (list_to_set [] ∪ ids_of new);
                                 cp_phase := "complete";
                                 cp_stats := compute_stats results;
                                 cp_results := None |}, w1)).
  { unfold load_checkpoint. rewrite Hcp. reflexivity. }
  subst w2. unfold main. unfold bind. rewrite Hload.
  unfold run_generation_and_verification.
  cbn [initial_state rs_completed_ids cp_completed_ids].
  rewrite Hnone. cbn. split; reflexivity.
Qed.

End RunnerFurther.

(** ** Approval, promotion and rollback: the command as a whole *)

Section PromoteFurther.

Import Promote.

Variable json_loads : string -> option Safeguards.llm_context.

Lemma audit_chain_app content l1 l2 :
  audit_chain content (l1 ++ l2)
  <-> audit_chain content l1 /\ audit_chain (audit_result content l1) l2.
Proof.
  revert content. induction l1 as [|e l1 IH]; intros content.
  - cbn. tauto.
  - cbn [app audit_chain]. rewrite IH. unfold audit_result. cbn [foldl]. tauto.
Qed.

Lemma audit_result_app content l1 l2 :
  audit_result content (l1 ++ l2) = audit_result (audit_result content l1) l2.
Proof. unfold audit_result. apply foldl_app. Qed.

Lemma entries_of_app p l1 l2 :
  entries_of p (l1 ++ l2) = entries_of p l1 ++ entries_of p l2.
Proof. apply List.filter_app. Qed.

Lemma entries_of_one p entry :
  h_field_name entry = FIELD ->
  entries_of p [entry] = if h_poi_id entry =? p then [entry] else [].
Proof.
  intros Hf. unfold entries_of. cbn [List.filter]. rewrite Hf, String.eqb_refl.
  destruct (h_poi_id entry =? p); reflexivity.
Qed.

Lemma audited_refl p db : audited p db db.
Proof.
  exists []. rewrite app_nil_r. split; [reflexivity|].
  destruct (POI db !! p); cbn; auto.
Qed.

Lemma audited_trans p db1 db2 db3 :
  audited p db1 db2 -> audited p db2 db3 -> audited p db1 db3.
Proof.
  intros (e1 & H1 & P1) (e2 & H2 & P2). exists (e1 ++ e2).
  split; [rewrite H2, H1, app_assoc; reflexivity|].
  destruct (POI db1 !! p) as [old|].
  - destruct P1 as (C1 & R1). rewrite R1 in P2. destruct P2 as (C2 & R2).
    rewrite entries_of_app, audit_chain_app, audit_result_app. auto.
  - rewrite P1 in P2. exact P2.
Qed.

(** A store that differs in the staging table only. *)
Lemma audited_staging p db db' :
  POI db' = POI db -> history db' = history db -> audited p db db'.
Proof.
  intros HP HH. exists []. rewrite app_nil_r. split; [exact HH|].
  rewrite HP. destruct (POI db !! p); cbn; auto.
Qed.

(** One write to production with its audit entry. *)
Lemma audited_write p q content entry db db' :
  POI db' = alter (fun _ => content) q (POI db) ->
  history db' = history db ++ [entry] ->
  h_poi_id entry = q ->
  h_field_name entry = FIELD ->
  h_new_value entry = content ->
  (forall old, POI db !! q = Some old -> h_old_value entry = old) ->
  audited p db db'.
Proof.
  intros HP HH Hq Hf Hn Ho. subst q. exists [entry]. split; [exact HH|].
  rewrite (entries_of_one p entry Hf), HP.
  destruct (h_poi_id entry =? p) eqn:E.
  - apply Z.eqb_eq in E. rewrite E in *.
    rewrite lookup_alter_eq.
    destruct (POI db !! p) as [old|] eqn:Hp; cbn.
    + rewrite (Ho old eq_refl). unfold audit_result. cbn. rewrite Hn. auto.
    + reflexivity.
  - apply Z.eqb_neq in E. rewrite lookup_alter_ne by exact E.
    destruct (POI db !! p); cbn; auto.
Qed.

Lemma promote_row_audited p promoted errors db row :
  audited p db (promote_row (promoted, errors, db) row).2.
Proof.
  destruct (POI db !! s_poi_id row) as [old|] eqn:Hpoi.
  - destruct (decide (old = s_detail_description_en row)) as [->|Hne].
    + rewrite promote_row_same by exact Hpoi. apply audited_staging; reflexivity.
    + destruct (promote_row_changed promoted errors db row old Hpoi Hne)
        as (entry & -> & H1 & H2 & H3 & H4 & _).
      eapply audited_write with (q := s_poi_id row) (entry := entry);
        try reflexivity; try assumption.
      intros old' Ho. congruence.
  - rewrite promote_row_missing by exact Hpoi. apply audited_refl.
Qed.

Lemma promote_rows_audited p rows :
  forall acc, audited p acc.2 (foldl promote_row acc rows).2.
Proof.
  induction rows as [|row rows IH]; intros [[promoted errors] db].
  - apply audited_refl.
  - cbn [foldl]. eapply audited_trans; [|apply IH].
    apply promote_row_audited.
Qed.

Lemma promote_audited p dry_run db :
  audited p db (promote_to_production dry_run db).2.
Proof.
  destruct dry_run.
  - unfold promote_to_production.
    destruct (List.filter is_selected (staging db)); apply audited_refl.
  - rewrite promote_store. apply (promote_rows_audited p _ (0, 0, db)).
Qed.

Lemma rollback_audited p q dry_run db :
  audited p db (rollback_poi q dry_run db).2.
Proof.
  unfold rollback_poi.
  destruct (rollback_content q db) as [old_content|]; [|apply audited_refl].
  destruct dry_run; [apply audited_refl|]. cbn [snd].
  eapply audited_write with (q := q); try reflexivity.
  intros old Ho. cbn. rewrite Ho. reflexivity.
Qed.

(** *** [batch_approve] *)

Lemma approved_by_compose ids1 ids2 row :
  approved_by ids2 (approved_by ids1 row) = approved_by (ids1 ++ ids2) row.
Proof.
  unfold approved_by. rewrite existsb_app.
  destruct (existsb (Z.eqb (s_id row)) ids1) eqn:E1; cbn [s_id set_approved orb].
  - destruct (existsb (Z.eqb (s_id row)) ids2); reflexivity.
  - reflexivity.
Qed.

Lemma mark_approved_staging id db :
  staging (mark_approved id db) = map (approved_by [id]) (staging db).
Proof.
  unfold mark_approved, approved_by. cbn [staging]. apply map_ext.
  intros row. cbn [existsb]. rewrite orb_false_r. reflexivity.
Qed.

(** The loop of [batch_approve] over [rows], from any counters. *)
Lemma approve_rows rows :
  forall approved blocked db,
    let passed :=
      List.filter (fun row => Safeguards.approved (gate_of_row json_loads row)) rows in
    let out := foldl (approve_row json_loads) (approved, blocked, db) rows in
    out.1.1 = approved + Z.of_nat (length passed)
    /\ out.1.2 = blocked + Z.of_nat (length rows) - Z.of_nat (length passed)
    /\ staging out.2 = map (approved_by (map s_id passed)) (staging db)
    /\ POI out.2 = POI db
    /\ history out.2 = history db.
Proof.
  induction rows as [|row rows IH]; intros approved blocked db.
  - cbn. repeat split; try lia.
    rewrite map_ext with (g := id); [symmetry; apply map_id | reflexivity].
  - cbn [foldl List.filter]. cbn zeta.
    destruct (Safeguards.approved (gate_of_row json_loads row)) eqn:Hg.
    + assert (Hs : approve_row json_loads (approved, blocked, db) row
                   = (approved + 1, blocked, mark_approved (s_id row) db))
        by (unfold approve_row; rewrite Hg; reflexivity).
      rewrite Hs.
      destruct (IH (approved + 1) blocked (mark_approved (s_id row) db))
        as (H1 & H2 & H3 & H4 & H5).
      cbn zeta in *. rewrite H1, H2, H3, H4, H5. cbn [length map].
      repeat split; try lia.
      rewrite mark_approved_staging, map_map. apply map_ext. intros r.
      apply (approved_by_compose [s_id row]).
    + assert (Hs : approve_row json_loads (approved, blocked, db) row
                   = (approved, blocked + 1, db))
        by (unfold approve_row; rewrite Hg; reflexivity).
      rewrite Hs.
      destruct (IH approved (blocked + 1) db) as (H1 & H2 & H3 & H4 & H5).
      cbn zeta in *. rewrite H1, H2, H3, H4, H5. cbn [length].
      repeat split; lia.
Qed.

Lemma batch_approve_store db :
  (batch_approve json_loads false db).2
  = (foldl (approve_row json_loads) (0, 0, db) (List.filter is_candidate (staging db))).2.
Proof.
  unfold batch_approve.
  destruct (List.filter is_candidate (staging db)) as [|r rs]; [reflexivity|].
  destruct (foldl (approve_row json_loads) (0, 0, db) (r :: rs)) as [[? ?] ?]. reflexivity.
Qed.

Lemma batch_approve_audited p dry_run db :
  audited p db (batch_approve json_loads dry_run db).2.
Proof.
  destruct dry_run.
  - unfold batch_approve.
    destruct (List.filter is_candidate (staging db)); apply audited_refl.
  - rewrite batch_approve_store.
    destruct (approve_rows (List.filter is_candidate (staging db)) 0 0 db)
      as (_ & _ & _ & HP & HH).
    apply audited_staging; assumption.
Qed.

Lemma main_audited p a db : audited p db (main json_loads a db).
Proof.
  unfold main. destruct (a_status a); [apply audited_refl|].
  destruct (Py.truthy_int (a_rollback a)); [apply rollback_audited|].
  destruct (a_batch_approve a).
  - eapply audited_trans; [apply batch_approve_audited | apply promote_audited].
  - apply promote_audited.
Qed.

Lemma runs_audited p runs :
  forall db, audited p db (foldl (fun d a => main json_loads a d) db runs).
Proof.
  induction runs as [|a runs IH]; intros db.
  - apply audited_refl.
  - cbn [foldl]. eapply audited_trans; [apply main_audited | apply IH].
Qed.

(** X18.  Whatever commands are run, one after the other, the audit
    trail only grows, and for a POI of the production table the entries
    added for its description form a chain: the first starts from the
    text the POI had, each next one from the text the one before it
    left, and the last one leaves the text the POI has now.  A POI
    without a new entry has the text it had. *)
Theorem X18_audit_trail_accounts (runs : list args) (db : store) (p : Z)
    (old : option string) :
  POI db !! p = Some old ->
  let db' := foldl (fun d a => main json_loads a d) db runs in
  exists entries,
    history db' = history db ++ entries
    /\ audit_chain old (entries_of p entries)
    /\ POI db' !! p = Some (audit_result old (entries_of p entries))
    /\ (entries_of p entries = [] -> POI db' !! p = POI db !! p).
Proof.
  intros Hp db'. destruct (runs_audited p runs db) as (entries & HH & HP).
  rewrite Hp in HP. destruct HP as (HC & HR).
  exists entries. repeat split; try assumption.
  intros Hnone. rewrite Hp. subst db'. rewrite HR, Hnone. reflexivity.
Qed.

(** X19.  Without [--execute], and with [--status], the command writes
    nothing: the three tables are as they were, whatever the other
    options; the same holds for each of the three operations called
    with [dry_run]. *)
Theorem X19_dry_run_writes_nothing (a : args) (p : Z) (db : store) :
  main json_loads {| a_execute := false; a_batch_approve := a_batch_approve a;
                     a_rollback := a_rollback a; a_status := a_status a |} db = db
  /\ main json_loads {| a_execute := a_execute a; a_batch_approve := a_batch_approve a;
                        a_rollback := a_rollback a; a_status := true |} db = db
  /\ (batch_approve json_loads true db).2 = db
  /\ (promote_to_production true db).2 = db
  /\ (rollback_poi p true db).2 = db.
Proof.
  assert (HA : forall d, (batch_approve json_loads true d).2 = d).
  { intros d. unfold batch_approve.
    destruct (List.filter is_candidate (staging d)); reflexivity. }
  assert (HP : forall d, (promote_to_production true d).2 = d).
  { intros d. unfold promote_to_production.
    destruct (List.filter is_selected (staging d)); reflexivity. }
  assert (HR : forall q d, (rollback_poi q true d).2 = d).
  { intros q d. unfold rollback_poi.
    destruct (rollback_content q d); reflexivity. }
  split; [|split; [reflexivity|auto]].
  unfold main. cbn [a_execute a_batch_approve a_rollback a_status negb].
  destruct (a_status a); [reflexivity|].
  destruct (Py.truthy_int (a_rollback a)); [apply HR|].
  destruct (a_batch_approve a); rewrite ?HA; apply HP.
Qed.

(** The rows of [rows] whose POI is in the production table. *)
Lemma filter_found_ext (db db1 : store) rows :
  (forall k, POI db1 !! k = None <-> POI db !! k = None) ->
  List.filter (fun r => bool_decide (is_Some (POI db1 !! s_poi_id r))) rows
  = List.filter (fun r => bool_decide (is_Some (POI db !! s_poi_id r))) rows.
Proof.
  intros Hdom. apply List.filter_ext. intros r.
  apply bool_decide_ext. rewrite <- !not_eq_None_Some, Hdom. reflexivity.
Qed.

Lemma promote_row_domain promoted errors db row k :
  POI (promote_row (promoted, errors, db) row).2 !! k = None <-> POI db !! k = None.
Proof.
  destruct (POI db !! s_poi_id row) as [old|] eqn:Hpoi.
  - destruct (decide (old = s_detail_description_en row)) as [->|Hne].
    + rewrite promote_row_same by exact Hpoi. reflexivity.
    + destruct (promote_row_changed promoted errors db row old Hpoi Hne)
        as (entry & -> & _).
      cbn. apply alter_none_iff.
  - rewrite promote_row_missing by exact Hpoi. reflexivity.
Qed.

Lemma promote_rows_count rows :
  forall promoted errors db,
    let found :=
      List.filter (fun r => bool_decide (is_Some (POI db !! s_poi_id r))) rows in
    (foldl promote_row (promoted, errors, db) rows).1
    = (promoted + Z.of_nat (length found),
       errors + Z.of_nat (length rows) - Z.of_nat (length found)).
Proof.
  induction rows as [|row rows IH]; intros promoted errors db.
  - cbn. f_equal; lia.
  - cbn [foldl List.filter].
    pose proof (promote_row_domain promoted errors db row) as Hdom.
    destruct (POI db !! s_poi_id row) as [old|] eqn:Hpoi.
    + assert (Hstep : (promote_row (promoted, errors, db) row).1 = (promoted + 1, errors)).
      { destruct (decide (old = s_detail_description_en row)) as [->|Hne].
        - rewrite promote_row_same by exact Hpoi. reflexivity.
        - destruct (promote_row_changed promoted errors db row old Hpoi Hne)
            as (entry & -> & _). reflexivity. }
      destruct (promote_row (promoted, errors, db) row) as [[p1 e1] db1].
      cbn [fst snd] in *. injection Hstep as -> ->.
      cbn zeta. rewrite IH. rewrite (filter_found_ext db db1 rows Hdom).
      rewrite bool_decide_eq_true_2 by (eexists; reflexivity).
      cbn [length]. f_equal; lia.
    + rewrite promote_row_missing by exact Hpoi.
      cbn zeta. rewrite IH.
      rewrite bool_decide_eq_false_2 by (intros [? ?]; discriminate).
      cbn [length]. f_equal; lia.
Qed.

(** X20.  The dry run of the promotion announces the number of approved
    rows of the batch; the real run returns the number of those whose
    POI is in the production table, which is never more. *)
Theorem X20_promoted_count (db : store) :
  let selected := List.filter is_selected (staging db) in
  let found :=
    List.filter (fun r => bool_decide (is_Some (POI db !! s_poi_id r))) selected in
  (promote_to_production true db).1 = Z.of_nat (length selected)
  /\ (promote_to_production false db).1 = Z.of_nat (length found)
  /\ (promote_to_production false db).1 <= (promote_to_production true db).1.
Proof.
  intros selected found.
  assert (Hlen : (length found <= length selected)%nat) by apply List.filter_length_le.
  assert (H1 : (promote_to_production true db).1 = Z.of_nat (length selected)).
  { unfold promote_to_production. fold selected.
    destruct selected; reflexivity. }
  assert (H2 : (promote_to_production false db).1 = Z.of_nat (length found)).
  { unfold promote_to_production. fold selected.
    pose proof (promote_rows_count selected 0 0 db) as Hc. cbn zeta in Hc.
    fold found in Hc.
    destruct selected as [|r rs] eqn:E; [reflexivity|].
    destruct (foldl promote_row (0, 0, db) (r :: rs)) as [[p1 e1] d1].
    cbn [fst snd] in *. injection Hc as -> _. lia. }
  rewrite H1, H2. repeat split; lia.
Qed.

Lemma approve_rows_blocked rows :
  forall approved blocked db,
    (forall r, In r rows -> Safeguards.approved (gate_of_row json_loads r) = false) ->
    foldl (approve_row json_loads) (approved, blocked, db) rows
    = (approved, blocked + Z.of_nat (length rows), db).
Proof.
  induction rows as [|row rows IH]; intros approved blocked db Hall.
  - cbn. f_equal. f_equal. lia.
  - cbn [foldl].
    replace (approve_row json_loads (approved, blocked, db) row)
      with (approved, blocked + 1, db)
      by (unfold approve_row; rewrite (Hall row) by (left; reflexivity); reflexivity).
    rewrite IH by (intros r Hr; apply Hall; right; exact Hr).
    f_equal. f_equal. cbn [length]. lia.
Qed.

Lemma approved_by_candidate ids row :
  is_candidate (approved_by ids row) = true ->
  approved_by ids row = row /\ existsb (Z.eqb (s_id row)) ids = false.
Proof.
  unfold approved_by. destruct (existsb (Z.eqb (s_id row)) ids).
  - unfold is_candidate. cbn [s_status s_created_date s_comparison_recommendation set_approved].
    rewrite andb_comm. cbn. discriminate.
  - split; reflexivity.
Qed.

(** X21.  [batch_approve] returns the number of candidates that pass
    the safeguard gate, never more than its dry run announces.  On the
    rows with the id of such a candidate it sets the status to
    [approved] and [reviewed_by] to [system_r5] (and the time stamp
    [reviewed_at], which is not a column of the model); it changes no
    other row, none of the other columns, not the production table and
    not the audit trail. *)
Theorem X21_batch_approve_effect (db : store) :
  let candidates := List.filter is_candidate (staging db) in
  let passed :=
    List.filter (fun row => Safeguards.approved (gate_of_row json_loads row)) candidates in
  let out := batch_approve json_loads false db in
  out.1 = Z.of_nat (length passed)
  /\ (batch_approve json_loads true db).1 = Z.of_nat (length candidates)
  /\ out.1 <= (batch_approve json_loads true db).1
  /\ staging out.2
     = map (fun row =>
              if existsb (Z.eqb (s_id row)) (map s_id passed)
              then {| s_id := s_id row;
                      s_poi_id := s_poi_id row;
                      s_poi_name := s_poi_name row;
                      s_detail_description_en := s_detail_description_en row;
                      s_llm_context_json := s_llm_context_json row;
                      s_destination_id := s_destination_id row;
                      s_old_content_snapshot := s_old_content_snapshot row;
                      s_comparison_recommendation := s_comparison_recommendation row;
                      s_comparison_rationale := s_comparison_rationale row;
                      s_status := "approved";
                      s_created_date := s_created_date row;
                      s_review_notes := s_review_notes row;
                      s_reviewed_by := Some "system_r5" |}
              else row) (staging db)
  /\ POI out.2 = POI db
  /\ history out.2 = history db.
Proof.
  intros candidates passed out.
  assert (Hlen : (length passed <= length candidates)%nat) by apply List.filter_length_le.
  destruct (approve_rows candidates 0 0 db) as (H1 & _ & H3 & H4 & H5).
  fold passed in H1, H3.
  assert (Hdry : (batch_approve json_loads true db).1 = Z.of_nat (length candidates)).
  { unfold batch_approve. fold candidates. destruct candidates; reflexivity. }
  assert (Hout : out.1 = Z.of_nat (length passed)).
  { subst out. unfold batch_approve. fold candidates.
    destruct candidates as [|r rs] eqn:E; [reflexivity|].
    destruct (foldl (approve_row json_loads) (0, 0, db) (r :: rs)) as [[a1 b1] d1].
    cbn [fst snd] in *. lia. }
  rewrite Hdry, Hout.
  subst out. rewrite batch_approve_store. fold candidates.
  split; [reflexivity|]. split; [reflexivity|]. split; [lia|].
  split; [exact H3|]. split; assumption.
Qed.

(** X22.  [batch_approve] is idempotent: called again on the store it
    has left, it approves nothing and changes nothing; the candidates
    that remain are the ones the gate blocks. *)
Theorem X22_batch_approve_idempotent (db : store) :
  let db1 := (batch_approve json_loads false db).2 in
  batch_approve json_loads false db1 = (0, db1)
  /\ (forall r, In r (List.filter is_candidate (staging db1)) ->
                Safeguards.approved (gate_of_row json_loads r) = false).
Proof.
  intros db1.
  assert (Hblocked : forall r, In r (List.filter is_candidate (staging db1)) ->
                               Safeguards.approved (gate_of_row json_loads r) = false).
  { intros r Hr. subst db1. rewrite batch_approve_store in Hr.
    destruct (approve_rows (List.filter is_candidate (staging db)) 0 0 db)
      as (_ & _ & Hs & _ & _).
    rewrite Hs in Hr. apply filter_In in Hr as [Hin Hcand].
    apply in_map_iff in Hin as (r0 & <- & Hin0).
    apply approved_by_candidate in Hcand as Hfix. destruct Hfix as [Hfix Hnot].
    rewrite Hfix in *.
    destruct (Safeguards.approved (gate_of_row json_loads r0)) eqn:Hgate; [|reflexivity].
    assert (Hex : existsb (Z.eqb (s_id r0))
                    (map s_id
                       (List.filter
                          (fun row => Safeguards.approved (gate_of_row json_loads row))
                          (List.filter is_candidate (staging db)))) = true).
    { apply existsb_exists. exists (s_id r0). split; [|apply Z.eqb_refl].
      apply in_map. apply filter_In. split; [|exact Hgate].
      apply filter_In. split; assumption. }
    congruence. }
  split; [|exact Hblocked].
  unfold batch_approve.
  destruct (List.filter is_candidate (staging db1)) as [|r rs] eqn:E; [reflexivity|].
  rewrite approve_rows_blocked by exact Hblocked. reflexivity.
Qed.

(** *** Rollback *)

Lemma latest_history_snoc p entries entry :
  h_poi_id entry = p -> h_field_name entry = FIELD ->
  last (List.filter (fun h => (h_poi_id h =? p) && String.eqb (h_field_name h) FIELD)
          (entries ++ [entry])) = Some entry.
Proof.
  intros Hp Hf. rewrite List.filter_app. cbn [List.filter].
  rewrite Hp, Hf, Z.eqb_refl, String.eqb_refl. cbn [andb]. apply last_snoc.
Qed.

(** X23.  A rollback that is rolled back: when a rollback of [p] has
    succeeded, a second rollback of [p] succeeds as well and puts back
    the text that the first one replaced. *)
Theorem X23_rollback_twice (p : Z) (db : store) (cur : string) :
  POI db !! p = Some (Some cur) ->
  cur <> "" ->
  (rollback_poi p false db).1 = true ->
  let db1 := (rollback_poi p false db).2 in
  let out := rollback_poi p false db1 in
  (exists restored,
      rollback_content p db = Some restored
      /\ POI db1 !! p = Some (Some restored))
  /\ out.1 = true
  /\ POI out.2 !! p = Some (Some cur)
  /\ length (history out.2) = S (S (length (history db))).
Proof.
  intros Hp Hcur Hok db1 out. subst out db1.
  unfold rollback_poi in Hok |- *.
  destruct (rollback_content p db) as [restored|] eqn:Hc; [|discriminate].
  cbn [snd fst staging POI history insert_history update_POI].
  split.
  { exists restored. split; [reflexivity|]. rewrite lookup_alter_eq, Hp. reflexivity. }
  match goal with
  | |- context [rollback_content p ?d] =>
      assert (Hc1 : rollback_content p d = Some cur)
  end.
  { unfold rollback_content, latest_history. cbn [history].
    rewrite latest_history_snoc by reflexivity.
    cbn [h_old_value]. rewrite Hp. cbn [default from_option id Py.truthy_str].
    apply String.eqb_neq in Hcur. rewrite Hcur. reflexivity. }
  rewrite Hc1. cbn [snd fst staging POI history insert_history update_POI].
  split; [reflexivity|]. split.
  - rewrite !lookup_alter_eq, Hp. reflexivity.
  - rewrite !length_app. cbn. lia.
Qed.

(** X24.  What a rollback of [p] leaves alone.  When it returns
    [False] the store is as it was.  In any case the texts of the other
    POIs are unchanged, no POI is added to or removed from the
    production table, the text it writes for [p] is never empty, the
    audit trail keeps its entries and gains at most one, and in the
    staging table only applied rows of [p] in the batch change, to
    [rejected]. *)
Theorem X24_rollback_locality (p : Z) (dry_run : bool) (db : store) :
  let out := rollback_poi p dry_run db in
  (out.1 = false -> out.2 = db)
  /\ (forall q, q <> p -> POI out.2 !! q = POI db !! q)
  /\ (forall q, POI out.2 !! q = None <-> POI db !! q = None)
  /\ (POI out.2 !! p = POI db !! p
      \/ exists text, text <> "" /\ POI out.2 !! p = Some (Some text))
  /\ (exists entries, history out.2 = history db ++ entries /\ (length entries <= 1)%nat)
  /\ Forall2 (fun row row' =>
                row' = row
                \/ s_poi_id row = p /\ s_created_date row = R4_BATCH_DATE
                   /\ s_status row = "applied"
                   /\ row' = set_status "rejected" (Some "Rolled back via R5") row)
       (staging db) (staging out.2).
Proof.
  intros out. subst out. unfold rollback_poi.
  assert (Hsame : Forall2 (fun row row' : staging_row =>
                row' = row
                \/ s_poi_id row = p /\ s_created_date row = R4_BATCH_DATE
                   /\ s_status row = "applied"
                   /\ row' = set_status "rejected" (Some "Rolled back via R5") row)
       (staging db) (staging db)).
  { apply Forall2_same_length_lookup_2; [reflexivity|].
    intros i x y Hx Hy. left. congruence. }
  assert (Hnil : exists entries, history db = history db ++ entries /\ (length entries <= 1)%nat).
  { exists []. rewrite app_nil_r. split; [reflexivity | cbn; lia]. }
  destruct (rollback_content p db) as [old_content|] eqn:Hc.
  2:{ cbn [fst snd]. repeat split; auto. }
  destruct dry_run.
  { cbn [fst snd]. repeat split; auto; discriminate. }
  cbn [fst snd staging POI history insert_history update_POI].
  split; [discriminate|].
  split; [intros q Hq; apply lookup_alter_ne; congruence|].
  split; [intros q; apply alter_none_iff|].
  split.
  { destruct (POI db !! p) as [cur|] eqn:Hp.
    - right. exists old_content. split.
      + unfold rollback_content in Hc.
        match type of Hc with
        | (if Py.truthy_str ?o then _ else _) = _ =>
            destruct o as [s|]; cbn [Py.truthy_str] in Hc; [|discriminate];
            destruct (String.eqb s "") eqn:E; cbn in Hc; [discriminate|];
            injection Hc as <-; apply String.eqb_neq; exact E
        end.
      + rewrite lookup_alter_eq, Hp. reflexivity.
    - left. rewrite lookup_alter_eq, Hp. reflexivity. }
  split.
  { eexists [_]. split; [reflexivity | cbn; lia]. }
  apply Forall2_fmap_r. apply Forall2_same_length_lookup_2; [reflexivity|].
  intros i x y Hx Hy. assert (y = x) as -> by congruence.
  unfold compose. cbn beta.
  match goal with
  | |- context [if ?c then _ else _] => destruct c eqn:E
  end.
  - apply andb_prop in E as [E E3]. apply andb_prop in E as [E1 E2].
    right. apply Z.eqb_eq in E1. apply String.eqb_eq in E2. apply String.eqb_eq in E3.
    repeat split; assumption.
  - left. reflexivity.
Qed.

End PromoteFurther.

(** ** Promotion as a whole *)

Section PromotionWhole.

Import Promote.







End PromotionWhole.

(** ** The HTTP exchange of [call_mistral] *)

Section TransportProperties.

Import Transport.

Variable network : nat -> http_outcome.

Lemma requests_app t1 t2 : requests (t1 ++ t2) = (requests t1 + requests t2)%nat.
Proof. unfold requests. rewrite List.filter_app, length_app. reflexivity. Qed.

Lemma seconds_slept_app t1 t2 :
  seconds_slept (t1 ++ t2) = seconds_slept t1 + seconds_slept t2.
Proof.
  unfold seconds_slept. induction t1 as [|e t1 IH]; cbn [app foldr].
  - lia.
  - rewrite IH. destruct e; lia.
Qed.

Lemma error_prefix rest : Py.startswith ("ERROR:" +:+ rest) "ERROR:" = true.
Proof. destruct rest; reflexivity. Qed.

(** The loop from [attempt] on, with [remaining] turns left. *)
Lemma attempts_spec remaining :
  forall attempt trace,
    (attempt + remaining = MAX_RETRIES)%nat ->
    exists added,
      (attempts network attempt remaining trace).2 = trace ++ added
      /\ (requests added <= remaining)%nat
      /\ ((0 < remaining)%nat -> (1 <= requests added)%nat)
      /\ 0 <= 2 * seconds_slept added
         <= Z.of_nat (requests added)
            * (RETRY_DELAY * (2 * Z.of_nat attempt + Z.of_nat (requests added) + 3))
      /\ (Py.startswith (attempts network attempt remaining trace).1 "ERROR:" = true
          \/ exists content,
               network (attempt + requests added - 1)%nat = Answered content
               /\ (attempts network attempt remaining trace).1 = strip content
               /\ last added = Some Requested).
Proof.
  induction remaining as [|remaining IH]; intros attempt trace Hsum.
  - exists []. cbn [attempts fst snd]. rewrite app_nil_r.
    split; [reflexivity|]. split; [cbn; lia|]. split; [lia|].
    split; [cbn; unfold RETRY_DELAY; lia|]. left. reflexivity.
  - assert (Hnext : (S attempt + remaining = MAX_RETRIES)%nat) by lia.
    assert (Hretry : forall pause,
              0 <= pause <= RETRY_DELAY * (Z.of_nat attempt + 2) ->
              exists added,
                (attempts network (S attempt) remaining
                   (trace ++ [Requested; Slept pause])).2 = trace ++ added
                /\ (requests added <= S remaining)%nat
                /\ ((0 < S remaining)%nat -> (1 <= requests added)%nat)
                /\ 0 <= 2 * seconds_slept added
                   <= Z.of_nat (requests added)
                      * (RETRY_DELAY
                         * (2 * Z.of_nat attempt + Z.of_nat (requests added) + 3))
                /\ (Py.startswith
                      (attempts network (S attempt) remaining
                         (trace ++ [Requested; Slept pause])).1 "ERROR:" = true
                    \/ exists content,
                         network (attempt + requests added - 1)%nat = Answered content
                         /\ (attempts network (S attempt) remaining
                               (trace ++ [Requested; Slept pause])).1 = strip content
                         /\ last added = Some Requested)).
    { intros pause Hpause.
      destruct (IH (S attempt) (trace ++ [Requested; Slept pause]) Hnext)
        as (added & Ht & Hr & Hpos & Hs & Hres).
      exists ([Requested; Slept pause] ++ added).
      rewrite requests_app, seconds_slept_app.
      change (requests [Requested; Slept pause]) with 1%nat.
      change (seconds_slept [Requested; Slept pause]) with (pause + 0).
      split; [rewrite Ht, <- app_assoc; reflexivity|].
      split; [lia|]. split; [lia|].
      split.
      { unfold RETRY_DELAY in *.
        rewrite Nat2Z.inj_add. rewrite Nat2Z.inj_succ in Hs.
        change (Z.of_nat 1) with 1. nia. }
      destruct Hres as [Herr | (content & Hn & Hv & Hl)]; [left; exact Herr|].
      right. exists content.
      destruct (proj1 (last_Some _ _) Hl) as (l' & Heq).
      assert (Hone : (1 <= requests added)%nat).
      { rewrite Heq, requests_app. cbn. lia. }
      split; [|split; [exact Hv|]].
      - replace (attempt + (1 + requests added) - 1)%nat
          with (S attempt + requests added - 1)%nat by lia.
        exact Hn.
      - rewrite Heq, app_assoc. apply last_snoc. }
    assert (Hstop : forall text,
              (Py.startswith text "ERROR:" = true
               \/ exists content, network attempt = Answered content /\ text = strip content) ->
              exists added,
                trace ++ [Requested] = trace ++ added
                /\ (requests added <= S remaining)%nat
                /\ ((0 < S remaining)%nat -> (1 <= requests added)%nat)
                /\ 0 <= 2 * seconds_slept added
                   <= Z.of_nat (requests added)
                      * (RETRY_DELAY
                         * (2 * Z.of_nat attempt + Z.of_nat (requests added) + 3))
                /\ (Py.startswith text "ERROR:" = true
                    \/ exists content,
                         network (attempt + requests added - 1)%nat = Answered content
                         /\ text = strip content
                         /\ last added = Some Requested)).
    { intros text Htext. exists [Requested].
      change (requests [Requested]) with 1%nat.
      change (seconds_slept [Requested]) with 0.
      split; [reflexivity|]. split; [lia|]. split; [lia|].
      split; [unfold RETRY_DELAY; lia|].
      destruct Htext as [Herr | (content & Hn & Hv)]; [left; exact Herr|].
      right. exists content. replace (attempt + 1 - 1)%nat with attempt by lia.
      repeat split; assumption. }
    cbn [attempts].
    destruct (network attempt) as [content|code error_body|message] eqn:Hout.
    + cbn [fst snd]. apply Hstop. right. exists content. split; reflexivity.
    + destruct (code =? 429).
      * apply Hretry. unfold RETRY_DELAY. lia.
      * destruct (500 <=? code).
        -- apply Hretry. unfold RETRY_DELAY. lia.
        -- cbn [fst snd]. apply Hstop. left.
           apply (error_prefix (" HTTP " +:+ pretty code +:+ ": " +:+ Py.take_str 200 error_body)).
    + destruct (attempt <? MAX_RETRIES - 1)%nat.
      * apply Hretry. unfold RETRY_DELAY. lia.
      * cbn [fst snd]. apply Hstop. left. apply (error_prefix (" " +:+ message)).
Qed.

(** X25.  [call_mistral] sends at least one request and at most
    [MAX_RETRIES], and sleeps 27 seconds at most.  What it returns
    either starts with [ERROR:] or is the stripped content of the
    answer to its last request, with no sleep after that request. *)
Theorem X25_call_bounds :
  let out := call_mistral network in
  (1 <= requests out.2 <= MAX_RETRIES)%nat
  /\ 0 <= seconds_slept out.2 <= 27
  /\ (Py.startswith out.1 "ERROR:" = true
      \/ exists content,
           network (requests out.2 - 1)%nat = Answered content
           /\ out.1 = strip content
           /\ last out.2 = Some Requested).
Proof.
  intros out. subst out. unfold call_mistral.
  destruct (attempts_spec MAX_RETRIES 0%nat [] eq_refl)
    as (added & Ht & Hr & Hpos & Hs & Hres).
  cbn [app] in Ht. rewrite Ht.
  assert (Hone : (1 <= requests added)%nat) by (apply Hpos; unfold MAX_RETRIES; lia).
  split; [lia|]. split.
  - unfold MAX_RETRIES, RETRY_DELAY in *. nia.
  - destruct Hres as [Herr | (content & Hn & Hv & Hl)]; [left; exact Herr|].
    right. exists content. cbn [Nat.add] in Hn. repeat split; assumption.
Qed.

(** The loop when the next [n] outcomes are failures that it retries,
    and a turn is left for the one after them. *)
Lemma attempts_retried n :
  forall attempt remaining trace,
    (attempt + remaining = MAX_RETRIES)%nat ->
    (n <= remaining)%nat ->
    (forall k, (attempt <= k < attempt + n)%nat -> retried (network k) = true) ->
    (forall k message, (attempt <= k < attempt + n)%nat ->
                       network k = OtherException message -> (k < MAX_RETRIES - 1)%nat) ->
    exists pauses,
      length pauses = n
      /\ attempts network attempt remaining trace
         = attempts network (attempt + n) (remaining - n)
             (trace ++ flat_map (fun pause => [Requested; Slept pause]) pauses).
Proof.
  induction n as [|n IH]; intros attempt remaining trace Hsum Hn Hall Hexc.
  - exists []. cbn [flat_map length]. rewrite app_nil_r, Nat.add_0_r, Nat.sub_0_r.
    split; reflexivity.
  - destruct remaining as [|remaining]; [lia|].
    assert (Hthis : retried (network attempt) = true) by (apply Hall; lia).
    assert (Hstep : exists pause,
              attempts network attempt (S remaining) trace
              = attempts network (S attempt) remaining (trace ++ [Requested; Slept pause])).
    { cbn [attempts].
      destruct (network attempt) as [content|code error_body|message] eqn:Hout.
      - discriminate.
      - cbn [retried] in Hthis. destruct (code =? 429); [eexists; reflexivity|].
        cbn [orb] in Hthis. rewrite Hthis. eexists; reflexivity.
      - assert (Hlt : (attempt < MAX_RETRIES - 1)%nat) by (apply (Hexc attempt message); first [lia | exact Hout]).
        apply Nat.ltb_lt in Hlt. rewrite Hlt. eexists; reflexivity. }
    destruct Hstep as (pause & ->).
    destruct (IH (S attempt) remaining (trace ++ [Requested; Slept pause]))
      as (pauses & Hlen & ->).
    + lia.
    + lia.
    + intros k Hk. apply Hall. lia.
    + intros k message Hk. apply Hexc. lia.
    + exists (pause :: pauses). cbn [length flat_map]. split; [lia|].
      rewrite <- app_assoc.
      replace (attempt + S n)%nat with (S attempt + n)%nat by lia.
      replace (S remaining - S n)%nat with (remaining - n)%nat by lia. reflexivity.
Qed.

Lemma requests_pauses pauses :
  requests (flat_map (fun pause => [Requested; Slept pause]) pauses) = length pauses.
Proof.
  induction pauses as [|pause pauses IH]; [reflexivity|].
  cbn [flat_map]. rewrite requests_app, IH. reflexivity.
Qed.

(** X26.  The call stops at the first outcome that is an answer or a
    client error other than 429: when the outcomes before the [n]-th
    request are failures of the kind the loop retries (429, 5xx, an
    exception), the call sends exactly [n + 1] requests, and returns
    the stripped content of the answer, or the text
    [ERROR: HTTP <code>: <first 200 characters of the body>]. *)
Theorem X26_first_final_outcome (n : nat) :
  (n < MAX_RETRIES)%nat ->
  (forall k, (k < n)%nat -> retried (network k) = true) ->
  retried (network n) = false ->
  let out := call_mistral network in
  requests out.2 = S n
  /\ last out.2 = Some Requested
  /\ out.1 = match network n with
             | Answered content => strip content
             | HTTPError code error_body =>
                 "ERROR: HTTP " +:+ pretty code +:+ ": " +:+ Py.take_str 200 error_body
             | OtherException message => "ERROR: " +:+ message
             end.
Proof.
  intros Hn Hall Hlast out. subst out. unfold call_mistral.
  destruct (attempts_retried n 0%nat MAX_RETRIES []) as (pauses & Hlen & ->).
  - reflexivity.
  - lia.
  - intros k Hk. apply Hall. lia.
  - intros k message Hk _. unfold MAX_RETRIES in *. lia.
  - cbn [Nat.add app].
    destruct (MAX_RETRIES - n)%nat as [|remaining] eqn:Hrem; [lia|].
    cbn [attempts].
    destruct (network n) as [content|code error_body|message] eqn:Hout.
    + cbn [fst snd]. rewrite requests_app, requests_pauses, Hlen, last_snoc.
      cbn. split; [lia|]. split; reflexivity.
    + cbn [retried] in Hlast. apply orb_false_elim in Hlast as [-> ->].
      cbn [fst snd]. rewrite requests_app, requests_pauses, Hlen, last_snoc.
      cbn. split; [lia|]. split; reflexivity.
    + discriminate.
Qed.

(** X27.  When every outcome is a failure of the kind the loop
    retries, the call sends [MAX_RETRIES] requests and gives up: with
    [ERROR: Max retries exceeded] when the last failure is an HTTP
    error, after one more sleep, and with the message of the exception
    when it is an exception, without that sleep. *)
Theorem X27_all_attempts_fail :
  (forall k, (k < MAX_RETRIES)%nat -> retried (network k) = true) ->
  let out := call_mistral network in
  requests out.2 = MAX_RETRIES
  /\ match network (MAX_RETRIES - 1)%nat with
     | OtherException message =>
         out.1 = "ERROR: " +:+ message /\ last out.2 = Some Requested
     | _ =>
         out.1 = "ERROR: Max retries exceeded"
         /\ exists pause, last out.2 = Some (Slept pause) /\ 0 < pause
     end.
Proof.
  intros Hall out. subst out. unfold call_mistral.
  destruct (attempts_retried 2 0%nat MAX_RETRIES []) as (pauses & Hlen & ->).
  - reflexivity.
  - unfold MAX_RETRIES. lia.
  - intros k Hk. apply Hall. unfold MAX_RETRIES. lia.
  - intros k message Hk _. unfold MAX_RETRIES. lia.
  - pose proof (Hall 2%nat) as H2. unfold MAX_RETRIES in H2 |- *.
    specialize (H2 ltac:(lia)).
    cbn [Nat.add Nat.sub app attempts].
    destruct (network 2%nat) as [content|code error_body|message] eqn:Hout.
    + discriminate.
    + cbn [retried] in H2.
      destruct (code =? 429) eqn:E429.
      * cbn [fst snd]. rewrite requests_app, requests_pauses, Hlen.
        split; [reflexivity|]. split; [reflexivity|].
        eexists. split.
        -- rewrite last_app. reflexivity.
        -- unfold RETRY_DELAY. lia.
      * cbn [orb] in H2. rewrite H2.
        cbn [fst snd]. rewrite requests_app, requests_pauses, Hlen.
        split; [reflexivity|]. split; [reflexivity|].
        eexists. split.
        -- rewrite last_app. reflexivity.
        -- unfold RETRY_DELAY. lia.
    + unfold MAX_RETRIES. cbn [Nat.sub Nat.ltb Nat.leb fst snd].
      rewrite requests_app, requests_pauses, Hlen, last_snoc.
      split; [reflexivity|]. split; reflexivity.
Qed.

End TransportProperties.

(** ** The statements above at sample inputs *)

Section GateFurtherSamples.

Import PromptTemplates Safeguards Samples.

Lemma X1_empty_content_blocks_witness :
  approved (validate_content (fun _ => None) 1 (Some "") CtxNone (Some 1)) = false
  /\ In "BLOCKED: Empty content"
       (reasons (validate_content (fun _ => None) 1 (Some "") CtxNone (Some 1))).
Proof. apply X1_empty_content_blocks. reflexivity. Defined.

Lemma X2_decision_ignores_text_witness :
  reasons (validate_content (fun _ => None) 5 (Some plain_text)
             (CtxDict none_tier_25) (Some 1))
  = reasons (validate_content (fun _ => None) 5 (Some "A stunning hidden gem.")
               (CtxDict none_tier_25) (Some 1))
  /\ approved (validate_content (fun _ => None) 5 (Some plain_text)
                 (CtxDict none_tier_25) (Some 1))
     = approved (validate_content (fun _ => None) 5 (Some "A stunning hidden gem.")
                   (CtxDict none_tier_25) (Some 1)).
Proof. apply X2_decision_ignores_text; vm_compute; discriminate. Defined.

Lemma X3_no_metadata_blocks_witness :
  approved (validate_content (fun _ => None) 5 (Some plain_text)
              (CtxStr "not json") (Some 1)) = false.
Proof. apply X3_no_metadata_blocks. reflexivity. Defined.

Lemma X4_percentage_is_fraction_witness :
  validate_content (fun _ => None) 5 (Some plain_text)
    (CtxDict {| ctx_data_quality := Some "rich";
                ctx_hallucination_rate := Some (25 # 1);
                ctx_verification_verdict := Some "FAIL";
                ctx_unsupported_claims := Some [];
                ctx_word_count := Some 32 |}) (Some 1)
  = validate_content (fun _ => None) 5 (Some plain_text)
      (CtxDict {| ctx_data_quality := Some "rich";
                  ctx_hallucination_rate := Some ((25 # 1) / 100)%Q;
                  ctx_verification_verdict := Some "FAIL";
                  ctx_unsupported_claims := Some [];
                  ctx_word_count := Some 32 |}) (Some 1).
Proof.
  apply X4_percentage_is_fraction.
  - reflexivity.
  - unfold Qle. cbn. lia.
Defined.

End GateFurtherSamples.

Section ItemFurtherSamples.

Import PromptTemplates Regeneration Samples.

Lemma X9_generation_failure_witness :
  exists r w',
    process_single_poi pass_loads (sheet 1 "none") "" (fresh_world service_down)
    = (Returned r, w')
    /\ r_verdict r = "ERROR"
    /\ r_status r = "review_required".
Proof.
  destruct (X9_generation_failure pass_loads (sheet 1 "none") ""
              (fresh_world service_down) eq_refl)
    as (r & w' & Hrun & _ & _ & _ & _ & Hv & Hs & _).
  exists r, w'. split; [exact Hrun|]. split; [exact Hv | exact Hs].
Defined.

Lemma X11_fallback_verdicts_witness :
  exists v,
    parse_verification (fun _ => None) "All claims are supported." = Returned v
    /\ default [] (v_unsupported_claims v) = [].
Proof.
  eexists. split; [vm_compute; reflexivity|].
  refine (proj1 (proj2 (X11_fallback_verdicts (fun _ => None)
                          "All claims are supported." _ _ _))).
  - intros json_str _. reflexivity.
  - vm_compute. reflexivity.
Defined.

Lemma X12_recommendation_witness :
  exists r,
    record_verification (initial_result (sheet 1 "none") "") plain_text 32
      {| wmin := 30; wmax := 60 |} 0 verified_pass = Returned r
    /\ (r_recommendation r = "USE_NEW" \/ r_recommendation r = "MANUAL_REVIEW").
Proof.
  destruct (X12_recommendation (initial_result (sheet 1 "none") "") plain_text 32
              {| wmin := 30; wmax := 60 |} 0 verified_pass)
    as (r & Hr & Hrec & _).
  - intros raw Hin. exact Hin.
  - exists r. split; [exact Hr | exact Hrec].
Defined.

Lemma X13_run_outcome_witness :
  let run :=
    run_generation_and_verification pass_loads [sheet 1 "none"] ∅ no_checkpoint
      None 0 (fresh_world (service pass_json)) in
  exists new, map r_poi_id new = [1] /\ staging_log run.2 = new.
Proof.
  cbv zeta.
  destruct (run_generation_and_verification pass_loads [sheet 1 "none"] ∅
              no_checkpoint None 0 (fresh_world (service pass_json)))
    as [[results|e] w'] eqn:E.
  - destruct (X13_run_outcome pass_loads _ _ _ _ _ _ _ _ E)
      as (new & _ & Hids & Hlog & _).
    exists new. split; [exact Hids | exact Hlog].
  - vm_compute in E. discriminate E.
Defined.

Lemma X17_resume_after_complete_witness :
  let first :=
    main pass_loads false [sheet 1 "none"] ∅ None 0 (fresh_world (service pass_json)) in
  let second := main pass_loads true [sheet 1 "none"] ∅ None 0 first.2 in
  calls second.2 = calls first.2 /\ staging_log second.2 = staging_log first.2.
Proof.
  cbv zeta.
  destruct (main pass_loads false [sheet 1 "none"] ∅ None 0
              (fresh_world (service pass_json)))
    as [[results|e] w1] eqn:E.
  - exact (X17_resume_after_complete pass_loads _ _ _ _ _ E).
  - vm_compute in E. discriminate E.
Defined.

End ItemFurtherSamples.

Section PromoteFurtherSamples.

Import Promote Samples.

Lemma X18_audit_trail_accounts_witness :
  let db' :=
    foldl (fun d a => main (fun _ => None) a d) store_changed
      [execute_promote; execute_rollback_7] in
  exists entries,
    history db' = history store_changed ++ entries
    /\ POI db' !! 7
       = Some (audit_result (Some "An old text.") (entries_of 7 entries)).
Proof.
  destruct (X18_audit_trail_accounts (fun _ => None)
              [execute_promote; execute_rollback_7] store_changed 7
              (Some "An old text."))
    as (entries & H1 & _ & H3 & _).
  - vm_compute. reflexivity.
  - exists entries. split; [exact H1 | exact H3].
Defined.

Lemma X23_rollback_twice_witness :
  let db := (promote_to_production false store_changed).2 in
  let db1 := (rollback_poi 7 false db).2 in
  POI db1 !! 7 = Some (Some "An old text.")
  /\ POI (rollback_poi 7 false db1).2 !! 7 = Some (Some "A bakery in Calpe.").
Proof.
  intros db db1.
  destruct (X23_rollback_twice 7 db "A bakery in Calpe.") as (_ & _ & H & _).
  - vm_compute. reflexivity.
  - discriminate.
  - vm_compute. reflexivity.
  - split; [vm_compute; reflexivity | exact H].
Defined.

End PromoteFurtherSamples.

Section TransportSamples.

Import Transport Samples.

Lemma X26_first_final_outcome_witness :
  let out := call_mistral second_try in
  requests out.2 = 2%nat /\ out.1 = "A bakery in Calpe.".
Proof.
  intros out.
  destruct (X26_first_final_outcome second_try 1) as (H1 & _ & H3).
  - unfold MAX_RETRIES. lia.
  - intros k Hk. destruct k; [reflexivity | lia].
  - reflexivity.
  - split; [exact H1 | exact H3].
Defined.

Lemma X27_all_attempts_fail_witness :
  let out := call_mistral rate_limited in
  requests out.2 = 3%nat /\ out.1 = "ERROR: Max retries exceeded".
Proof.
  intros out.
  destruct (X27_all_attempts_fail rate_limited (fun _ _ => eq_refl)) as (H1 & H2 & _).
  split; [exact H1 | exact H2].
Defined.

End TransportSamples.
